(** * LabelNation: label layout and document emission

    A shallow embedding of [labelnation.py] (sheet specifications, the
    parameter-file loader, the label loop of [make_labels] and the option
    checks of [main]) together with the properties of its layout engine.

    Conventions of the embedding.
    - Python numbers ([int] and [float]) are idealised as rationals [Q]:
      arithmetic is exact, [==] is [Qeq], [int(..)] and the [%d] conversion
      truncate toward zero.  Rounding of binary floating point is outside
      the model.
    - Python [str] is [string]; a text file is read as the list of the
      lines [readline] returns.
    - Writes to the output document are recorded as a list of [ps_item],
      one constructor per write site of [make_labels]; [render] gives the
      text of each item. *)

From Stdlib Require Import ZArith QArith Qround Qabs String Ascii List Bool Lia.
From Stdlib Require Import DecimalString DecimalZ DecimalPos.
Import ListNotations.

Local Open Scope string_scope.
Local Open Scope Z_scope.

(* ================================================================= *)
(** ** Python primitives used by the program *)

Module Py.

(** Characters named by the source. *)
Definition nl : ascii := "010"%char.
Definition tab : ascii := "009"%char.
Definition cr : ascii := "013"%char.
Definition vtab : ascii := "011"%char.
Definition ff : ascii := "012"%char.
Definition dquote : ascii := "034"%char.
Definition squote : ascii := "039"%char.
Definition backslash : ascii := "092"%char.

(** Whitespace of [str.split()], [str.rstrip()] and the regexp class \s. *)
Definition is_space (c : ascii) : bool :=
  Ascii.eqb c " " || Ascii.eqb c tab || Ascii.eqb c nl
  || Ascii.eqb c cr || Ascii.eqb c vtab || Ascii.eqb c ff.

(** [s.replace(c, r)] for a one-character pattern [c]. *)
Fixpoint replace (c : ascii) (r : string) (s : string) : string :=
  match s with
  | EmptyString => EmptyString
  | String a t =>
      if Ascii.eqb a c then r ++ replace c r t else String a (replace c r t)
  end.

Definition lower_char (c : ascii) : ascii :=
  let n := nat_of_ascii c in
  if (Nat.leb 65 n && Nat.leb n 90)%bool then ascii_of_nat (n + 32) else c.

(** [s.lower()] *)
Fixpoint lower (s : string) : string :=
  match s with
  | EmptyString => EmptyString
  | String a t => String (lower_char a) (lower t)
  end.

(** [s.lstrip()] *)
Fixpoint lstrip (s : string) : string :=
  match s with
  | EmptyString => EmptyString
  | String a t => if is_space a then lstrip t else s
  end.

(** [s.rstrip()] *)
Fixpoint rstrip (s : string) : string :=
  match s with
  | EmptyString => EmptyString
  | String a t =>
      match rstrip t with
      | EmptyString => if is_space a then EmptyString else String a EmptyString
      | r => String a r
      end
  end.

(** [s.strip()] *)
Definition strip (s : string) : string := lstrip (rstrip s).

(** [s.split()]: the maximal runs of non-whitespace characters. *)
Fixpoint split (s : string) : list string :=
  match s with
  | EmptyString => []
  | String a t =>
      if is_space a then split t
      else match t with
           | EmptyString => [String a EmptyString]
           | String b _ =>
               if is_space b then String a EmptyString :: split t
               else match split t with
                    | w :: ws => String a w :: ws
                    | [] => [String a EmptyString]
                    end
           end
  end.

(** [" " * n] (empty when [n <= 0]). *)
Definition spaces (n : Z) : string :=
  string_of_list_ascii (repeat " "%char (Z.to_nat n)).

(** The successive results of [f.readline()] on a file: its lines, each
    with its newline (the last one may lack it).  After the last line
    [readline] answers the empty string. *)
Fixpoint readlines (content : string) : list string :=
  match content with
  | EmptyString => []
  | String a t =>
      if Ascii.eqb a nl then String a EmptyString :: readlines t
      else match readlines t with
           | [] => [String a EmptyString]
           | l :: ls => String a l :: ls
           end
  end.

(** Last character and all but the last character of a string. *)
Fixpoint last_char (s : string) : option ascii :=
  match s with
  | EmptyString => None
  | String a EmptyString => Some a
  | String _ t => last_char t
  end.

Fixpoint drop_last (s : string) : string :=
  match s with
  | EmptyString => EmptyString
  | String _ EmptyString => EmptyString
  | String a t => String a (drop_last t)
  end.

(** [int(q)] on a number: truncation toward zero. *)
Definition int (q : Q) : Z := Z.quot (Qnum q) (Zpos (Qden q)).

(** [a % b] on numbers (the result has the sign of [b]).  The caller
    checks [b] for zero. *)
Definition mod_ (a b : Q) : Q := (a - b * inject_Z (Qfloor (a / b)))%Q.

(** Decimal numeral of an integer, as [str(int)] and [%d] print it. *)
Definition string_of_Z (z : Z) : string := NilZero.string_of_int (Z.to_int z).

(** ["%d" % q] *)
Definition fmt_d (q : Q) : string := string_of_Z (int q).

(** Nearest integer, ties to even. *)
Definition round_half_even (q : Q) : Z :=
  let f := Qfloor q in
  let r := (q - inject_Z f)%Q in
  match (r ?= 1 # 2)%Q with
  | Lt => f
  | Gt => f + 1
  | Eq => if Z.even f then f else f + 1
  end.

Definition pad6 (s : string) : string :=
  string_of_list_ascii (repeat "0"%char (6 - String.length s)) ++ s.

(** ["%f" % q]: six decimals. *)
Definition fmt_f (q : Q) : string :=
  let n := round_half_even (Qabs q * inject_Z 1000000)%Q in
  (if Qlt_le_dec q 0 then "-" else "")
    ++ string_of_Z (n / 1000000) ++ "." ++ pad6 (string_of_Z (n mod 1000000)).

(** Digits of a literal: [Nil] for the empty string. *)
Definition digits (s : string) : option Z :=
  option_map Z.of_uint (NilEmpty.uint_of_string s).

(** Cut a string at its first character that satisfies [p]. *)
Fixpoint cut (p : ascii -> bool) (s : string) : string * option string :=
  match s with
  | EmptyString => (EmptyString, None)
  | String a t =>
      if p a then (EmptyString, Some t)
      else let (l, r) := cut p t in (String a l, r)
  end.

Definition unsign (s : string) : bool * string :=
  match s with
  | String "-" t => (true, t)
  | String "+" t => (false, t)
  | _ => (false, s)
  end.

Definition signed (neg : bool) (q : Q) : Q := if neg then (- q)%Q else q.

(** The digits of a decimal literal, with or without a fraction: digits,
    digits.digits, digits. or .digits *)
Definition mantissa (s : string) : option Q :=
  match cut (Ascii.eqb ".") s with
  | (ip, None) =>
      match ip with
      | EmptyString => None
      | _ => option_map inject_Z (digits ip)
      end
  | (ip, Some fp) =>
      match ip, fp with
      | EmptyString, EmptyString => None
      | _, _ =>
          match digits ip, digits fp with
          | Some i, Some f =>
              let scale := 10 ^ Z.of_nat (String.length fp) in
              Some (Qmake (i * scale + f) (Z.to_pos scale))
          | _, _ => None
          end
      end
  end.

(** The exponent of a literal: optional sign and at least one digit. *)
Definition exponent (s : string) : option Z :=
  let (neg, body) := unsign s in
  match body with
  | EmptyString => None
  | _ => option_map (fun n => if neg then - n else n) (digits body)
  end.

Definition is_e (c : ascii) : bool := Ascii.eqb c "e" || Ascii.eqb c "E".

(** [float(s)] on decimal literals: optional sign, mantissa, optional
    exponent, surrounding whitespace ignored.  [None] is ValueError.  The
    value is the exact rational the literal denotes.  The spellings inf, nan
    and infinity, which denote no number, are not part of the model and are
    answered [None]. *)
Definition float (s : string) : option Q :=
  let (neg, body) := unsign (strip s) in
  match cut is_e body with
  | (m, None) => option_map (signed neg) (mantissa m)
  | (m, Some e) =>
      match mantissa m, exponent e with
      | Some q, Some k => Some (signed neg (q * Qpower 10 k)%Q)
      | _, _ => None
      end
  end.

(** [int(s)] on a string: optional sign and at least one digit,
    surrounding whitespace ignored.  [None] is ValueError. *)
Definition int_of_string (s : string) : option Z :=
  let (neg, body) := unsign (strip s) in
  match body with
  | EmptyString => None
  | _ => option_map (fun n => if neg then - n else n) (digits body)
  end.

End Py.

(** One-character line terminator. *)
Definition NL : string := String Py.nl EmptyString.

(** Exceptions the program can die of. *)
Inductive exn : Type :=
| ValueError | TypeError | NameError | ZeroDivisionError | IOError
| StopIteration.

Inductive result (A : Type) : Type :=
| Ok (a : A)
| Raise (e : exn).
Arguments Ok {A} a.
Arguments Raise {A} e.

Definition bind {A B : Type} (r : result A) (k : A -> result B) : result B :=
  match r with
  | Ok a => k a
  | Raise e => Raise e
  end.

Notation "x <- r ;; k" := (bind r (fun x => k))
  (at level 61, r at next level, right associativity).

(** [float(s)] and [int(s)] as calls that can raise. *)
Definition float_of (s : string) : result Q :=
  match Py.float s with Some q => Ok q | None => Raise ValueError end.

Definition int_of (s : string) : result Z :=
  match Py.int_of_string s with Some n => Ok n | None => Raise ValueError end.

(* ================================================================= *)
(** ** class SheetSpec *)

Record SheetSpec : Type := mkSheetSpec {
  left_margin : option Q;      (* first label from left starts here *)
  bottom_margin : option Q;    (* first label from bottom starts here *)
  label_width : option Q;
  label_height : option Q;
  horiz_space : option Q;
  vert_space : option Q;
  horiz_num_labels : option Q;
  vert_num_labels : option Q;
  first_label : Q;
  font_name : string;
  font_size : Q
}.

Definition default_first_label : Q := 1.
Definition default_font_name : string := "Times-Roman".
Definition default_font_size : Q := 12.

(** [SheetSpec()] *)
Definition SheetSpec_init : SheetSpec :=
  mkSheetSpec None None None None None None None None
              default_first_label default_font_name default_font_size.

(** [SheetSpec(left_margin=.., .., font_name=.., font_size=..)] as the
    built-in table calls it: [first_label] keeps its default. *)
Definition SheetSpec_of (lm bm lw lh hs vs hn vn : Q) (fn : string) (fs : Q)
  : SheetSpec :=
  mkSheetSpec (Some lm) (Some bm) (Some lw) (Some lh) (Some hs) (Some vs)
              (Some hn) (Some vn) default_first_label fn fs.

(** Attribute assignments. *)
Definition set_left_margin (v : Q) (s : SheetSpec) : SheetSpec :=
  mkSheetSpec (Some v) (bottom_margin s) (label_width s) (label_height s)
    (horiz_space s) (vert_space s) (horiz_num_labels s) (vert_num_labels s)
    (first_label s) (font_name s) (font_size s).
Definition set_bottom_margin (v : Q) (s : SheetSpec) : SheetSpec :=
  mkSheetSpec (left_margin s) (Some v) (label_width s) (label_height s)
    (horiz_space s) (vert_space s) (horiz_num_labels s) (vert_num_labels s)
    (first_label s) (font_name s) (font_size s).
Definition set_label_width (v : Q) (s : SheetSpec) : SheetSpec :=
  mkSheetSpec (left_margin s) (bottom_margin s) (Some v) (label_height s)
    (horiz_space s) (vert_space s) (horiz_num_labels s) (vert_num_labels s)
    (first_label s) (font_name s) (font_size s).
Definition set_label_height (v : Q) (s : SheetSpec) : SheetSpec :=
  mkSheetSpec (left_margin s) (bottom_margin s) (label_width s) (Some v)
    (horiz_space s) (vert_space s) (horiz_num_labels s) (vert_num_labels s)
    (first_label s) (font_name s) (font_size s).
Definition set_horiz_space (v : Q) (s : SheetSpec) : SheetSpec :=
  mkSheetSpec (left_margin s) (bottom_margin s) (label_width s) (label_height s)
    (Some v) (vert_space s) (horiz_num_labels s) (vert_num_labels s)
    (first_label s) (font_name s) (font_size s).
Definition set_vert_space (v : Q) (s : SheetSpec) : SheetSpec :=
  mkSheetSpec (left_margin s) (bottom_margin s) (label_width s) (label_height s)
    (horiz_space s) (Some v) (horiz_num_labels s) (vert_num_labels s)
    (first_label s) (font_name s) (font_size s).
Definition set_horiz_num_labels (v : Q) (s : SheetSpec) : SheetSpec :=
  mkSheetSpec (left_margin s) (bottom_margin s) (label_width s) (label_height s)
    (horiz_space s) (vert_space s) (Some v) (vert_num_labels s)
    (first_label s) (font_name s) (font_size s).
Definition set_vert_num_labels (v : Q) (s : SheetSpec) : SheetSpec :=
  mkSheetSpec (left_margin s) (bottom_margin s) (label_width s) (label_height s)
    (horiz_space s) (vert_space s) (horiz_num_labels s) (Some v)
    (first_label s) (font_name s) (font_size s).
Definition set_first_label (v : Q) (s : SheetSpec) : SheetSpec :=
  mkSheetSpec (left_margin s) (bottom_margin s) (label_width s) (label_height s)
    (horiz_space s) (vert_space s) (horiz_num_labels s) (vert_num_labels s)
    v (font_name s) (font_size s).
Definition set_font_name (v : string) (s : SheetSpec) : SheetSpec :=
  mkSheetSpec (left_margin s) (bottom_margin s) (label_width s) (label_height s)
    (horiz_space s) (vert_space s) (horiz_num_labels s) (vert_num_labels s)
    (first_label s) v (font_size s).
Definition set_font_size (v : Q) (s : SheetSpec) : SheetSpec :=
  mkSheetSpec (left_margin s) (bottom_margin s) (label_width s) (label_height s)
    (horiz_space s) (vert_space s) (horiz_num_labels s) (vert_num_labels s)
    (first_label s) (font_name s) v.

(** [x if self.x is None else self.x] *)
Definition if_none (own other : option Q) : option Q :=
  match own with
  | None => other
  | Some _ => own
  end.

(** [SheetSpec.absorb]: the object [self] is left with after the call. *)
Definition absorb (self spec : SheetSpec) : SheetSpec :=
  {| left_margin := if_none (left_margin self) (left_margin spec);
     bottom_margin := if_none (bottom_margin self) (bottom_margin spec);
     label_width := if_none (label_width self) (label_width spec);
     label_height := if_none (label_height self) (label_height spec);
     horiz_space := if_none (horiz_space self) (horiz_space spec);
     vert_space := if_none (vert_space self) (vert_space spec);
     horiz_num_labels := if_none (horiz_num_labels self) (horiz_num_labels spec);
     vert_num_labels := if_none (vert_num_labels self) (vert_num_labels spec);
     first_label :=
       if Qeq_bool (first_label self) default_first_label
       then first_label spec else first_label self;
     font_name :=
       if String.eqb (font_name self) default_font_name
       then font_name spec else font_name self;
     font_size :=
       if Qeq_bool (font_size self) default_font_size
       then font_size spec else font_size self |}.

(** [SheetSpec.__str__]: the dump printed by --show-parameters.  Formatting
    [None] with [%d] is a TypeError. *)
Definition SheetSpec_str (s : SheetSpec) : result string :=
  match left_margin s, bottom_margin s, label_width s, label_height s,
        horiz_space s, vert_space s, horiz_num_labels s, vert_num_labels s with
  | Some lm, Some bm, Some lw, Some lh, Some hs, Some vs, Some hn, Some vn =>
      Ok ("LeftMargin:      " ++ Py.fmt_d lm ++ NL
       ++ "BottomMargin:    " ++ Py.fmt_d bm ++ NL
       ++ "LabelWidth:      " ++ Py.fmt_d lw ++ NL
       ++ "LabelHeight:     " ++ Py.fmt_d lh ++ NL
       ++ "HorizSpace:      " ++ Py.fmt_d hs ++ NL
       ++ "VertSpace:       " ++ Py.fmt_d vs ++ NL
       ++ "HorizNumLabels:  " ++ Py.fmt_d hn ++ NL
       ++ "VertNumLabels:   " ++ Py.fmt_d vn ++ NL
       ++ "FontName:        " ++ font_name s ++ NL
       ++ "FontSize:        " ++ Py.fmt_d (font_size s) ++ NL)
  | _, _, _, _, _, _, _, _ => Raise TypeError
  end.

(* ================================================================= *)
(** ** Subroutines *)

Definition dedelimit_string (str : string) : string :=
  let str := Py.replace Py.nl "" str in
  let str := Py.replace Py.dquote "" str in
  let str := Py.replace Py.squote "" str in
  let str := Py.replace Py.tab "" str in
  let str := Py.replace " " "" str in
  str.

Definition normalize_string (str : string) : string :=
  let str := dedelimit_string str in
  let str := Py.lower str in
  let str := Py.replace "-" "" str in
  let str := Py.replace "_" "" str in
  let str := Py.replace "." "" str in
  str.

(** [type == a or type == b or ..] *)
Definition one_of (type : string) (names : list string) : bool :=
  existsb (String.eqb type) names.

(** Millimetres to points. *)
Definition mm : Q := (72.0 / 25.4)%Q.

(** [sheetspec_for_type]: the built-in sheet catalogue.  The final [else]
    formats its message with the undefined name [otype], so an unknown type
    dies of NameError. *)
Definition sheetspec_for_type (type : string) : result SheetSpec :=
  let type := normalize_string type in
  if one_of type ["avery5161"; "avery5261"; "avery5661"; "avery5961"] then
    Ok (SheetSpec_of 11.25 16.0 270.0 72.0 20.0 0.0 2.0 10.0
                     "Times-Roman" 12.0)
  else if one_of type ["avery5162"; "avery5262"; "avery5662"; "avery5962";
                       "avery15162"; "avery8162"; "avery8252"; "avery8462";
                       "avery18162"; "avery18662"] then
    Ok (SheetSpec_of 11.52 62.0 300.0 96.0 0.0 0.0 2.0 7.0
                     "Times-Roman" 12.0)
  else if String.eqb type "avery5168" then
    Ok (SheetSpec_of 31.0 33.0 254.0 363.0 37.0 0.0 2.0 2.0 "Arial" 33.0)
  else if String.eqb type "avery5444" then
    Ok (SheetSpec_of 164.25 408.0 290.0 145.0 0.0 54.0 1.0 2.0 "Arial" 18.0)
  else if String.eqb type "avery5264" then
    Ok (SheetSpec_of 20.0 25.0 270.0 245.0 37.0 0.0 2.0 3.0 "Arial" 24.0)
  else if one_of type ["avery5160"; "avery5260"; "avery5560"; "avery5660";
                       "avery5960"; "avery5970"; "avery5971"; "avery5972";
                       "avery5979"; "avery5980"; "avery6241"; "avery6460";
                       "avery8660"; "avery6245"; "macoll5805"] then
    Ok (SheetSpec_of 11.25 16.0 180.0 72.0 20.0 0.0 3.0 10.0
                     "Times-Roman" 12.0)
  else if String.eqb type "avery7162" then
    Ok (SheetSpec_of 18.0 28.0 281.0 96.0 20.0 0.0 2.0 8.0
                     "Times-Roman" 12.0)
  else if String.eqb type "avery7163" then
    Ok (SheetSpec_of 14.2 42.5 280.6 107.7 8.5 0 2.0 7.0 "Arial" 11.0)
  else if String.eqb type "avery7160" then
    Ok (SheetSpec_of (mm * 10.25) (mm * 19.0) (mm * 56) (mm * 33.5)
                     (mm * 10.75) (mm * 4.5) 3.0 7.0 "Times-Roman" 11.0)
  else if String.eqb type "avery6571" then
    Ok (SheetSpec_of 60.0 38.0 216.0 45.0 58.0 0.0 2.0 16.0
                     "Times-Roman" 7.0)
  else if one_of type ["avery5167"; "avery5267"; "avery5667"; "avery6467";
                       "avery8167"; "macoll8100"] then
    Ok (SheetSpec_of 14.0 17.0 126.0 36.0 22.5 0.0 4.0 20.0
                     "Times-Roman" 7.0)
  else if one_of type ["avery5371"; "macoll8550"] then
    Ok (SheetSpec_of 48.0 16.0 253.5 145.3 0.0 0.0 2.0 5.0
                     "Times-Roman" 0.0)
  else if one_of type ["avery5263"; "avery5663"; "avery5963"; "avery8163"] then
    Ok (SheetSpec_of 48.0 31.0 253.5 145.3 0.0 0.0 2.0 5.0
                     "Times-Roman" 20.0)
  else if String.eqb type "avery7159" then
    Ok (SheetSpec_of (mm * 0.0) (mm * 0.0) (mm * 57.25) (mm * 32.5)
                     (mm * 11.75) (mm * 4.5) 3.0 8.0 "Times-Roman" 10.0)
  else Raise NameError.

(** The test [re.match('\s*#|^\s*$', line)]: a comment or a blank line. *)
Definition comment_or_blank (line : string) : bool :=
  match Py.lstrip line with
  | EmptyString => true
  | String c _ => Ascii.eqb c "#"
  end.

(** The key of a parameter line: a trailing colon stripped, then
    normalised. *)
Definition param_key (key : string) : string :=
  let key :=
    match Py.last_char key with
    | Some c => if Ascii.eqb c ":" then Py.drop_last key else key
    | None => key
    end in
  normalize_string key.

(** The chain of tests on the key of a parameter line, and the assignment
    it leads to. *)
Definition assign_param (key val line : string) (spec : SheetSpec)
  : result (SheetSpec * list string) :=
  if String.eqb key "leftmargin" then
    v <- float_of (dedelimit_string val) ;; Ok (set_left_margin v spec, [])
  else if String.eqb key "bottommargin" then
    v <- float_of (dedelimit_string val) ;; Ok (set_bottom_margin v spec, [])
  else if String.eqb key "labelwidth" then
    v <- float_of (dedelimit_string val) ;; Ok (set_label_width v spec, [])
  else if String.eqb key "labelheight" then
    v <- float_of (dedelimit_string val) ;; Ok (set_label_height v spec, [])
  else if String.eqb key "horizspace" then
    v <- float_of (dedelimit_string val) ;; Ok (set_horiz_space v spec, [])
  else if String.eqb key "vertspace" then
    v <- float_of (dedelimit_string val) ;; Ok (set_vert_space v spec, [])
  else if String.eqb key "horiznumlabels" then
    v <- float_of (dedelimit_string val) ;;
    Ok (set_horiz_num_labels v spec, [])
  else if String.eqb key "vertnumlabels" then
    v <- float_of (dedelimit_string val) ;;
    Ok (set_vert_num_labels v spec, [])
  else if String.eqb key "fontname" then
    Ok (set_font_name val spec, [])
  else if String.eqb key "fontsize" then
    v <- float_of val ;; Ok (set_font_size v spec, [])
  else
    Ok (spec, ["ERROR: Unknown parameter line '" ++ line ++ "'." ++ NL]).

(** The body of the loop of [parse_param_file] on a line that is not
    skipped: the specification after the line, and what is written to
    standard error. *)
Definition parse_param_line (line : string) (spec : SheetSpec)
  : result (SheetSpec * list string) :=
  match Py.split line with
  | [key; val] =>
      let key := param_key key in
      let val := match val with
                 | EmptyString => val
                 | _ => dedelimit_string val
                 end in
      assign_param key val line spec
  | _ => Raise ValueError (* key, val = line.split() *)
  end.

(** The loop of [parse_param_file] over the lines [readline] returns. *)
Fixpoint parse_param_lines (lines : list string) (spec : SheetSpec)
  (err : list string) : result (SheetSpec * list string) :=
  match lines with
  | [] => Ok (spec, err)
  | line :: rest =>
      if comment_or_blank line then parse_param_lines rest spec err
      else
        r <- parse_param_line line spec ;;
        parse_param_lines rest (fst r) (err ++ snd r)
  end.

(** [parse_param_file] on the contents of the parameter file: the
    specification returned and the text written to standard error. *)
Definition parse_param_file (content : string)
  : result (SheetSpec * list string) :=
  parse_param_lines (Py.readlines content) SheetSpec_init [].

(* ================================================================= *)
(** ** make_labels *)

(** The sheet as [make_labels] reads it: every attribute is a number ([main]
    refuses to go on with a [None] among the eight dimensions). *)
Record Sheet : Type := mkSheet {
  s_left_margin : Q;
  s_bottom_margin : Q;
  s_label_width : Q;
  s_label_height : Q;
  s_horiz_space : Q;
  s_vert_space : Q;
  s_horiz_num_labels : Q;
  s_vert_num_labels : Q;
  s_first_label : Q;
  s_font_name : string;
  s_font_size : Q
}.

Definition resolve (spec : SheetSpec) : option Sheet :=
  match left_margin spec, bottom_margin spec, label_width spec,
        label_height spec, horiz_space spec, vert_space spec,
        horiz_num_labels spec, vert_num_labels spec with
  | Some lm, Some bm, Some lw, Some lh, Some hs, Some vs, Some hn, Some vn =>
      Some (mkSheet lm bm lw lh hs vs hn vn
                    (first_label spec) (font_name spec) (font_size spec))
  | _, _, _, _, _, _, _, _ => None
  end.

(** INPUT_TYPE is "line", "code", or "csv". *)
Inductive InputType : Type := Line | Code | Csv.

Definition is_csv (t : InputType) : bool :=
  match t with Csv => true | _ => false end.
Definition is_code (t : InputType) : bool :=
  match t with Code => true | _ => false end.

(** The input file: its text, and the rows [csv.reader] yields from it. *)
Record Infile : Type := mkInfile {
  text : string;
  csv_rows : list (list string)
}.

(** What [make_labels] writes to the output document, one constructor per
    write site. *)
Inductive ps_item : Type :=
| Header
| Iso8859
| ReencodeFont (font : string)
| Prologue (clipfunc : string)
| SetFont (font : string) (size : Q)
| PageBegin (page : Z) (lm bm : Q)
| LabelBlock (x_step y_step : Q) (code : string)
| ShowPage
| FinalShowPage.

(** The text of an item.  [iso8859] is the static re-encoding boilerplate
    [set_up_iso8859] writes. *)
Definition render (iso8859 : string) (i : ps_item) : string :=
  match i with
  | Header => "%!PS-Adobe-3.0" ++ NL ++ NL
  | Iso8859 => iso8859
  | ReencodeFont f =>
      "/ISO" ++ f ++ " ISO-8859-1Encoding /" ++ f ++ " reencode_font" ++ NL
  | Prologue c =>
      "/labelclip {" ++ NL ++ c ++ NL ++ "} def" ++ NL ++ NL
      ++ "% end prologue" ++ NL ++ NL ++ "% set font type and size" ++ NL
  | SetFont f sz => "ISO" ++ f ++ " " ++ Py.fmt_d sz ++ " scalefont setfont" ++ NL
  | PageBegin n lm bm =>
      "%%Page: labels " ++ Py.string_of_Z n ++ NL ++ NL
      ++ "%BeginPageSetup" ++ NL
      ++ Py.fmt_f lm ++ " " ++ Py.fmt_f bm ++ " " ++ "translate" ++ NL
      ++ "%EndPageSetup" ++ NL ++ NL
  | LabelBlock xs ys code =>
      "gsave" ++ NL
      ++ Py.fmt_d xs ++ " " ++ Py.fmt_d ys ++ NL
      ++ "translate" ++ NL
      ++ "labelclip" ++ NL
      ++ code
      ++ "grestore" ++ NL ++ NL
  | ShowPage => "showpage" ++ NL
  | FinalShowPage => NL ++ "showpage" ++ NL
  end.

Definition render_document (iso8859 : string) (doc : list ps_item) : string :=
  String.concat "" (map (render iso8859) doc).

Definition TAB : string := String Py.tab EmptyString.

Definition make_clipping_func (label_height label_width inner_margin : Q)
  (show_bounding_box : bool) : string :=
  let upper_bound := (label_height - inner_margin)%Q in
  let right_bound := (label_width - inner_margin)%Q in
  TAB ++ "newpath" ++ NL
  ++ TAB ++ Py.fmt_f inner_margin ++ " " ++ Py.fmt_f inner_margin ++ " moveto" ++ NL
  ++ TAB ++ Py.fmt_f right_bound ++ " " ++ Py.fmt_f inner_margin ++ " lineto" ++ NL
  ++ TAB ++ Py.fmt_f right_bound ++ " " ++ Py.fmt_f upper_bound ++ " lineto" ++ NL
  ++ TAB ++ Py.fmt_f inner_margin ++ " " ++ Py.fmt_f upper_bound ++ " lineto" ++ NL
  ++ TAB ++ "closepath" ++ NL
  ++ TAB ++ "clip" ++ NL
  ++ (if show_bounding_box then TAB ++ "stroke" ++ NL else "").

Definition inner_margin : Q := 1.

(** PostScript needs (, ), and \ escaped. *)
Definition escape (line : string) : string :=
  let line := Py.replace Py.backslash "\\" line in
  let line := Py.replace "(" "\(" line in
  let line := Py.replace ")" "\)" line in
  line.

(** Blank lines appended to reach MIN_LABEL_LINES. *)
Definition pad_lines (min_label_lines : Z) (label_lines : list string)
  : list string :=
  let num_lines := Z.of_nat (length label_lines) in
  if num_lines <? min_label_lines
  then label_lines ++ repeat "" (Z.to_nat (min_label_lines - num_lines))
  else label_lines.

(** Left-pad each line of text. *)
Definition left_pad (leading_spaces : Z) (label_lines : list string)
  : list string :=
  map (fun line => Py.spaces leading_spaces ++ line) label_lines.

(** [fontsize] of a label of [num_lines] lines. *)
Definition fontsize (spec : Sheet) (num_lines : Z) : Q :=
  (s_font_size spec / (1.0 + ((inject_Z num_lines - 4.0) / 10.0)))%Q.

(** The font selection of a label. *)
Definition font_instruction (spec : Sheet) (num_lines : Z) : string :=
  "ISO" ++ s_font_name spec ++ " " ++ Py.fmt_d (fontsize spec num_lines)
  ++ " scalefont setfont" ++ NL.

(** The [moveto]/[show] pair of each line, from index [label_line] on. *)
Fixpoint show_lines (upmost_line_start distance_down text_margin : Q)
  (label_line : Z) (lines : list string) : string :=
  match lines with
  | [] => ""
  | l :: rest =>
      let this_line :=
        (upmost_line_start - (inject_Z label_line * distance_down))%Q in
      Py.fmt_f text_margin ++ " " ++ Py.fmt_f this_line ++ " moveto" ++ NL
      ++ "(" ++ l ++ ") show" ++ NL
      ++ show_lines upmost_line_start distance_down text_margin
                    (label_line + 1) rest
  end.

(** The drawing code of a text label (line and csv input), as appended
    to [code_accum]. *)
Definition label_code (spec : Sheet) (label_lines : list string) : string :=
  let num_lines := Z.of_nat (length label_lines) in
  let text_margin := (inner_margin + 2.0)%Q in
  let upmost_line_start :=
    (s_label_height spec / (inject_Z num_lines + 1.0) * inject_Z num_lines)%Q in
  let distance_down := (s_label_height spec / (inject_Z num_lines + 2.0))%Q in
  "newpath" ++ NL
  ++ font_instruction spec num_lines
  ++ show_lines upmost_line_start distance_down text_margin 0 label_lines
  ++ "stroke" ++ NL.

Definition overlong_warning : list string :=
  [ "WARNING: This label is unusually long; ";
    "it might even cause a PostScript error." ++ NL;
    "WARNING: Did you perhaps forget to pass the --delimiter option?" ++ NL;
    "WARNING: (See 'labelnation --help' for more information.)" ++ NL ].

(** [a >= b] with an integer on the left. *)
Definition geq (a : Z) (b : Q) : bool := Qle_bool b (inject_Z a).

(** The loop variables of [make_labels], the unread input, and what was
    written so far.  [line] and [row] are the two uses of the variable
    [line]: a line of text, or a csv row. *)
Record state : Type := mkState {
  label_lines : list string;
  code_accum : string;
  page_number : Z;
  iterate_over_single_page : bool;
  x : Z;
  y : Z;
  overlong_label_warning_already_issued : bool;
  start_new_page : bool;
  line : string;
  row : list string;
  unread : list string;
  unread_rows : list (list string);
  output : list ps_item;
  stderr : list string
}.

Definition with_line (l : string) (rest : list string) (st : state) : state :=
  mkState (label_lines st) (code_accum st) (page_number st)
          (iterate_over_single_page st) (x st) (y st)
          (overlong_label_warning_already_issued st) (start_new_page st)
          l (row st) rest (unread_rows st) (output st) (stderr st).

Definition with_row (r : list string) (rest : list (list string)) (st : state)
  : state :=
  mkState (label_lines st) (code_accum st) (page_number st)
          (iterate_over_single_page st) (x st) (y st)
          (overlong_label_warning_already_issued st) (start_new_page st)
          (line st) r (unread st) rest (output st) (stderr st).

Definition with_iterate (b : bool) (st : state) : state :=
  mkState (label_lines st) (code_accum st) (page_number st) b (x st) (y st)
          (overlong_label_warning_already_issued st) (start_new_page st)
          (line st) (row st) (unread st) (unread_rows st) (output st)
          (stderr st).

Definition with_label_lines (ll : list string) (st : state) : state :=
  mkState ll (code_accum st) (page_number st)
          (iterate_over_single_page st) (x st) (y st)
          (overlong_label_warning_already_issued st) (start_new_page st)
          (line st) (row st) (unread st) (unread_rows st) (output st)
          (stderr st).

Definition with_code_accum (c : string) (st : state) : state :=
  mkState (label_lines st) c (page_number st)
          (iterate_over_single_page st) (x st) (y st)
          (overlong_label_warning_already_issued st) (start_new_page st)
          (line st) (row st) (unread st) (unread_rows st) (output st)
          (stderr st).

Section MakeLabels.

Variable spec : Sheet.
Variable input_type : InputType.
Variable delimiter : option string.
Variable leading_spaces : Z.
Variable min_label_lines : Z.

Definition has_delimiter : bool :=
  match delimiter with Some _ => true | None => false end.

(** [delimiter is not None and line == delimiter] *)
Definition is_delimiter (l : string) : bool :=
  match delimiter with Some d => String.eqb l d | None => false end.

(** The column and the row a label goes to after the one at [(x, y)],
    and whether a page boundary was crossed. *)
Definition advance (x y : Z) : Z * Z * bool :=
  let y := y + 1 in
  let '(x, y) :=
    if geq y (s_vert_num_labels spec) then (x + 1, 0) else (x, y) in
  if geq x (s_horiz_num_labels spec) then (0, y, true) else (x, y, false).

(** The first branch of the loop body: a label is complete.  Its code is
    built (text input), the label is written, clipped and translated, the
    position moves on, and the accumulators are reset.  The list
    comprehension that left-pads the lines leaves its variable [line] bound
    to the last of them; [line] is assigned again by the next read before
    anything looks at it, so [line] and [row] are kept as they were. *)
Definition place (st : state) : state :=
  let label_lines0 := if is_csv input_type then row st else label_lines st in
  let '(label_lines1, code, warned, err) :=
    if is_code input_type
    then (label_lines0, code_accum st,
          overlong_label_warning_already_issued st, stderr st)
    else
      let ll := left_pad leading_spaces
                  (pad_lines min_label_lines label_lines0) in
      let num_lines := Z.of_nat (length ll) in
      let overlong :=
        Qle_bool (160 / s_vert_num_labels spec) (inject_Z num_lines) in
      (ll, code_accum st ++ label_code spec ll,
       overlong_label_warning_already_issued st || overlong,
       (stderr st ++
          (if overlong && negb (overlong_label_warning_already_issued st)
           then overlong_warning else []))%list)
  in
  let page_setup :=
    if start_new_page st
    then [PageBegin (page_number st) (s_left_margin spec)
                    (s_bottom_margin spec)]
    else [] in
  let this_x_step :=
    (inject_Z (x st) * (s_label_width spec + s_horiz_space spec))%Q in
  let this_y_step :=
    (inject_Z (y st) * (s_label_height spec + s_vert_space spec))%Q in
  let '(x1, y1, crossed) := advance (x st) (y st) in
  mkState (if has_delimiter || is_csv input_type then [] else label_lines1)
          ""
          (if crossed then page_number st + 1 else page_number st)
          (iterate_over_single_page st)
          x1 y1 warned crossed
          (line st) (row st) (unread st) (unread_rows st)
          (output st ++ page_setup
             ++ [LabelBlock this_x_step this_y_step code]
             ++ (if crossed then [ShowPage] else []))%list
          err.

(** The three branches of the loop body, up to the next read. *)
Definition body (st : state) : state :=
  let st :=
    if negb (iterate_over_single_page st) && negb (is_csv input_type)
    then with_line (Py.rstrip (line st)) (unread st) st
    else st in
  if is_csv input_type || is_delimiter (line st)
     || iterate_over_single_page st
  then place st
  else if negb (is_code input_type)
  then with_label_lines (label_lines st ++ [escape (line st)])%list st
  else with_code_accum (code_accum st ++ line st ++ NL) st.

(** [input.readline()] *)
Definition read_line (st : state) : state :=
  match unread st with
  | [] => with_line "" [] st
  | l :: rest => with_line l rest st
  end.

(** The test at the end of the loop body that turns the loop into the
    replication of a single label over one page. *)
Definition single_page_guard (st : state) : bool :=
  negb (is_csv input_type)
  && String.eqb (line st) ""
  && negb has_delimiter
  && negb (geq (y st) (s_vert_num_labels spec))
  && negb (geq (x st) (s_horiz_num_labels spec))
  && negb (iterate_over_single_page st && (x st =? 0) && (y st =? 0)).

(** [while line or iterate_over_single_page] *)
Definition continues (st : state) : bool :=
  (if is_csv input_type
   then match row st with [] => false | _ => true end
   else negb (String.eqb (line st) ""))
  || iterate_over_single_page st.

(** The while loop; [None] when [fuel] iterations were not enough. *)
Fixpoint loop (fuel : nat) (st : state) : option state :=
  if continues st then
    match fuel with
    | O => None
    | S fuel =>
        let st := body st in
        if is_csv input_type then
          match unread_rows st with
          | [] => Some st (* StopIteration: break *)
          | r :: rest =>
              let st := with_row r rest st in
              loop fuel (with_iterate (single_page_guard st) st)
          end
        else
          let st := read_line st in
          loop fuel (with_iterate (single_page_guard st) st)
    end
  else Some st.

End MakeLabels.

(** How a call of [make_labels] ends: the loop variables at the end and the
    document written, or the exception it died of and what was written
    before. *)
Inductive run : Type :=
| Completed (final : state) (doc : list ps_item)
| Died (e : exn) (written : list ps_item).

Definition prologue (spec : Sheet) (show_bounding_box : bool) : list ps_item :=
  [ Header; Iso8859; ReencodeFont (s_font_name spec);
    Prologue (make_clipping_func (s_label_height spec) (s_label_width spec)
                                 inner_margin show_bounding_box);
    SetFont (s_font_name spec) (s_font_size spec) ].

(** [make_labels]; [None] when the loop needs more than [fuel] iterations. *)
Definition make_labels (fuel : nat) (spec : Sheet) (infile : Infile)
  (input_type : InputType) (delimiter : option string) (leading_spaces : Z)
  (show_bounding_box : bool) (min_label_lines : Z) : option run :=
  let written := prologue spec show_bounding_box in
  if Qeq_bool (s_vert_num_labels spec) 0
  then Some (Died ZeroDivisionError written)
  else
    let x0 := Py.int ((s_first_label spec - 1) / s_vert_num_labels spec) in
    let y0 :=
      Py.int (Py.mod_ (s_first_label spec - 1) (s_vert_num_labels spec)) in
    let start :=
      mkState [] "" 1 false x0 y0 false true "" []
              (Py.readlines (text infile)) (csv_rows infile) written [] in
    let first :=
      if is_csv input_type then
        match csv_rows infile with
        | [] => None
        | r :: rest => Some (with_row r rest start)
        end
      else Some (read_line start) in
    match first with
    | None => Some (Died StopIteration written)
    | Some st =>
        match loop spec input_type delimiter leading_spaces min_label_lines
                   fuel st with
        | None => None
        | Some st =>
            Some (Completed st
                    (output st ++
                       (if (x st =? 0) && (y st =? 0) then []
                        else [FinalShowPage]))%list)
        end
    end.

(* ================================================================= *)
(** ** main *)

(** What [main] prints on standard output. *)
Inductive printed : Type :=
| Version | Usage | Types | Explain
| Parameters (dump : string).

(** The local variables of [main] while it reads its options, with what was
    printed and reported so far. *)
Module Cli.
Record vars : Type := mk {
  exit_cleanly : bool;
  show_parameters : bool;
  spec : SheetSpec;
  type : option string;
  infile : option string;
  line_input : bool;
  code_input : bool;
  csv_input : bool;
  leading_spaces : Z;
  outfile : string;
  param_file : option string;
  delimiter : option string;
  show_bounding_box : bool;
  min_label_lines : Z;
  exit_with_admonishment : bool;
  stdout : list printed;
  stderr : list string
}.

Definition init : vars :=
  mk false false SheetSpec_init None None false false false 0
     "labelnation.ps" None None false 0 false [] [].
End Cli.

Definition opt_in (opt : string) (names : list string) : bool :=
  existsb (String.eqb opt) names.

(** One turn of the loop [for opt, value in opts]. *)
Definition handle_option (opt value : string) (v : Cli.vars)
  : result Cli.vars :=
  let '(Cli.mk exit_cleanly show_parameters spec type infile line_input
               code_input csv_input leading_spaces outfile param_file
               delimiter show_bounding_box min_label_lines
               exit_with_admonishment out err) := v in
  if String.eqb opt "--version" then
    Ok (Cli.mk true show_parameters spec type infile line_input code_input
          csv_input leading_spaces outfile param_file delimiter
          show_bounding_box min_label_lines exit_with_admonishment
          (out ++ [Version]) err)
  else if opt_in opt ["--help"; "-h"; "-?"; "usage"] then
    Ok (Cli.mk true show_parameters spec type infile line_input code_input
          csv_input leading_spaces outfile param_file delimiter
          show_bounding_box min_label_lines exit_with_admonishment
          (out ++ [Usage]) err)
  else if String.eqb opt "--list-types" then
    Ok (Cli.mk true show_parameters spec type infile line_input code_input
          csv_input leading_spaces outfile param_file delimiter
          show_bounding_box min_label_lines exit_with_admonishment
          (out ++ [Types]) err)
  else if String.eqb opt "--explain" then
    Ok (Cli.mk true show_parameters spec type infile line_input code_input
          csv_input leading_spaces outfile param_file delimiter
          show_bounding_box min_label_lines exit_with_admonishment
          (out ++ [Explain]) err)
  else if String.eqb opt "--show-parameters" then
    Ok (Cli.mk exit_cleanly true spec type infile line_input code_input
          csv_input leading_spaces outfile param_file delimiter
          show_bounding_box min_label_lines exit_with_admonishment out err)
  else if opt_in opt ["-t"; "--type"] then
    Ok (Cli.mk exit_cleanly show_parameters spec (Some value) infile
          line_input code_input csv_input leading_spaces outfile param_file
          delimiter show_bounding_box min_label_lines exit_with_admonishment
          out err)
  else if opt_in opt ["-p"; "--parameter-file"] then
    Ok (Cli.mk exit_cleanly show_parameters spec type infile line_input
          code_input csv_input leading_spaces outfile (Some value) delimiter
          show_bounding_box min_label_lines exit_with_admonishment out err)
  else if opt_in opt ["-i"; "--infile"] then
    Ok (Cli.mk exit_cleanly show_parameters spec type (Some value) line_input
          code_input csv_input leading_spaces outfile param_file delimiter
          show_bounding_box min_label_lines exit_with_admonishment out err)
  else if opt_in opt ["-l"; "--line-input"] then
    Ok (Cli.mk exit_cleanly show_parameters spec type infile true code_input
          csv_input leading_spaces outfile param_file delimiter
          show_bounding_box min_label_lines exit_with_admonishment out err)
  else if opt_in opt ["-c"; "--code-input"] then
    Ok (Cli.mk exit_cleanly show_parameters spec type infile line_input true
          csv_input leading_spaces outfile param_file delimiter
          show_bounding_box min_label_lines exit_with_admonishment out err)
  else if opt_in opt ["--csv"; "--csv-input"] then
    Ok (Cli.mk exit_cleanly show_parameters spec type infile line_input
          code_input true leading_spaces outfile param_file delimiter
          show_bounding_box min_label_lines exit_with_admonishment out err)
  else if String.eqb opt "--leading-spaces" then
    n <- int_of value ;;
    Ok (Cli.mk exit_cleanly show_parameters spec type infile line_input
          code_input csv_input n outfile param_file delimiter
          show_bounding_box min_label_lines exit_with_admonishment out err)
  else if String.eqb opt "--first-label" then
    n <- int_of value ;;
    Ok (Cli.mk exit_cleanly show_parameters
          (set_first_label (inject_Z n) spec) type infile line_input
          code_input csv_input leading_spaces outfile param_file delimiter
          show_bounding_box min_label_lines exit_with_admonishment out err)
  else if opt_in opt ["-d"; "--delimiter"] then
    Ok (Cli.mk exit_cleanly show_parameters spec type infile line_input
          code_input csv_input leading_spaces outfile param_file (Some value)
          show_bounding_box min_label_lines exit_with_admonishment out err)
  else if String.eqb opt "--font-name" then
    Ok (Cli.mk exit_cleanly show_parameters (set_font_name value spec) type
          infile line_input code_input csv_input leading_spaces outfile
          param_file delimiter show_bounding_box min_label_lines
          exit_with_admonishment out err)
  else if String.eqb opt "--font-size" then
    q <- float_of value ;;
    Ok (Cli.mk exit_cleanly show_parameters (set_font_size q spec) type
          infile line_input code_input csv_input leading_spaces outfile
          param_file delimiter show_bounding_box min_label_lines
          exit_with_admonishment out err)
  else if String.eqb opt "--show-bounding-box" then
    Ok (Cli.mk exit_cleanly show_parameters spec type infile line_input
          code_input csv_input leading_spaces outfile param_file delimiter
          true min_label_lines exit_with_admonishment out err)
  else if String.eqb opt "--left-margin" then
    q <- float_of value ;;
    Ok (Cli.mk exit_cleanly show_parameters (set_left_margin q spec) type
          infile line_input code_input csv_input leading_spaces outfile
          param_file delimiter show_bounding_box min_label_lines
          exit_with_admonishment out err)
  else if String.eqb opt "--bottom-margin" then
    q <- float_of value ;;
    Ok (Cli.mk exit_cleanly show_parameters (set_bottom_margin q spec) type
          infile line_input code_input csv_input leading_spaces outfile
          param_file delimiter show_bounding_box min_label_lines
          exit_with_admonishment out err)
  else if opt_in opt ["-o"; "--outfile"] then
    Ok (Cli.mk exit_cleanly show_parameters spec type infile line_input
          code_input csv_input leading_spaces value param_file delimiter
          show_bounding_box min_label_lines exit_with_admonishment out err)
  else if String.eqb opt "--min-label-lines" then
    n <- int_of value ;;
    Ok (Cli.mk exit_cleanly show_parameters spec type infile line_input
          code_input csv_input leading_spaces outfile param_file delimiter
          show_bounding_box n exit_with_admonishment out err)
  else
    Ok (Cli.mk exit_cleanly show_parameters spec type infile line_input
          code_input csv_input leading_spaces outfile param_file delimiter
          show_bounding_box min_label_lines true out
          (err ++ ["ERROR: Unrecognized option '" ++ opt ++ "'." ++ NL])).

(** The loop over the options [getopt] returned: the variables when it
    stops, and the exception that stopped it, if any. *)
Fixpoint handle_options (opts : list (string * string)) (v : Cli.vars)
  : Cli.vars * option exn :=
  match opts with
  | [] => (v, None)
  | (opt, value) :: rest =>
      match handle_option opt value v with
      | Ok v => handle_options rest v
      | Raise e => (v, Some e)
      end
  end.

(** The files [main] can reach. *)
Record Env : Type := mkEnv {
  read : string -> option Infile;   (* [open(path, "r")], [None]: IOError *)
  stdin : Infile;
  writable : string -> bool         (* [open(path, "w")] succeeds *)
}.

(** How the process ends: [sys.exit], an exception nobody catches, or the
    call of [make_labels]. *)
Inductive ending : Type :=
| Exit (status : Z)
| Uncaught (e : exn)
| Ran (r : run).

Record finished : Type := mkFinished {
  how : ending;
  printed_out : list printed;
  reported : list string
}.

(** [if cond: sys.stderr.write(msg); exit_with_admonishment = True] *)
Definition complain (cond : bool) (msg : string) (acc : bool * list string)
  : bool * list string :=
  if cond then (true, (snd acc ++ [msg])%list) else acc.

Definition is_none {A : Type} (o : option A) : bool :=
  match o with None => true | Some _ => false end.

(** [spec] after the parameter file and the built-in type were absorbed. *)
Definition merged_spec (env : Env) (v : Cli.vars)
  : result (SheetSpec * list string) :=
  r1 <- match Cli.param_file v with
        | None => Ok (Cli.spec v, Cli.stderr v)
        | Some pfile =>
            match read env pfile with
            | None => Raise IOError
            | Some f =>
                r <- parse_param_file (text f) ;;
                Ok (absorb (Cli.spec v) (fst r), (Cli.stderr v ++ snd r)%list)
            end
        end ;;
  match Cli.type v with
  | None => Ok r1
  | Some type =>
      t <- sheetspec_for_type type ;; Ok (absorb (fst r1) t, snd r1)
  end.

(** The checks on the way the input is to be read. *)
Definition mode_checks (v : Cli.vars) (acc : bool * list string)
  : bool * list string :=
  let acc := complain (Cli.code_input v && Cli.line_input v)
               ("ERROR: Cannot use both -l and -c." ++ NL) acc in
  let acc := complain (Cli.csv_input v && Cli.line_input v)
               ("ERROR: Cannot use both -l and --csv." ++ NL) acc in
  let acc := complain (Cli.csv_input v && Cli.code_input v)
               ("ERROR: Cannot use both -c and --csv." ++ NL) acc in
  let acc := complain (negb (Cli.leading_spaces v =? 0) && Cli.code_input v)
               ("ERROR: Cannot use both -c and --leading-spaces." ++ NL) acc in
  complain (negb (Cli.code_input v) && negb (Cli.line_input v)
            && negb (Cli.csv_input v) && negb (Cli.show_parameters v))
           ("ERROR: Must use one of -l, -c, or --csv." ++ NL) acc.

Definition input_type_of (v : Cli.vars) : InputType :=
  if Cli.line_input v then Line
  else if Cli.code_input v then Code
  else if Cli.csv_input v then Csv
  else Line.

(** The checks that the eight dimensions were found. *)
Definition required_checks (spec : SheetSpec) (acc : bool * list string)
  : bool * list string :=
  let acc := complain (is_none (left_margin spec))
    ("ERROR: Missing required left-margin parameter." ++ NL) acc in
  let acc := complain (is_none (bottom_margin spec))
    ("ERROR: Missing required bottom-margin parameter." ++ NL) acc in
  let acc := complain (is_none (label_width spec))
    ("ERROR: Missing required label-width parameter." ++ NL) acc in
  let acc := complain (is_none (label_height spec))
    ("ERROR: Missing required label-height parameter." ++ NL) acc in
  let acc := complain (is_none (horiz_space spec))
    ("ERROR: Missing required horiz-space parameter." ++ NL) acc in
  let acc := complain (is_none (vert_space spec))
    ("ERROR: Missing required vert-space parameter." ++ NL) acc in
  let acc := complain (is_none (horiz_num_labels spec))
    ("ERROR: Missing required horiz-num-labels parameter." ++ NL) acc in
  complain (is_none (vert_num_labels spec))
    ("ERROR: Missing required vert-num-labels parameter." ++ NL) acc.

(** The checks on [first_label].  The product of the grid dimensions is
    only computed when the label is at least 1; with a dimension still
    [None] the product is a TypeError. *)
Definition first_label_checks (spec : SheetSpec) (acc : bool * list string)
  : result (bool * list string) :=
  let fl := first_label spec in
  let acc := complain (negb (Qeq_bool (inject_Z (Py.int fl)) fl))
    ("ERROR: First label " ++ Py.fmt_f fl ++ " is not an integer." ++ NL)
    acc in
  if Qle_bool 1 fl then
    match horiz_num_labels spec, vert_num_labels spec with
    | Some hn, Some vn =>
        Ok (complain (negb (Qle_bool fl (hn * vn)))
              ("ERROR: First label " ++ Py.fmt_d fl
               ++ " is too high; there are only " ++ Py.fmt_d hn ++ " * "
               ++ Py.fmt_d vn ++ " == " ++ Py.fmt_d (hn * vn)
               ++ " labels available." ++ NL) acc)
    | _, _ => Raise TypeError
    end
  else
    Ok (complain true
          ("ERROR: First label " ++ Py.fmt_d fl
           ++ " too low; must be at least 1." ++ NL) acc).

(** The call of [make_labels] with its files opened. *)
Definition call_make_labels (fuel : nat) (env : Env) (v : Cli.vars)
  (spec : SheetSpec) : option ending :=
  match resolve spec with
  | None => Some (Uncaught TypeError)
  | Some sheet =>
      let input :=
        match Cli.infile v with
        | None => Raise TypeError
        | Some path =>
            if String.eqb path "-" then Ok (stdin env)
            else match read env path with
                 | Some f => Ok f
                 | None => Raise IOError
                 end
        end in
      match input with
      | Raise e => Some (Uncaught e)
      | Ok f =>
          if String.eqb (Cli.outfile v) "-" || writable env (Cli.outfile v)
          then option_map Ran
                 (make_labels fuel sheet f (input_type_of v) (Cli.delimiter v)
                    (Cli.leading_spaces v) (Cli.show_bounding_box v)
                    (Cli.min_label_lines v))
          else Some (Uncaught IOError)
      end
  end.

Definition usage_hint : string :=
  "Run " ++ String Py.dquote "labelnation --help"
  ++ String Py.dquote " to see usage." ++ NL.

(** [main] from the loop over the options on; [None] when the loop of
    [make_labels] needs more than [fuel] iterations. *)
Definition run_options (fuel : nat) (env : Env) (opts : list (string * string))
  : option finished :=
  match handle_options opts Cli.init with
  | (v, Some e) => Some (mkFinished (Uncaught e) (Cli.stdout v) (Cli.stderr v))
  | (v, None) =>
      if Cli.exit_cleanly v
      then Some (mkFinished (Exit 0) (Cli.stdout v) (Cli.stderr v))
      else
        match merged_spec env v with
        | Raise e => Some (mkFinished (Uncaught e) (Cli.stdout v) (Cli.stderr v))
        | Ok (spec, err) =>
            let acc := mode_checks v (Cli.exit_with_admonishment v, err) in
            if Cli.show_parameters v then
              match Cli.type v with
              | None =>
                  Some (mkFinished (Exit 1) (Cli.stdout v)
                          (snd acc ++
                           ["ERROR: Must specify a label type with -t." ++ NL]))
              | Some _ =>
                  match SheetSpec_str spec with
                  | Raise e =>
                      Some (mkFinished (Uncaught e) (Cli.stdout v) (snd acc))
                  | Ok dump =>
                      Some (mkFinished (Exit 0)
                              (Cli.stdout v ++ [Parameters dump]) (snd acc))
                  end
              end
            else
              let acc := required_checks spec acc in
              match first_label_checks spec acc with
              | Raise e =>
                  Some (mkFinished (Uncaught e) (Cli.stdout v) (snd acc))
              | Ok acc =>
                  if fst acc then
                    Some (mkFinished (Exit 1) (Cli.stdout v)
                            (snd acc ++
                             [usage_hint]))
                  else
                    option_map
                      (fun e => mkFinished e (Cli.stdout v) (snd acc))
                      (call_make_labels fuel env v spec)
              end
        end
  end.

(** [main] on what [getopt] makes of the command line: the options [opts]
    and the remaining arguments [args].  Without any argument the usage is
    printed and the process leaves with status 1.  (A command line [getopt]
    rejects ends the same way; it has no [opts] and is not modelled.) *)
Definition main (fuel : nat) (env : Env) (opts : list (string * string))
  (args : list string) : option finished :=
  match opts, args with
  | [], [] => Some (mkFinished (Exit 1) [Usage] [])
  | _, _ => run_options fuel env opts
  end.
(* ================================================================= *)
(** ** Vocabulary of the properties *)

(** The attributes of a sheet specification, and their values. *)
Inductive field : Type :=
| LeftMargin | BottomMargin | LabelWidth | LabelHeight | HorizSpace
| VertSpace | HorizNumLabels | VertNumLabels | FirstLabel | FontName
| FontSize.

Inductive value : Type :=
| Dim (v : option Q)
| Num (q : Q)
| Txt (s : string).

Definition get (f : field) (s : SheetSpec) : value :=
  match f with
  | LeftMargin => Dim (left_margin s)
  | BottomMargin => Dim (bottom_margin s)
  | LabelWidth => Dim (label_width s)
  | LabelHeight => Dim (label_height s)
  | HorizSpace => Dim (horiz_space s)
  | VertSpace => Dim (vert_space s)
  | HorizNumLabels => Dim (horiz_num_labels s)
  | VertNumLabels => Dim (vert_num_labels s)
  | FirstLabel => Num (first_label s)
  | FontName => Txt (font_name s)
  | FontSize => Num (font_size s)
  end.

(** An attribute is unset when it holds its sentinel: [None] for the eight
    dimensions, the library default for the other three. *)
Definition unset (f : field) (s : SheetSpec) : bool :=
  match get f s with
  | Dim v => is_none v
  | Num q =>
      match f with
      | FirstLabel => Qeq_bool q default_first_label
      | _ => Qeq_bool q default_font_size
      end
  | Txt n => String.eqb n default_font_name
  end.


(** The keys the loader knows. *)
Definition known_keys : list string :=
  [ "leftmargin"; "bottommargin"; "labelwidth"; "labelheight"; "horizspace";
    "vertspace"; "horiznumlabels"; "vertnumlabels"; "fontname"; "fontsize" ].


(** A parameter file whose second line is a key without a value. *)
Definition env_key_without_value : Env :=
  mkEnv (fun path =>
           if String.eqb path "params"
           then Some (mkInfile ("LabelWidth: 180" ++ NL ++ "LabelHeight:" ++ NL
                                ++ "FontSize: 12" ++ NL) [])
           else None)
        (mkInfile "" []) (fun _ => true).



(** [first_label] is not an integer, is below 1, or exceeds the number of
    labels of a sheet. *)
Definition bad_first_label (spec : SheetSpec) : bool :=
  let fl := first_label spec in
  negb (Qeq_bool (inject_Z (Py.int fl)) fl)
  || negb (Qle_bool 1 fl)
  || match horiz_num_labels spec, vert_num_labels spec with
     | Some hn, Some vn => negb (Qle_bool fl (hn * vn))
     | _, _ => false
     end.

(** No file to read: the runs below stop before they open one. *)
Definition env_empty : Env :=
  mkEnv (fun _ => None) (mkInfile "" []) (fun _ => true).

(** The drawing code of the labels of a document, in the order written. *)
Fixpoint blocks (doc : list ps_item) : list string :=
  match doc with
  | [] => []
  | LabelBlock _ _ code :: rest => code :: blocks rest
  | _ :: rest => blocks rest
  end.

(** The translations of the labels of a document, as the numbers handed to
    the conversion that writes them. *)
Fixpoint steps (doc : list ps_item) : list (Q * Q) :=
  match doc with
  | [] => []
  | LabelBlock xs ys _ :: rest => (xs, ys) :: steps rest
  | _ :: rest => steps rest
  end.

(** The document of a run that completed. *)
Definition document (r : option finished) : list ps_item :=
  match r with
  | Some (mkFinished (Ran (Completed _ doc)) _ _) => doc
  | _ => []
  end.

(** An input file of one address line, also read as one csv row. *)
Definition env_one_label (content : string) (rows : list (list string)) : Env :=
  mkEnv (fun path =>
           if String.eqb path "in" then Some (mkInfile content rows) else None)
        (mkInfile "" []) (fun _ => true).

(** The code of a one-line label [text] set in [font] at [size], its
    baseline at height [base]. *)
Definition one_line_code (font size base text : string) : string :=
  "newpath" ++ NL
  ++ "ISO" ++ font ++ " " ++ size ++ " scalefont setfont" ++ NL
  ++ "3.000000 " ++ base ++ " moveto" ++ NL
  ++ "(" ++ text ++ ") show" ++ NL
  ++ "stroke" ++ NL.

(** Reading a PostScript string body back: a backslash makes the next
    character literal. *)
Fixpoint ps_unescape (s : string) : string :=
  match s with
  | EmptyString => EmptyString
  | String a t =>
      if Ascii.eqb a Py.backslash then
        match t with
        | EmptyString => EmptyString
        | String b u => String b (ps_unescape u)
        end
      else String a (ps_unescape t)
  end.

(** Scanning the body of a PostScript string that was opened by a
    parenthesis, [depth] parentheses being open: [Some rest] is what follows
    the parenthesis that closes the string, [None] means the string is not
    closed. *)
Fixpoint ps_string_end (depth : nat) (s : string) : option string :=
  match s with
  | EmptyString => None
  | String a t =>
      if Ascii.eqb a Py.backslash then
        match t with
        | EmptyString => None
        | String _ u => ps_string_end depth u
        end
      else if Ascii.eqb a "(" then ps_string_end (S depth) t
      else if Ascii.eqb a ")" then
        match depth with
        | O => Some t
        | S d => ps_string_end d t
        end
      else ps_string_end depth t
  end.

(** What [escape] writes for one character. *)
Definition esc_char (a : ascii) : string :=
  if Ascii.eqb a Py.backslash then "\\"
  else if Ascii.eqb a "(" then "\("
  else if Ascii.eqb a ")" then "\)"
  else String a EmptyString.


(** A sheet with the dimensions of avery5160 and the default font,
    Times-Roman at 12 points. *)
Definition sheet_5160 : Sheet :=
  mkSheet 11.25 16.0 180.0 72.0 20.0 0.0 3.0 10.0 1 "Times-Roman" 12.0.

(** Loop variables with [ll] as the lines of the label being read. *)
Definition state_with_lines (ll : list string) : state :=
  mkState ll "" 1 false 0 0 false true "" [] [] [] [] [].

(** Counting the items of a document. *)
Definition is_page_begin (i : ps_item) : bool :=
  match i with PageBegin _ _ _ => true | _ => false end.
Definition is_label (i : ps_item) : bool :=
  match i with LabelBlock _ _ _ => true | _ => false end.
Definition is_showpage (i : ps_item) : bool :=
  match i with ShowPage => true | _ => false end.
Definition is_final (i : ps_item) : bool :=
  match i with FinalShowPage => true | _ => false end.

Definition count (p : ps_item -> bool) (doc : list ps_item) : Z :=
  Z.of_nat (length (filter p doc)).

(** Pages begun, labels placed, and page terminators written: the ones of
    the loop and the closing one. *)
Definition pages (doc : list ps_item) : Z := count is_page_begin doc.
Definition labels (doc : list ps_item) : Z := count is_label doc.
Definition terminators (doc : list ps_item) : Z :=
  count is_showpage doc + count is_final doc.

(** [ceil(a / b)] *)
Definition ceil_div (a b : Z) : Z := (a + b - 1) / b.

(** A sheet of [H] columns of [V] labels, the first label to print being
    number [F] of the sheet. *)
Definition valid_sheet (spec : Sheet) (H V F : Z) : Prop :=
  1 <= H /\ 1 <= V /\ 1 <= F <= H * V
  /\ (s_horiz_num_labels spec == inject_Z H)%Q
  /\ (s_vert_num_labels spec == inject_Z V)%Q
  /\ (s_first_label spec == inject_Z F)%Q.

(** What holds of the position [(cx, cy)], the page number, the flag
    [start_new_page] and the document on such a sheet when [c] labels were
    placed: [q] pages are full, the position is the one of the next label
    in column-major order, and the pages begun and ended follow. *)
Definition walker_inv (H V F : Z) (cx cy page : Z) (start : bool)
  (doc : list ps_item) : Prop :=
  let c := labels doc in
  let at_origin := (cx =? 0) && (cy =? 0) in
  exists q,
    0 <= q
    /\ F - 1 + c = q * (H * V) + cx * V + cy
    /\ 0 <= cx < H /\ 0 <= cy < V
    /\ page = 1 + q
    /\ count is_showpage doc = q
    /\ count is_final doc = 0
    /\ start = ((c =? 0) || at_origin)
    /\ pages doc = (if c =? 0 then 0 else if at_origin then q else q + 1).

(** The loop variables at the end of a run and its document. *)
Definition final_state (r : option run) : state :=
  match r with
  | Some (Completed st _) => st
  | _ => state_with_lines []
  end.

Definition run_document (r : option run) : list ps_item :=
  match r with
  | Some (Completed _ doc) => doc
  | _ => []
  end.

(** Three labels separated by the delimiter XXXXX. *)
Definition three_labels : Infile :=
  mkInfile ("Ann" ++ NL ++ "XXXXX" ++ NL ++ "Bob" ++ NL ++ "XXXXX" ++ NL
            ++ "Cid" ++ NL ++ "XXXXX" ++ NL) [].

(** A sheet of two columns of two labels, as avery5168. *)
Definition sheet_5168 : Sheet :=
  mkSheet 31.0 33.0 254.0 363.0 37.0 0.0 2.0 2.0 1 "Arial" 33.0.

(** Five csv rows. *)
Definition five_rows : list (list string) :=
  [["Ann"]; ["Bob"]; ["Cid"]; ["Dee"]; ["Eve"]].

(** Every character of a string satisfies [p]. *)
Fixpoint all_chars (p : ascii -> bool) (s : string) : bool :=
  match s with
  | EmptyString => true
  | String a t => p a && all_chars p t
  end.

Definition is_digit (c : ascii) : bool :=
  let n := nat_of_ascii c in (Nat.leb 48 n && Nat.leb n 57)%bool.

(** Characters of a numeral: digits and the minus sign. *)
Definition numeral_char (c : ascii) : bool := is_digit c || Ascii.eqb c "-".

(** Characters that neither [split] nor [dedelimit_string] touches. *)
Definition plain_char (c : ascii) : bool :=
  negb (Py.is_space c) && negb (Ascii.eqb c Py.dquote)
  && negb (Ascii.eqb c Py.squote).

(** A non-empty word of such characters. *)
Definition plain_token (s : string) : bool :=
  match s with
  | EmptyString => false
  | _ => all_chars plain_char s
  end.

(** A number without fractional part. *)
Definition integral (q : Q) : Prop := (q == inject_Z (Py.int q))%Q.

Definition whole (o : option Q) : Prop :=
  match o with
  | Some q => integral q
  | None => False
  end.

(** A specification the dump of which loses nothing: the eight dimensions
    are set and whole, the font size is whole, and the font name is a plain
    word. *)
Definition dumpable (s : SheetSpec) : Prop :=
  whole (left_margin s) /\ whole (bottom_margin s) /\ whole (label_width s)
  /\ whole (label_height s) /\ whole (horiz_space s) /\ whole (vert_space s)
  /\ whole (horiz_num_labels s) /\ whole (vert_num_labels s)
  /\ integral (font_size s)
  /\ plain_token (font_name s) = true.

(** Equal dimensions, as [==] on numbers has it. *)
Definition same_dim (a b : option Q) : Prop :=
  match a, b with
  | Some p, Some q => (p == q)%Q
  | None, None => True
  | _, _ => False
  end.

(** The attributes that are part of the dump are the same. *)
Definition same_dump (a b : SheetSpec) : Prop :=
  same_dim (left_margin a) (left_margin b)
  /\ same_dim (bottom_margin a) (bottom_margin b)
  /\ same_dim (label_width a) (label_width b)
  /\ same_dim (label_height a) (label_height b)
  /\ same_dim (horiz_space a) (horiz_space b)
  /\ same_dim (vert_space a) (vert_space b)
  /\ same_dim (horiz_num_labels a) (horiz_num_labels b)
  /\ same_dim (vert_num_labels a) (vert_num_labels b)
  /\ font_name a = font_name b
  /\ (font_size a == font_size b)%Q.

(** [--show-parameters] followed by [--parameter-file]: the dump of a
    specification, loaded again. *)
Definition reload (s : SheetSpec) : result (SheetSpec * list string) :=
  dump <- SheetSpec_str s ;; parse_param_file dump.

(** The specification with every number cut to its integer part and
    [first_label] at its default. *)
Definition trunc (q : Q) : Q := inject_Z (Py.int q).

Definition truncated (s : SheetSpec) : SheetSpec :=
  mkSheetSpec (option_map trunc (left_margin s))
              (option_map trunc (bottom_margin s))
              (option_map trunc (label_width s))
              (option_map trunc (label_height s))
              (option_map trunc (horiz_space s))
              (option_map trunc (vert_space s))
              (option_map trunc (horiz_num_labels s))
              (option_map trunc (vert_num_labels s))
              default_first_label (font_name s) (trunc (font_size s)).

(** A line of the dump. *)
Definition dump_line (key gap val : string) : string :=
  key ++ gap ++ val ++ NL.

(** A key of the dump: a word that does not start a comment. *)
Definition key_ok (key : string) : bool :=
  match key with
  | EmptyString => false
  | String a _ =>
      negb (Ascii.eqb a "#")
      && all_chars (fun c => negb (Py.is_space c)) key
  end.

(** The gap between key and value: blanks, at least one. *)
Definition gap_ok (gap : string) : bool :=
  match gap with
  | EmptyString => false
  | _ => all_chars (fun c => Ascii.eqb c " ") gap
  end.

(** The lines of a file put together. *)
Fixpoint join (lines : list string) : string :=
  match lines with
  | [] => ""
  | l :: rest => l ++ join rest
  end.

(** The dump, line by line. *)
Definition dump_lines (lm bm lw lh hs vs hn vn : Q) (fn : string) (fs : Q)
  : list string :=
  [ dump_line "LeftMargin:" "      " (Py.fmt_d lm);
    dump_line "BottomMargin:" "    " (Py.fmt_d bm);
    dump_line "LabelWidth:" "      " (Py.fmt_d lw);
    dump_line "LabelHeight:" "     " (Py.fmt_d lh);
    dump_line "HorizSpace:" "      " (Py.fmt_d hs);
    dump_line "VertSpace:" "       " (Py.fmt_d vs);
    dump_line "HorizNumLabels:" "  " (Py.fmt_d hn);
    dump_line "VertNumLabels:" "   " (Py.fmt_d vn);
    dump_line "FontName:" "        " fn;
    dump_line "FontSize:" "        " (Py.fmt_d fs) ].


(** The built-in avery5168 sheet, with label 3 as the first to print. *)
Definition spec_5168_from_3 : SheetSpec :=
  set_first_label 3
    (SheetSpec_of 31.0 33.0 254.0 363.0 37.0 0.0 2.0 2.0 "Arial" 33.0).

(** The built-in avery5161 sheet. *)
Definition spec_5161 : SheetSpec :=
  SheetSpec_of 11.25 16.0 270.0 72.0 20.0 0.0 2.0 10.0 "Times-Roman" 12.0.

(** A sheet of four columns of twenty labels, as avery5167. *)
Definition sheet_5167 : Sheet :=
  mkSheet 14.0 17.0 126.0 36.0 22.5 0.0 4.0 20.0 1 "Times-Roman" 7.0.

(** An address of three lines. *)
Definition address_block : Infile :=
  mkInfile ("J. Random Hacker" ++ NL ++ "100 Main St" ++ NL
            ++ "Chicago, IL  60606" ++ NL) [].

(** The position is on the sheet. *)
Definition in_range (H V : Z) (st : state) : Prop :=
  0 <= x st < H /\ 0 <= y st < V.

(** An upper bound on the iterations the loop of [make_labels] still needs
    on a sheet of [H] columns of [V] labels: one for each row or line that
    is left, and one for each position left on the page once a single label
    is replicated. *)
Definition iterations_left (H V : Z) (input_type : InputType) (st : state)
  : nat :=
  if is_csv input_type then
    match row st with
    | [] => 0
    | _ => S (length (unread_rows st))
    end
  else if iterate_over_single_page st then
    Z.to_nat (H * V - (x st * V + y st))
  else if String.eqb (line st) "" then 0
  else S (length (unread st)) + Z.to_nat (H * V).

(** What the loop keeps true of its input: no line read is empty before the
    end of the file, and replication only starts at the end of the file. *)
Definition input_inv (input_type : InputType) (st : state) : Prop :=
  (is_csv input_type = false ->
   Forall (fun l => l <> "") (unread st) /\ (line st = "" -> unread st = []))
  /\ (iterate_over_single_page st = true ->
      line st = "" /\ is_csv input_type = false).

(** The names of the built-in catalogue of [sheetspec_for_type]. *)
Definition catalogue_names : list string :=
  [ "avery5161"; "avery5261"; "avery5661"; "avery5961";
    "avery5162"; "avery5262"; "avery5662"; "avery5962"; "avery15162";
    "avery8162"; "avery8252"; "avery8462"; "avery18162"; "avery18662";
    "avery5168"; "avery5444"; "avery5264";
    "avery5160"; "avery5260"; "avery5560"; "avery5660"; "avery5960";
    "avery5970"; "avery5971"; "avery5972"; "avery5979"; "avery5980";
    "avery6241"; "avery6460"; "avery8660"; "avery6245"; "macoll5805";
    "avery7162"; "avery7163"; "avery7160"; "avery6571";
    "avery5167"; "avery5267"; "avery5667"; "avery6467"; "avery8167";
    "macoll8100"; "avery5371"; "macoll8550";
    "avery5263"; "avery5663"; "avery5963"; "avery8163"; "avery7159" ].

Definition is_upper (c : ascii) : bool :=
  let n := nat_of_ascii c in (Nat.leb 65 n && Nat.leb n 90)%bool.

(** The characters [normalize_string] removes. *)
Definition dropped_chars : list ascii :=
  [ Py.nl; Py.dquote; Py.squote; Py.tab; " "%char; "-"%char; "_"%char;
    "."%char ].

(** A character [normalize_string] leaves as it is. *)
Definition normal_char (c : ascii) : bool :=
  negb (existsb (Ascii.eqb c) dropped_chars) && negb (is_upper c).

(** The three layers of a merge: the attribute of the first layer that has
    it set, the last layer standing for all that is unset. *)
Definition layered (f : field) (a b c : SheetSpec) : value :=
  if unset f a then (if unset f b then get f c else get f b) else get f a.

(** The test of a specification of the catalogue: every dimension is set,
    the numbers of columns and rows are whole and at least 1, the first
    label is 1, the labels have a width and a height, and the margins are
    not negative. *)
Definition complete_spec (t : SheetSpec) : bool :=
  match resolve t with
  | None => false
  | Some sheet =>
      let H := Py.int (s_horiz_num_labels sheet) in
      let V := Py.int (s_vert_num_labels sheet) in
      (1 <=? H) && (1 <=? V)
      && Qeq_bool (s_horiz_num_labels sheet) (inject_Z H)
      && Qeq_bool (s_vert_num_labels sheet) (inject_Z V)
      && Qeq_bool (s_first_label sheet) (inject_Z 1)
      && negb (Qle_bool (s_label_width sheet) 0)
      && negb (Qle_bool (s_label_height sheet) 0)
      && Qle_bool 0 (s_left_margin sheet)
      && Qle_bool 0 (s_bottom_margin sheet)
  end.

(** An option whose value the conversion [int] or [float] refuses. *)
Definition bad_number (o : string * string) : bool :=
  let '(opt, value) := o in
  if opt_in opt ["--leading-spaces"; "--first-label"; "--min-label-lines"]
  then is_none (Py.int_of_string value)
  else if opt_in opt ["--font-size"; "--left-margin"; "--bottom-margin"]
  then is_none (Py.float value)
  else false.

(** The ways of reading the input contradict each other, or none is given. *)
Definition mode_conflict (v : Cli.vars) : bool :=
  (Cli.code_input v && Cli.line_input v)
  || (Cli.csv_input v && Cli.line_input v)
  || (Cli.csv_input v && Cli.code_input v)
  || (negb (Cli.leading_spaces v =? 0) && Cli.code_input v)
  || (negb (Cli.code_input v) && negb (Cli.line_input v)
      && negb (Cli.csv_input v) && negb (Cli.show_parameters v)).

(** One of the eight dimensions is still [None]. *)
Definition missing_dimension (spec : SheetSpec) : bool :=
  is_none (left_margin spec) || is_none (bottom_margin spec)
  || is_none (label_width spec) || is_none (label_height spec)
  || is_none (horiz_space spec) || is_none (vert_space spec)
  || is_none (horiz_num_labels spec) || is_none (vert_num_labels spec).

(** What makes [main] leave with the hint to read the usage. *)
Definition admonished (v : Cli.vars) (spec : SheetSpec) : bool :=
  Cli.exit_with_admonishment v || mode_conflict v || missing_dimension spec
  || bad_first_label spec.




(** The option names [getopt] can return for the option table of [main]:
    the short options of '?ht:p:i:lcd:o:' and the long ones of the list. *)
Definition getopt_names : list string :=
  [ "-?"; "-h"; "-t"; "-p"; "-i"; "-l"; "-c"; "-d"; "-o";
    "--help"; "--usage"; "--version"; "--list-types"; "--explain";
    "--show-parameters"; "--type"; "--parameter-file"; "--infile";
    "--line-input"; "--csv"; "--csv-input"; "--code-input";
    "--leading-spaces"; "--first-label"; "--delimiter"; "--font-name";
    "--font-size"; "--show-bounding-box"; "--left-margin";
    "--bottom-margin"; "--outfile"; "--min-label-lines" ].

(** What an option prints by itself. *)
Definition info_of (opt : string) : list printed :=
  if String.eqb opt "--version" then [Version]
  else if opt_in opt ["--help"; "-h"; "-?"; "usage"] then [Usage]
  else if String.eqb opt "--list-types" then [Types]
  else if String.eqb opt "--explain" then [Explain]
  else [].

Definition infos (opts : list (string * string)) : list printed :=
  flat_map (fun o => info_of (fst o)) opts.

(** The report of an option the loop does not know. *)
Definition unrecognized (opt : string) : string :=
  "ERROR: Unrecognized option '" ++ opt ++ "'." ++ NL.

(** An option the loop has no branch for: --usage, which [getopt] accepts,
    and every name [getopt] does not return; the loop also has a branch for
    the name usage without dashes. *)
Definition unknown_option (opt : string) : bool :=
  String.eqb opt "--usage"
  || negb (existsb (String.eqb opt) ("usage" :: getopt_names)).

(** The translation of the cell that holds label number [k] of a run,
    counted from 0 at the first cell of the first sheet: the cells of a
    sheet of [H] columns of [V] labels are filled column by column, from the
    bottom of a column up. *)
Definition cell_step (spec : Sheet) (H V k : Z) : Q * Q :=
  (inject_Z ((k mod (H * V)) / V)
   * (s_label_width spec + s_horiz_space spec),
   inject_Z (k mod V) * (s_label_height spec + s_vert_space spec))%Q.

(** The cells of [n] labels in a row, the first being label [F] of its
    sheet. *)
Definition label_cells (spec : Sheet) (H V F : Z) (n : nat) : list (Q * Q) :=
  map (fun i => cell_step spec H V (F - 1 + Z.of_nat i)) (seq 0 n).

(** The numbers of the pages a document begins, and the translations of
    their page setups. *)
Fixpoint page_numbers (doc : list ps_item) : list Z :=
  match doc with
  | [] => []
  | PageBegin n _ _ :: rest => n :: page_numbers rest
  | _ :: rest => page_numbers rest
  end.

Fixpoint page_margins (doc : list ps_item) : list (Q * Q) :=
  match doc with
  | [] => []
  | PageBegin _ lm bm :: rest => (lm, bm) :: page_margins rest
  | _ :: rest => page_margins rest
  end.

(** The layout of what was written so far: the position and the pages
    follow the number of labels, the labels are in the cells of the sheet in
    order, and the pages are numbered from 1. *)
Definition laid_out (spec : Sheet) (H V F : Z) (cx cy page : Z)
  (start : bool) (doc : list ps_item) : Prop :=
  walker_inv H V F cx cy page start doc
  /\ steps doc = label_cells spec H V F (Z.to_nat (labels doc))
  /\ page_numbers doc = map Z.of_nat (seq 1 (Z.to_nat (pages doc)))
  /\ page_margins doc
     = repeat (s_left_margin spec, s_bottom_margin spec)
              (Z.to_nat (pages doc)).

(** The avery5160 sheet, printing from its label 9. *)
Definition sheet_5160_from_9 : Sheet :=
  mkSheet 11.25 16.0 180.0 72.0 20.0 0.0 3.0 10.0 9 "Times-Roman" 12.0.

(** The avery5168 sheet, printing from its label 3. *)
Definition sheet_5168_from_3 : Sheet :=
  mkSheet 31.0 33.0 254.0 363.0 37.0 0.0 2.0 2.0 3 "Arial" 33.0.

(** The labels of a delimited text: the lines, stripped of trailing
    whitespace, up to each line that equals the delimiter [d].  [cur] holds
    the lines of the label being read.  The lines after the last delimiter
    make no label. *)
Fixpoint delimited (d : string) (cur : list string) (lines : list string)
  : list (list string) :=
  match lines with
  | [] => []
  | l :: rest =>
      if String.eqb (Py.rstrip l) d then cur :: delimited d [] rest
      else delimited d (cur ++ [Py.rstrip l]) rest
  end.

(** Lines of code, each closed by a newline. *)
Fixpoint verbatim (g : list string) : string :=
  match g with
  | [] => ""
  | l :: rest => l ++ NL ++ verbatim rest
  end.

(** The drawing code of the label made of the lines [g]: with code input
    the lines themselves, with line input the code that shows the escaped
    lines, padded to the minimum and to the left. *)
Definition label_of (spec : Sheet) (input_type : InputType)
  (leading_spaces min_label_lines : Z) (g : list string) : string :=
  if is_code input_type then verbatim g
  else label_code spec
         (left_pad leading_spaces (pad_lines min_label_lines (map escape g))).

(** The loop has read the lines [cur] of a label and placed none of
    them. *)
Definition collecting (input_type : InputType) (cur : list string)
  (st : state) : Prop :=
  iterate_over_single_page st = false
  /\ if is_code input_type then code_accum st = verbatim cur
     else label_lines st = map escape cur /\ code_accum st = "".

(** The rows of a csv file up to the first one without a field. *)
Fixpoint rows_before_blank (rows : list (list string)) : list (list string) :=
  match rows with
  | [] => []
  | [] :: _ => []
  | r :: rest => r :: rows_before_blank rest
  end.

(** Two labels and text that no delimiter follows. *)
Definition two_labels_and_a_tail : Infile :=
  mkInfile ("Ann" ++ NL ++ "1 Elm St" ++ NL ++ "XXXXX" ++ NL ++ "Bob" ++ NL
            ++ "XXXXX" ++ NL ++ "Cid" ++ NL) [].

(** Four csv rows, the third without a field: what [csv.reader] yields for
    a file with a blank third line. *)
Definition rows_with_a_blank : list (list string) :=
  [["Ann"; "1 Elm St"]; ["Bob"]; []; ["Cid"]].

(** Two lines of PostScript code. *)
Definition two_lines_of_code : Infile :=
  mkInfile ("newpath" ++ NL ++ "0 0 moveto  " ++ NL) [].

(** The warning about a long label was written if and only if the flag
    says so, and never with code input. *)
Definition warned_once (input_type : InputType) (st : state) : Prop :=
  stderr st
  = (if overlong_label_warning_already_issued st then overlong_warning
     else [])
  /\ (is_code input_type = true ->
      overlong_label_warning_already_issued st = false).



(** What the loop writes: page setups, labels and the terminators of full
    pages. *)
Definition page_item (i : ps_item) : bool :=
  is_page_begin i || is_label i || is_showpage i.

(** A document that starts with the prologue [pro] and goes on with page
    items only. *)
Definition prologue_then_pages (pro doc : list ps_item) : Prop :=
  exists body, doc = (pro ++ body)%list /\ forallb page_item body = true.

(* ================================================================= *)
(** ** Strings *)

Lemma append_assoc (a b c : string) : (a ++ b) ++ c = a ++ (b ++ c).
Proof. induction a as [|x a IH]; simpl; [reflexivity | now rewrite IH]. Qed.

Lemma append_nil_r (a : string) : a ++ "" = a.
Proof. induction a as [|x a IH]; simpl; [reflexivity | now rewrite IH]. Qed.

(* ================================================================= *)
(** ** Numbers *)

Lemma int_inject_Z (k : Z) : Py.int (inject_Z k) = k.
Proof. unfold Py.int; simpl. apply Z.quot_1_r. Qed.

Lemma quot_cross (n1 n2 : Z) (d1 d2 : positive) :
  0 <= n1 ->
  n1 * Zpos d2 = n2 * Zpos d1 ->
  Z.quot n1 (Zpos d1) = Z.quot n2 (Zpos d2).
Proof.
  intros Hn H.
  assert (Hn2 : 0 <= n2) by nia.
  rewrite !Z.quot_div_nonneg by lia.
  rewrite <- (Z.div_mul_cancel_r n1 (Zpos d1) (Zpos d2)) by lia.
  rewrite <- (Z.div_mul_cancel_r n2 (Zpos d2) (Zpos d1)) by lia.
  rewrite H. f_equal. lia.
Qed.

(** [int(..)] does not depend on how a number is written as a fraction. *)
Lemma int_compat (q1 q2 : Q) : (q1 == q2)%Q -> Py.int q1 = Py.int q2.
Proof.
  destruct q1 as [n1 d1], q2 as [n2 d2]. unfold Qeq, Py.int; simpl.
  intros H. destruct (Z_le_gt_dec 0 n1) as [Hn|Hn].
  - now apply quot_cross.
  - assert (E : Z.quot (- n1) (Zpos d1) = Z.quot (- n2) (Zpos d2))
      by (apply quot_cross; lia).
    rewrite !Z.quot_opp_l in E by lia. lia.
Qed.

#[export] Instance int_Proper : Proper (Qeq ==> eq) Py.int.
Proof. intros q1 q2 H. now apply int_compat. Qed.

(* ================================================================= *)
(** ** Words and numerals *)

Lemma all_chars_impl (p q : ascii -> bool) (s : string) :
  (forall a, p a = true -> q a = true) ->
  all_chars p s = true -> all_chars q s = true.
Proof.
  intros Hpq. induction s as [|a t IH]; simpl; [reflexivity|].
  intros H. apply andb_true_iff in H. destruct H as [Ha Ht].
  now rewrite (Hpq a Ha), (IH Ht).
Qed.

Lemma all_chars_app (p : ascii -> bool) (a b : string) :
  all_chars p (a ++ b) = (all_chars p a && all_chars p b)%bool.
Proof.
  induction a as [|c a IH]; simpl; [reflexivity|].
  now rewrite IH, andb_assoc.
Qed.

(** [replace] leaves a string without the character alone. *)
Lemma replace_absent (c : ascii) (r s : string) :
  all_chars (fun a => negb (Ascii.eqb a c)) s = true ->
  Py.replace c r s = s.
Proof.
  induction s as [|a t IH]; simpl; [reflexivity|].
  intros H. apply andb_true_iff in H. destruct H as [Ha Ht].
  apply negb_true_iff in Ha. now rewrite Ha, (IH Ht).
Qed.

Ltac by_cases_on_char :=
  let a := fresh "a" in
  intros a; destruct a as [[] [] [] [] [] [] [] []];
  cbv; intros; try reflexivity; try discriminate.

Lemma plain_not_space (a : ascii) :
  plain_char a = true -> negb (Py.is_space a) = true.
Proof. revert a. by_cases_on_char. Qed.

Lemma plain_not (c : ascii) :
  In c [Py.nl; Py.dquote; Py.squote; Py.tab; " "%char] ->
  forall a, plain_char a = true -> negb (Ascii.eqb a c) = true.
Proof.
  intros Hc.
  repeat (destruct Hc as [<-|Hc]; [by_cases_on_char|]).
  destruct Hc.
Qed.

Lemma numeral_plain (a : ascii) : numeral_char a = true -> plain_char a = true.
Proof. revert a. by_cases_on_char. Qed.

Lemma digit_numeral (a : ascii) : is_digit a = true -> numeral_char a = true.
Proof. revert a. by_cases_on_char. Qed.

(** [dedelimit_string] leaves a plain word alone. *)
Lemma dedelimit_plain (s : string) :
  all_chars plain_char s = true -> dedelimit_string s = s.
Proof.
  intros H. unfold dedelimit_string.
  assert (Hc : forall c,
             In c [Py.nl; Py.dquote; Py.squote; Py.tab; " "%char] ->
             Py.replace c "" s = s).
  { intros c Hc. apply replace_absent.
    apply (all_chars_impl plain_char); auto. now apply plain_not. }
  rewrite (Hc Py.nl), (Hc Py.dquote), (Hc Py.squote), (Hc Py.tab), (Hc " "%char);
    simpl; auto 6.
Qed.

Lemma lstrip_word (s : string) :
  all_chars (fun a => negb (Py.is_space a)) s = true -> Py.lstrip s = s.
Proof.
  destruct s as [|a t]; simpl; [reflexivity|].
  intros H. apply andb_true_iff in H. destruct H as [Ha _].
  apply negb_true_iff in Ha. now rewrite Ha.
Qed.

Lemma rstrip_word (s : string) :
  all_chars (fun a => negb (Py.is_space a)) s = true -> Py.rstrip s = s.
Proof.
  induction s as [|a t IH]; simpl; [reflexivity|].
  intros H. apply andb_true_iff in H. destruct H as [Ha Ht].
  apply negb_true_iff in Ha. rewrite (IH Ht), Ha. now destruct t.
Qed.

Lemma strip_word (s : string) :
  all_chars (fun a => negb (Py.is_space a)) s = true -> Py.strip s = s.
Proof.
  intros H. unfold Py.strip. now rewrite (rstrip_word s H), (lstrip_word s H).
Qed.

(** [split] cuts a word off at the whitespace that follows it. *)
Lemma split_word (w : string) (sp : ascii) (rest : string) :
  w <> "" ->
  all_chars (fun a => negb (Py.is_space a)) w = true ->
  Py.is_space sp = true ->
  Py.split (w ++ String sp rest) = w :: Py.split rest.
Proof.
  intros Hne Hw Hsp. induction w as [|a t IH]; [now elim Hne|].
  simpl in Hw. apply andb_true_iff in Hw. destruct Hw as [Ha Ht].
  apply negb_true_iff in Ha.
  destruct t as [|b t'].
  - simpl. now rewrite Ha, Hsp.
  - change ((String a (String b t')) ++ String sp rest)
      with (String a (String b t' ++ String sp rest)).
    assert (Hb : Py.is_space b = false).
    { simpl in Ht. apply andb_true_iff in Ht. destruct Ht as [Hb _].
      now apply negb_true_iff in Hb. }
    assert (E : Py.split (String a (String b t' ++ String sp rest))
                = match Py.split (String b t' ++ String sp rest) with
                  | w :: ws => String a w :: ws
                  | [] => [String a EmptyString]
                  end).
    { simpl. now rewrite Ha, Hb. }
    rewrite E, IH; [reflexivity|discriminate|exact Ht].
Qed.

Lemma split_space (sp : ascii) (rest : string) :
  Py.is_space sp = true -> Py.split (String sp rest) = Py.split rest.
Proof. intros H. simpl. now rewrite H. Qed.

Lemma split_spaces (gap rest : string) :
  all_chars Py.is_space gap = true -> Py.split (gap ++ rest) = Py.split rest.
Proof.
  induction gap as [|a t IH]; simpl; [reflexivity|].
  intros H. apply andb_true_iff in H. destruct H as [Ha Ht].
  rewrite Ha. now apply IH.
Qed.

(** The lines of a file that starts with a line. *)
Lemma readlines_line (body rest : string) :
  all_chars (fun a => negb (Ascii.eqb a Py.nl)) body = true ->
  Py.readlines (body ++ NL ++ rest) = (body ++ NL) :: Py.readlines rest.
Proof.
  induction body as [|a t IH]; intros H; [reflexivity|].
  simpl in H. apply andb_true_iff in H. destruct H as [Ha Ht].
  apply negb_true_iff in Ha.
  cbn [append Py.readlines]. now rewrite Ha, (IH Ht).
Qed.

(** Decimal numerals. *)
Lemma uint_digits (d : Decimal.uint) :
  all_chars is_digit (NilEmpty.string_of_uint d) = true.
Proof. induction d; simpl; auto. Qed.

Lemma uint_nonempty (d : Decimal.uint) :
  d <> Decimal.Nil -> NilEmpty.string_of_uint d <> "".
Proof. destruct d; simpl; intros H; [now elim H|discriminate..]. Qed.

Lemma pos_to_uint_nonnil (p : positive) : Pos.to_uint p <> Decimal.Nil.
Proof.
  intros H. pose proof (DecimalPos.Unsigned.of_to p) as E.
  rewrite H in E. discriminate.
Qed.
(* ================================================================= *)
(** ** SheetSpec.absorb *)

(** C7, as the code has it: [absorb] replaces exactly the attributes of
    [self] that hold their sentinel by the attribute of the other
    specification, and leaves every attribute that differs from its
    sentinel as it was.  (An attribute set on purpose to the library default
    holds the sentinel, and is replaced.) *)
Theorem absorb_fills_unset_only (f : field) (self other : SheetSpec) :
  get f (absorb self other)
  = if unset f self then get f other else get f self.
Proof.
  destruct f; unfold unset, get, absorb, if_none; simpl;
    try (destruct (_ self); reflexivity);
    match goal with
    | |- context [if ?b then _ else _] => destruct b; reflexivity
    end.
Qed.

(** C7 as stated fails: a font size given on the command line as 12, the
    library default, is overwritten by the one of the built-in type. *)
Lemma absorb_overwrites_explicit_default :
  exists v t,
    handle_options [("--font-size", "12")] Cli.init = (v, None)
    /\ sheetspec_for_type "avery5168" = Ok t
    /\ (font_size (Cli.spec v) == 12)%Q
    /\ (font_size (absorb (Cli.spec v) t) == 33)%Q
    /\ ~ (font_size (absorb (Cli.spec v) t) == font_size (Cli.spec v))%Q.
Proof.
  eexists. eexists.
  split; [vm_compute; reflexivity|].
  split; [vm_compute; reflexivity|].
  repeat split; try reflexivity.
  vm_compute. discriminate.
Qed.

(* ================================================================= *)
(** ** The parameter-file loader *)

Lemma parse_param_lines_app (l1 l2 : list string) :
  forall spec err,
    parse_param_lines (l1 ++ l2) spec err
    = (r <- parse_param_lines l1 spec err ;;
       parse_param_lines l2 (fst r) (snd r)).
Proof.
  induction l1 as [|line l1 IH]; intros spec err; simpl.
  - reflexivity.
  - destruct (comment_or_blank line).
    + apply IH.
    + destruct (parse_param_line line spec) as [[spec1 err1]|e]; simpl.
      * apply IH.
      * reflexivity.
Qed.

Lemma parse_param_line_tokens (line : string) (spec : SheetSpec) :
  length (Py.split line) <> 2%nat ->
  parse_param_line line spec = Raise ValueError.
Proof.
  unfold parse_param_line.
  destruct (Py.split line) as [|key [|val [|w ws]]]; simpl; intros H;
    try reflexivity.
  now elim H.
Qed.

(** The unpacking [key, val = line.split()] is what raises: the loader dies
    on the first line it does not skip that is not made of two tokens. *)
Lemma parse_param_lines_malformed (before after : list string) (line : string)
  (spec spec' : SheetSpec) (err err' : list string) :
  parse_param_lines before spec err = Ok (spec', err') ->
  comment_or_blank line = false ->
  length (Py.split line) <> 2%nat ->
  parse_param_lines (before ++ line :: after) spec err = Raise ValueError.
Proof.
  intros Hb Hc Ht.
  rewrite parse_param_lines_app, Hb; simpl.
  rewrite Hc, (parse_param_line_tokens _ _ Ht). reflexivity.
Qed.

(** By contrast a line of two tokens whose key is not known is reported on
    standard error and skipped: the loader goes on with the next line. *)
Lemma parse_param_lines_unknown_key (line key val : string)
  (rest : list string) (spec : SheetSpec) (err : list string) :
  comment_or_blank line = false ->
  Py.split line = [key; val] ->
  existsb (String.eqb (param_key key)) known_keys = false ->
  parse_param_lines (line :: rest) spec err
  = parse_param_lines rest spec
      (err ++ [("ERROR: Unknown parameter line '" ++ line ++ "'." ++ NL)%string])%list.
Proof.
  intros Hc Hs Hk. simpl. rewrite Hc.
  unfold parse_param_line, assign_param. rewrite Hs.
  simpl in Hk.
  repeat match type of Hk with
         | (_ || _)%bool = false =>
             let H1 := fresh in
             apply orb_false_iff in Hk; destruct Hk as [H1 Hk]; rewrite H1
         end.
  reflexivity.
Qed.

(** An exception of the loader is caught by nobody: [main] dies of it. *)
Lemma main_with_options (fuel : nat) (env : Env)
  (opts : list (string * string)) (args : list string) :
  opts <> [] -> main fuel env opts args = run_options fuel env opts.
Proof. intros H. unfold main. destruct opts; [now elim H|reflexivity]. Qed.

Lemma main_dies_in_param_file (fuel : nat) (env : Env)
  (opts : list (string * string)) (args : list string) (v : Cli.vars)
  (pfile : string) (f : Infile) (e : exn) :
  handle_options opts Cli.init = (v, None) ->
  Cli.exit_cleanly v = false ->
  Cli.param_file v = Some pfile ->
  read env pfile = Some f ->
  parse_param_file (text f) = Raise e ->
  main fuel env opts args
  = Some (mkFinished (Uncaught e) (Cli.stdout v) (Cli.stderr v)).
Proof.
  intros Ho Hx Hp Hr He. rewrite main_with_options.
  - unfold run_options, merged_spec.
    rewrite Ho, Hx, Hp, Hr, He. reflexivity.
  - intros ->. cbn in Ho. inversion Ho; subst. discriminate.
Qed.

(** C10: a line of the parameter file that is neither blank nor a comment
    and is not made of exactly two whitespace-separated tokens makes the
    loader raise ValueError, which nobody catches: the run aborts there. *)
Theorem malformed_parameter_line_aborts (fuel : nat) (env : Env)
  (opts : list (string * string)) (args : list string) (v : Cli.vars)
  (pfile : string) (f : Infile) (before after : list string) (line : string)
  (spec' : SheetSpec) (err' : list string) :
  handle_options opts Cli.init = (v, None) ->
  Cli.exit_cleanly v = false ->
  Cli.param_file v = Some pfile ->
  read env pfile = Some f ->
  Py.readlines (text f) = (before ++ line :: after)%list ->
  parse_param_lines before SheetSpec_init [] = Ok (spec', err') ->
  comment_or_blank line = false ->
  length (Py.split line) <> 2%nat ->
  main fuel env opts args
  = Some (mkFinished (Uncaught ValueError) (Cli.stdout v) (Cli.stderr v)).
Proof.
  intros Ho Hx Hp Hr Hl Hb Hc Ht.
  apply (main_dies_in_param_file fuel env opts args v pfile f); auto.
  unfold parse_param_file. rewrite Hl.
  now apply (parse_param_lines_malformed before after line _ spec' _ err').
Qed.

Lemma malformed_parameter_line_aborts_witness :
  main 0 env_key_without_value [("-l", ""); ("-p", "params")] []
  = Some (mkFinished (Uncaught ValueError) [] []).
Proof.
  apply (malformed_parameter_line_aborts 0 env_key_without_value
           [("-l", ""); ("-p", "params")] []
           (Cli.mk false false SheetSpec_init None None true false false 0
                   "labelnation.ps" (Some "params") None false 0 false [] [])
           "params"
           (mkInfile ("LabelWidth: 180" ++ NL ++ "LabelHeight:" ++ NL
                      ++ "FontSize: 12" ++ NL) [])
           ["LabelWidth: 180" ++ NL] ["FontSize: 12" ++ NL]
           ("LabelHeight:" ++ NL)
           (set_label_width 180 SheetSpec_init) []);
    try reflexivity.
  vm_compute. discriminate.
Defined.

(** A font name containing a space has the same effect, and an unknown key
    does not. *)
Example font_name_with_space_raises :
  parse_param_file ("FontName: Times Roman" ++ NL) = Raise ValueError.
Proof. reflexivity. Qed.

Example unknown_key_is_reported :
  parse_param_file ("Colour: red" ++ NL ++ "LabelWidth: 180" ++ NL)
  = Ok (set_label_width 180 SheetSpec_init,
        ["ERROR: Unknown parameter line 'Colour: red" ++ NL ++ "'." ++ NL]).
Proof. reflexivity. Qed.

(* ================================================================= *)
(** ** Dumping the parameters and loading them again *)

Lemma unsign_digits (s : string) :
  all_chars is_digit s = true -> Py.unsign s = (false, s).
Proof.
  destruct s as [|a t]; [reflexivity|]. simpl.
  intros H. apply andb_true_iff in H. destruct H as [Ha _].
  revert Ha. destruct a as [[] [] [] [] [] [] [] []]; cbv; intros;
    try reflexivity; discriminate.
Qed.

Lemma cut_digits (p : ascii -> bool) (s : string) :
  (forall a, is_digit a = true -> p a = false) ->
  all_chars is_digit s = true -> Py.cut p s = (s, None).
Proof.
  intros Hp. induction s as [|a t IH]; [reflexivity|]. simpl.
  intros H. apply andb_true_iff in H. destruct H as [Ha Ht].
  now rewrite (IH Ht), (Hp a Ha).
Qed.

Lemma digit_not_point (a : ascii) :
  is_digit a = true -> Ascii.eqb "." a = false.
Proof. revert a. by_cases_on_char. Qed.

Lemma digit_not_e (a : ascii) : is_digit a = true -> Py.is_e a = false.
Proof. revert a. by_cases_on_char. Qed.

Lemma digits_word (s : string) :
  all_chars is_digit s = true ->
  all_chars (fun a => negb (Py.is_space a)) s = true.
Proof.
  apply all_chars_impl. intros a Ha.
  apply plain_not_space, numeral_plain, digit_numeral, Ha.
Qed.

(** [float] reads the numeral of a natural number, with or without a minus
    sign in front. *)
Lemma float_uint (d : Decimal.uint) (neg : bool) :
  d <> Decimal.Nil ->
  Py.float ((if neg then "-" else "") ++ NilEmpty.string_of_uint d)
  = Some (Py.signed neg (inject_Z (Z.of_uint d))).
Proof.
  intros Hd.
  pose proof (uint_digits d) as Hdig.
  pose proof (uint_nonempty d Hd) as Hne.
  pose proof (digits_word _ Hdig) as Hw.
  unfold Py.float.
  assert (Es : Py.strip ((if neg then "-" else "") ++ NilEmpty.string_of_uint d)
               = (if neg then "-" else "") ++ NilEmpty.string_of_uint d).
  { apply strip_word. rewrite all_chars_app, Hw. now destruct neg. }
  rewrite Es.
  assert (Eu : Py.unsign ((if neg then "-" else "")
                          ++ NilEmpty.string_of_uint d)
               = (neg, NilEmpty.string_of_uint d)).
  { destruct neg; [reflexivity|]. simpl. now apply unsign_digits. }
  rewrite Eu, (cut_digits _ _ digit_not_e Hdig).
  unfold Py.mantissa. rewrite (cut_digits _ _ digit_not_point Hdig).
  unfold Py.digits. rewrite NilEmpty.usu. simpl.
  destruct (NilEmpty.string_of_uint d); [now elim Hne|reflexivity].
Qed.

Lemma string_of_Z_pos (p : positive) :
  Py.string_of_Z (Zpos p) = NilEmpty.string_of_uint (Pos.to_uint p).
Proof.
  unfold Py.string_of_Z. simpl. unfold NilZero.string_of_uint.
  pose proof (pos_to_uint_nonnil p). now destruct (Pos.to_uint p).
Qed.

Lemma string_of_Z_neg (p : positive) :
  Py.string_of_Z (Zneg p) = "-" ++ NilEmpty.string_of_uint (Pos.to_uint p).
Proof.
  unfold Py.string_of_Z. simpl. unfold NilZero.string_of_uint.
  pose proof (pos_to_uint_nonnil p). now destruct (Pos.to_uint p).
Qed.

Lemma of_uint_to_uint (p : positive) : Z.of_uint (Pos.to_uint p) = Zpos p.
Proof.
  unfold Z.of_uint. now rewrite DecimalPos.Unsigned.of_to.
Qed.

(** What [%d] writes, [float] reads back. *)
Lemma float_string_of_Z (k : Z) :
  Py.float (Py.string_of_Z k) = Some (inject_Z k).
Proof.
  destruct k as [|p|p].
  - reflexivity.
  - rewrite string_of_Z_pos.
    pose proof (float_uint (Pos.to_uint p) false (pos_to_uint_nonnil p)) as E.
    cbn [append] in E. rewrite E. now rewrite of_uint_to_uint.
  - rewrite string_of_Z_neg.
    pose proof (float_uint (Pos.to_uint p) true (pos_to_uint_nonnil p)) as E.
    rewrite E. now rewrite of_uint_to_uint.
Qed.

(** A numeral is a plain word. *)
Lemma string_of_Z_plain (k : Z) : plain_token (Py.string_of_Z k) = true.
Proof.
  assert (H : forall d, d <> Decimal.Nil ->
                        plain_token (NilEmpty.string_of_uint d) = true
                        /\ all_chars plain_char (NilEmpty.string_of_uint d)
                           = true).
  { intros d Hd.
    assert (Ha : all_chars plain_char (NilEmpty.string_of_uint d) = true).
    { apply (all_chars_impl is_digit); [|apply uint_digits].
      intros a Ha. apply numeral_plain, digit_numeral, Ha. }
    split; [|exact Ha]. unfold plain_token.
    pose proof (uint_nonempty d Hd).
    now destruct (NilEmpty.string_of_uint d). }
  destruct k as [|p|p].
  - reflexivity.
  - rewrite string_of_Z_pos. apply H, pos_to_uint_nonnil.
  - rewrite string_of_Z_neg. simpl. apply H, pos_to_uint_nonnil.
Qed.

Lemma plain_token_chars (s : string) :
  plain_token s = true -> s <> "" /\ all_chars plain_char s = true.
Proof. destruct s; simpl; [discriminate|]. intros H. split; [discriminate|auto]. Qed.

Lemma plain_word (s : string) :
  all_chars plain_char s = true ->
  all_chars (fun a => negb (Py.is_space a)) s = true.
Proof. apply all_chars_impl, plain_not_space. Qed.

Lemma word_no_newline (s : string) :
  all_chars (fun a => negb (Py.is_space a)) s = true ->
  all_chars (fun a => negb (Ascii.eqb a Py.nl)) s = true.
Proof. apply all_chars_impl. by_cases_on_char. Qed.

Lemma gap_spaces (gap : string) :
  all_chars (fun c => Ascii.eqb c " ") gap = true ->
  all_chars Py.is_space gap = true
  /\ all_chars (fun a => negb (Ascii.eqb a Py.nl)) gap = true.
Proof.
  intros H. split; revert H; apply all_chars_impl; by_cases_on_char.
Qed.

(** A line of the dump is read as its key and its value. *)
Lemma split_dump_line (key gap val : string) :
  key_ok key = true -> gap_ok gap = true -> plain_token val = true ->
  Py.split (dump_line key gap val) = [key; val]
  /\ comment_or_blank (dump_line key gap val) = false.
Proof.
  intros Hk Hg Hv. unfold dump_line.
  destruct key as [|a key']; [discriminate|].
  unfold key_ok in Hk. apply andb_true_iff in Hk. destruct Hk as [Hhash Hkw].
  destruct gap as [|sp gap']; [discriminate|].
  simpl in Hg. apply andb_true_iff in Hg. destruct Hg as [Hsp Hgap].
  apply Ascii.eqb_eq in Hsp. subst sp.
  destruct (plain_token_chars _ Hv) as [Hvne Hvp].
  split.
  - change (String " " gap' ++ val ++ NL)
      with (String " " (gap' ++ val ++ NL)).
    rewrite (split_word (String a key') " " (gap' ++ val ++ NL));
      [|discriminate|exact Hkw|reflexivity].
    rewrite split_spaces by (apply gap_spaces, Hgap).
    unfold NL.
    rewrite (split_word val Py.nl "");
      [reflexivity|exact Hvne|apply plain_word, Hvp|reflexivity].
  - unfold comment_or_blank. simpl.
    simpl in Hkw. apply andb_true_iff in Hkw. destruct Hkw as [Ha _].
    apply negb_true_iff in Ha. rewrite Ha.
    now apply negb_true_iff in Hhash.
Qed.

Lemma parse_dump_line (key gap val : string) (rest : list string)
  (spec : SheetSpec) (err : list string) :
  key_ok key = true -> gap_ok gap = true -> plain_token val = true ->
  parse_param_lines (dump_line key gap val :: rest) spec err
  = (r <- assign_param (param_key key) val (dump_line key gap val) spec ;;
     parse_param_lines rest (fst r) (err ++ snd r)).
Proof.
  intros Hk Hg Hv.
  destruct (split_dump_line key gap val Hk Hg Hv) as [Es Ec].
  cbn [parse_param_lines]. rewrite Ec. unfold parse_param_line. rewrite Es.
  destruct (plain_token_chars _ Hv) as [Hvne Hvp].
  rewrite (dedelimit_plain _ Hvp).
  now destruct val.
Qed.

Lemma readlines_dump_line (key gap val rest : string) :
  key_ok key = true -> gap_ok gap = true -> plain_token val = true ->
  Py.readlines (dump_line key gap val ++ rest)
  = dump_line key gap val :: Py.readlines rest.
Proof.
  intros Hk Hg Hv. unfold dump_line.
  replace ((key ++ gap ++ val ++ NL) ++ rest)
    with ((key ++ gap ++ val) ++ NL ++ rest)
    by (now rewrite !append_assoc).
  rewrite readlines_line.
  - now rewrite !append_assoc.
  - rewrite !all_chars_app.
    destruct key as [|a key']; [discriminate|].
    unfold key_ok in Hk. apply andb_true_iff in Hk. destruct Hk as [_ Hkw].
    destruct gap as [|sp gap']; [discriminate|].
    unfold gap_ok in Hg.
    destruct (plain_token_chars _ Hv) as [_ Hvp].
    rewrite (word_no_newline _ Hkw).
    rewrite (proj2 (gap_spaces _ Hg)).
    now rewrite (word_no_newline _ (plain_word _ Hvp)).
Qed.

(** The assignments the keys of the dump lead to. *)
Lemma float_of_fmt_d (q : Q) :
  float_of (dedelimit_string (Py.fmt_d q)) = Ok (trunc q)
  /\ float_of (Py.fmt_d q) = Ok (trunc q).
Proof.
  pose proof (string_of_Z_plain (Py.int q)) as Hp.
  destruct (plain_token_chars _ Hp) as [_ Hc].
  unfold Py.fmt_d. rewrite (dedelimit_plain _ Hc).
  unfold float_of. now rewrite float_string_of_Z.
Qed.

Ltac assign_number :=
  intros;
  match goal with
  | |- assign_param _ (Py.fmt_d ?q) _ _ = _ =>
      unfold assign_param; cbn [String.eqb Ascii.eqb Bool.eqb];
      rewrite ?(proj1 (float_of_fmt_d q)), ?(proj2 (float_of_fmt_d q));
      reflexivity
  end.

Lemma assign_dump_numbers (q : Q) (line : string) (spec : SheetSpec) :
  assign_param "leftmargin" (Py.fmt_d q) line spec
  = Ok (set_left_margin (trunc q) spec, [])
  /\ assign_param "bottommargin" (Py.fmt_d q) line spec
     = Ok (set_bottom_margin (trunc q) spec, [])
  /\ assign_param "labelwidth" (Py.fmt_d q) line spec
     = Ok (set_label_width (trunc q) spec, [])
  /\ assign_param "labelheight" (Py.fmt_d q) line spec
     = Ok (set_label_height (trunc q) spec, [])
  /\ assign_param "horizspace" (Py.fmt_d q) line spec
     = Ok (set_horiz_space (trunc q) spec, [])
  /\ assign_param "vertspace" (Py.fmt_d q) line spec
     = Ok (set_vert_space (trunc q) spec, [])
  /\ assign_param "horiznumlabels" (Py.fmt_d q) line spec
     = Ok (set_horiz_num_labels (trunc q) spec, [])
  /\ assign_param "vertnumlabels" (Py.fmt_d q) line spec
     = Ok (set_vert_num_labels (trunc q) spec, [])
  /\ assign_param "fontsize" (Py.fmt_d q) line spec
     = Ok (set_font_size (trunc q) spec, []).
Proof. repeat split; assign_number. Qed.

Lemma str_dump_lines (lm bm lw lh hs vs hn vn fl : Q) (fn : string) (fs : Q) :
  SheetSpec_str (mkSheetSpec (Some lm) (Some bm) (Some lw) (Some lh) (Some hs)
                             (Some vs) (Some hn) (Some vn) fl fn fs)
  = Ok (join (dump_lines lm bm lw lh hs vs hn vn fn fs)).
Proof.
  unfold SheetSpec_str, dump_lines, dump_line. cbn [join].
  cbn [left_margin bottom_margin label_width label_height horiz_space
       vert_space horiz_num_labels vert_num_labels font_name font_size].
  f_equal. rewrite !append_assoc. reflexivity.
Qed.

Lemma readlines_dump (lm bm lw lh hs vs hn vn : Q) (fn : string) (fs : Q) :
  plain_token fn = true ->
  Py.readlines (join (dump_lines lm bm lw lh hs vs hn vn fn fs))
  = dump_lines lm bm lw lh hs vs hn vn fn fs.
Proof.
  intros Hfn. unfold dump_lines. cbn [join].
  repeat (rewrite readlines_dump_line;
          [|reflexivity|reflexivity|
           first [exact Hfn | apply string_of_Z_plain]]).
  reflexivity.
Qed.

(** Loading the dump of a specification whose dimensions are all set gives
    the specification with its numbers cut to their integer parts, and
    reports nothing.  [first_label] is not in the dump: the loader leaves
    it at its default. *)
Lemma reload_truncated (s : SheetSpec) :
  resolve s <> None ->
  plain_token (font_name s) = true ->
  reload s = Ok (truncated s, []).
Proof.
  destruct s as [[lm|] [bm|] [lw|] [lh|] [hs|] [vs|] [hn|] [vn|] fl fn fs];
    cbn [resolve left_margin bottom_margin label_width label_height
         horiz_space vert_space horiz_num_labels vert_num_labels font_name];
    intros Hr Hfn; try (now elim Hr).
  unfold reload. rewrite str_dump_lines. cbn [bind].
  unfold parse_param_file. rewrite (readlines_dump _ _ _ _ _ _ _ _ _ _ Hfn).
  unfold dump_lines.
  repeat (rewrite parse_dump_line;
          [|reflexivity|reflexivity|
           first [exact Hfn | apply string_of_Z_plain]];
          match goal with
          | |- context [assign_param (param_key ?k) ?v ?l ?sp] =>
              let nk := eval vm_compute in (param_key k) in
              change (param_key k) with nk
          end;
          first
            [ rewrite (proj1 (assign_dump_numbers _ _ _))
            | rewrite (proj1 (proj2 (assign_dump_numbers _ _ _)))
            | rewrite (proj1 (proj2 (proj2 (assign_dump_numbers _ _ _))))
            | rewrite (proj1 (proj2 (proj2 (proj2 (assign_dump_numbers _ _ _)))))
            | rewrite (proj1 (proj2 (proj2 (proj2 (proj2
                         (assign_dump_numbers _ _ _))))))
            | rewrite (proj1 (proj2 (proj2 (proj2 (proj2 (proj2
                         (assign_dump_numbers _ _ _)))))))
            | rewrite (proj1 (proj2 (proj2 (proj2 (proj2 (proj2 (proj2
                         (assign_dump_numbers _ _ _))))))))
            | rewrite (proj1 (proj2 (proj2 (proj2 (proj2 (proj2 (proj2 (proj2
                         (assign_dump_numbers _ _ _)))))))))
            | rewrite (proj2 (proj2 (proj2 (proj2 (proj2 (proj2 (proj2 (proj2
                         (assign_dump_numbers _ _ _)))))))))
            | (unfold assign_param at 1;
               cbn [String.eqb Ascii.eqb Bool.eqb]) ];
          cbn [bind fst snd app]).
  reflexivity.
Qed.

Lemma whole_trunc (o : option Q) :
  whole o -> same_dim (option_map trunc o) o.
Proof.
  destruct o as [q|]; simpl; [|tauto].
  unfold integral, trunc. intros H. now symmetry.
Qed.

Lemma whole_some (o : option Q) : whole o -> exists q, o = Some q.
Proof. destruct o as [q|]; simpl; [eauto|tauto]. Qed.

(** C3, as the code has it: for a specification whose eight dimensions and
    font size are whole numbers and whose font name is a plain word, the
    dump loaded again gives the same dimensions, font name and font size,
    and reports nothing.  [first_label] is not part of the dump and comes
    back as the default. *)
Theorem dump_reload_round_trip (s : SheetSpec) :
  dumpable s ->
  exists s',
    reload s = Ok (s', [])
    /\ same_dump s' s
    /\ first_label s' = default_first_label.
Proof.
  intros (H1 & H2 & H3 & H4 & H5 & H6 & H7 & H8 & Hfs & Hfn).
  exists (truncated s). split; [|split].
  - apply reload_truncated; [|exact Hfn].
    destruct (whole_some _ H1) as [? E1], (whole_some _ H2) as [? E2],
      (whole_some _ H3) as [? E3], (whole_some _ H4) as [? E4],
      (whole_some _ H5) as [? E5], (whole_some _ H6) as [? E6],
      (whole_some _ H7) as [? E7], (whole_some _ H8) as [? E8].
    unfold resolve. rewrite E1, E2, E3, E4, E5, E6, E7, E8. discriminate.
  - unfold same_dump, truncated; cbn [left_margin bottom_margin label_width
      label_height horiz_space vert_space horiz_num_labels vert_num_labels
      font_name font_size].
    repeat split; try (now apply whole_trunc).
    unfold integral, trunc in *. now symmetry.
  - reflexivity.
Qed.

Lemma dump_reload_round_trip_witness :
  exists s',
    reload spec_5168_from_3 = Ok (s', [])
    /\ same_dump s' spec_5168_from_3
    /\ first_label s' = default_first_label.
Proof.
  apply (dump_reload_round_trip spec_5168_from_3).
  unfold dumpable. repeat split.
Defined.

(** C3 as stated fails: [first_label] is an attribute of the
    specification, and the dump loaded again has lost it. *)
Lemma reload_loses_first_label :
  exists s',
    reload spec_5168_from_3 = Ok (s', [])
    /\ (first_label spec_5168_from_3 == 3)%Q
    /\ (first_label s' == 1)%Q
    /\ ~ (first_label s' == first_label spec_5168_from_3)%Q.
Proof.
  eexists. split; [vm_compute; reflexivity|].
  repeat split. vm_compute. discriminate.
Qed.

(** Fractions are another matter: the dump is written with [%d], so a
    margin of 11.25 points is dumped as 11. *)
Example reload_cuts_fractions :
  exists s',
    reload spec_5161 = Ok (s', [])
    /\ left_margin spec_5161 = Some 11.25%Q
    /\ left_margin s' = Some (inject_Z 11).
Proof. eexists. split; [vm_compute; reflexivity|]. split; reflexivity. Qed.

(* ================================================================= *)
(** ** The checks of main on first_label *)

Lemma complain_fst (c : bool) (msg : string) (acc : bool * list string) :
  fst (complain c msg acc) = (c || fst acc)%bool.
Proof. unfold complain. destruct c; reflexivity. Qed.

(** The only exception of the option loop is the ValueError of [int] and
    [float]. *)
Lemma handle_option_raises (opt value : string) (v : Cli.vars) (e : exn) :
  handle_option opt value v = Raise e -> e = ValueError.
Proof.
  unfold handle_option, int_of, float_of, bind. destruct v.
  repeat match goal with
         | |- context [if ?b then _ else _] => destruct b
         | |- context [match ?o with Some _ => _ | None => _ end] => destruct o
         end; intros H; congruence.
Qed.







(** [first_label] comes from the command line alone: neither the parameter
    file nor a built-in type changes it. *)
Lemma parse_param_line_first_label (line : string) (spec spec' : SheetSpec)
  (err : list string) :
  parse_param_line line spec = Ok (spec', err) ->
  first_label spec' = first_label spec.
Proof.
  unfold parse_param_line, assign_param, float_of, bind.
  repeat match goal with
         | |- context [match ?l with [] => _ | _ :: _ => _ end] => destruct l
         end; try discriminate.
  repeat match goal with
         | |- context [if ?b then _ else _] => destruct b
         | |- context [match ?o with Some _ => _ | None => _ end] => destruct o
         end; intros H; inversion H; reflexivity.
Qed.

Lemma parse_param_lines_first_label (lines : list string) :
  forall spec err spec' err',
    parse_param_lines lines spec err = Ok (spec', err') ->
    first_label spec' = first_label spec.
Proof.
  induction lines as [|line lines IH]; simpl; intros spec err spec' err' H.
  - now inversion H.
  - destruct (comment_or_blank line).
    + eauto.
    + destruct (parse_param_line line spec) as [[s1 e1]|e] eqn:E;
        simpl in H; [|discriminate].
      apply IH in H. simpl in H. rewrite H.
      eapply parse_param_line_first_label; eauto.
Qed.

Lemma sheetspec_for_type_first_label (type : string) (t : SheetSpec) :
  sheetspec_for_type type = Ok t -> first_label t = default_first_label.
Proof.
  unfold sheetspec_for_type.
  repeat match goal with
         | |- context [if ?b then _ else _] => destruct b
         end; intros H; inversion H; reflexivity.
Qed.

Lemma absorb_first_label (self other : SheetSpec) :
  first_label other = default_first_label ->
  (first_label (absorb self other) == first_label self)%Q.
Proof.
  intros H. simpl.
  destruct (Qeq_bool (first_label self) default_first_label) eqn:E.
  - rewrite H. symmetry. now apply Qeq_bool_eq.
  - reflexivity.
Qed.

Lemma merged_first_label (env : Env) (v : Cli.vars) (spec : SheetSpec)
  (err : list string) :
  merged_spec env v = Ok (spec, err) ->
  (first_label spec == first_label (Cli.spec v))%Q.
Proof.
  unfold merged_spec. intros H.
  assert (H1 : forall r1,
             (first_label (fst r1) == first_label (Cli.spec v))%Q ->
             match Cli.type v with
             | Some type => t <- sheetspec_for_type type ;;
                            Ok (absorb (fst r1) t, snd r1)
             | None => Ok r1
             end = Ok (spec, err) ->
             (first_label spec == first_label (Cli.spec v))%Q).
  { intros r1 Hr1. destruct (Cli.type v) as [type|].
    - destruct (sheetspec_for_type type) as [t|e] eqn:E; simpl; [|discriminate].
      intros H2. inversion H2; subst.
      rewrite absorb_first_label; auto.
      eapply sheetspec_for_type_first_label; eauto.
    - intros H2. inversion H2; subst. exact Hr1. }
  destruct (Cli.param_file v) as [pfile|].
  - destruct (read env pfile) as [f|]; [|discriminate].
    destruct (parse_param_file (text f)) as [[s1 e1]|e] eqn:E; [|discriminate].
    simpl in H. eapply H1; [|exact H]. simpl.
    apply absorb_first_label.
    apply parse_param_lines_first_label in E. exact E.
  - simpl in H. eapply H1; [|exact H]. reflexivity.
Qed.

(* ================================================================= *)
(** ** Escaping of label text *)

Lemma escape_cons (a : ascii) (t : string) :
  escape (String a t) = esc_char a ++ escape t.
Proof.
  unfold escape, esc_char. simpl.
  destruct (Ascii.eqb_spec a Py.backslash) as [->|Hb]; [reflexivity|].
  simpl.
  destruct (Ascii.eqb_spec a "(") as [->|Ho]; [reflexivity|].
  simpl.
  destruct (Ascii.eqb_spec a ")") as [->|Hc]; reflexivity.
Qed.

Lemma ps_unescape_esc_char (a : ascii) (s : string) :
  ps_unescape (esc_char a ++ s) = String a (ps_unescape s).
Proof.
  unfold esc_char.
  destruct (Ascii.eqb_spec a Py.backslash) as [->|Hb]; [reflexivity|].
  destruct (Ascii.eqb_spec a "(") as [->|Ho]; [reflexivity|].
  destruct (Ascii.eqb_spec a ")") as [->|Hc]; [reflexivity|].
  simpl. apply Ascii.eqb_neq in Hb. now rewrite Hb.
Qed.

Lemma ps_string_end_esc_char (depth : nat) (a : ascii) (s : string) :
  ps_string_end depth (esc_char a ++ s) = ps_string_end depth s.
Proof.
  unfold esc_char.
  destruct (Ascii.eqb_spec a Py.backslash) as [->|Hb]; [reflexivity|].
  destruct (Ascii.eqb_spec a "(") as [->|Ho]; [reflexivity|].
  destruct (Ascii.eqb_spec a ")") as [->|Hc]; [reflexivity|].
  simpl. apply Ascii.eqb_neq in Hb, Ho, Hc. now rewrite Hb, Ho, Hc.
Qed.

(** In line input every line is escaped once: PostScript reads the text of
    the line back from the string written, and the string is closed by the
    parenthesis of the [show] instruction, whatever the line holds. *)
Lemma escape_read_back (l : string) : ps_unescape (escape l) = l.
Proof.
  induction l as [|a t IH]; [reflexivity|].
  now rewrite escape_cons, ps_unescape_esc_char, IH.
Qed.

Lemma escape_balanced (l rest : string) :
  ps_string_end 0 (escape l ++ ")" ++ rest) = Some rest.
Proof.
  induction l as [|a t IH]; [reflexivity|].
  rewrite escape_cons, append_assoc.
  now rewrite ps_string_end_esc_char.
Qed.

(** The escaping is done where a line is appended to [label_lines], the
    branch of the loop body that text lines of line input take. *)
Lemma body_escapes_line (spec : Sheet) (delimiter : option string)
  (leading_spaces min_label_lines : Z) (st : state) :
  iterate_over_single_page st = false ->
  is_delimiter delimiter (Py.rstrip (line st)) = false ->
  label_lines (body spec Line delimiter leading_spaces min_label_lines st)
  = (label_lines st ++ [escape (Py.rstrip (line st))])%list.
Proof.
  intros Hi Hd. unfold body. rewrite Hi. simpl. rewrite Hd, Hi. reflexivity.
Qed.

(** C5 fails on csv input: the fields of a row become the label lines as
    they are, and a parenthesis in a field is written unescaped.  The string
    of the [show] instruction is then not closed.  The same text in line
    input is escaped. *)
Theorem csv_fields_are_not_escaped :
  blocks (document
            (main 10 (env_one_label "" [["a(b"]])
                  [("--csv", ""); ("-t", "avery5167"); ("-i", "in")] []))
  = [one_line_code "Times-Roman" "10" "18.000000" "a(b"]
  /\ ps_string_end 0 ("a(b) show" ++ NL ++ "stroke" ++ NL) = None
  /\ blocks (document
               (main 10 (env_one_label ("a(b" ++ NL ++ "X" ++ NL) [])
                     [("-l", ""); ("-t", "avery5167"); ("-d", "X");
                      ("-i", "in")] []))
     = [one_line_code "Times-Roman" "10" "18.000000" "a\(b"].
Proof. repeat split; vm_compute; reflexivity. Qed.

(* ================================================================= *)
(** ** Translation of a label *)

(** The translation of every label is written with the conversion [%d]:
    what the document holds is the truncation of the step computed. *)
Lemma translation_text (iso : string) (xs ys : Q) (code : string) :
  render iso (LabelBlock xs ys code)
  = "gsave" ++ NL
    ++ Py.string_of_Z (Py.int xs) ++ " " ++ Py.string_of_Z (Py.int ys) ++ NL
    ++ "translate" ++ NL ++ "labelclip" ++ NL ++ code ++ "grestore" ++ NL ++ NL.
Proof. reflexivity. Qed.

(** C4 fails where the step is fractional.  On an avery5167 sheet (labels
    126 wide, 22.5 apart) the label of column 1 is 148.5 to the right; the
    document says 148. *)
Theorem translation_is_truncated :
  exists xs ys,
    steps (document
             (main 10 (env_one_label "" [["a"]])
                   [("--csv", ""); ("-t", "avery5167");
                    ("--first-label", "21"); ("-i", "in")] []))
    = [(xs, ys)]
    /\ (xs == 1 * (126 + 22.5))%Q
    /\ (ys == 0 * (36 + 0))%Q
    /\ (forall iso code,
           render iso (LabelBlock xs ys code)
           = "gsave" ++ NL ++ "148 0" ++ NL ++ "translate" ++ NL
             ++ "labelclip" ++ NL ++ code ++ "grestore" ++ NL ++ NL)
    /\ ~ (inject_Z 148 == 1 * (126 + 22.5))%Q.
Proof.
  eexists. eexists.
  split; [vm_compute; reflexivity|].
  split; [reflexivity|].
  split; [reflexivity|].
  split; [intros; reflexivity|].
  vm_compute. discriminate.
Qed.

(* ================================================================= *)
(** ** Replication of a single label *)

(** C2 fails with --leading-spaces: the label lines are left-padded again
    at every position of the page, so the labels of the page differ. *)
Theorem replicated_label_is_padded_again :
  blocks (document
            (main 10 (env_one_label ("Karl" ++ NL) [])
                  [("-l", ""); ("-t", "avery5168"); ("--leading-spaces", "1");
                   ("-i", "in")] []))
  = [ one_line_code "Arial" "47" "181.500000" " Karl";
      one_line_code "Arial" "47" "181.500000" "  Karl";
      one_line_code "Arial" "47" "181.500000" "   Karl";
      one_line_code "Arial" "47" "181.500000" "    Karl" ].
Proof. vm_compute. reflexivity. Qed.

(* ================================================================= *)
(** ** Font size of a label *)

Lemma blocks_app (a b : list ps_item) :
  blocks (a ++ b) = (blocks a ++ blocks b)%list.
Proof.
  induction a as [|i a IH]; simpl; [reflexivity|].
  destruct i; simpl; now rewrite IH.
Qed.


(** The number of lines of a label once it is padded to MIN_LABEL_LINES. *)
Lemma length_pad_lines (m : Z) (ll : list string) :
  Z.of_nat (length (pad_lines m ll)) = Z.max (Z.of_nat (length ll)) m.
Proof.
  unfold pad_lines. destruct (Z.ltb_spec (Z.of_nat (length ll)) m).
  - rewrite length_app, repeat_length. lia.
  - lia.
Qed.




(** The code [place] writes for a text label. *)
Lemma place_blocks (spec : Sheet) (input_type : InputType)
  (delimiter : option string) (leading_spaces min_label_lines : Z)
  (st : state) :
  is_code input_type = false ->
  blocks (output (place spec input_type delimiter leading_spaces
                        min_label_lines st))
  = (blocks (output st)
     ++ [(code_accum st
          ++ label_code spec
               (left_pad leading_spaces
                  (pad_lines min_label_lines
                     (if is_csv input_type then row st
                      else label_lines st))))%string])%list.
Proof.
  intros Hc. unfold place. rewrite Hc.
  destruct (advance spec (x st) (y st)) as [[x1 y1] crossed]. simpl.
  rewrite !blocks_app. simpl.
  destruct (start_new_page st), crossed; simpl;
    rewrite ?app_nil_r; reflexivity.
Qed.




(* ================================================================= *)
(** ** The loop of make_labels *)

Section LoopInvariant.

Variable spec : Sheet.
Variable input_type : InputType.
Variable delimiter : option string.
Variables leading_spaces min_label_lines : Z.

Local Abbreviation place_ :=
  (place spec input_type delimiter leading_spaces min_label_lines).
Local Abbreviation body_ :=
  (body spec input_type delimiter leading_spaces min_label_lines).
Local Abbreviation loop_ :=
  (loop spec input_type delimiter leading_spaces min_label_lines).

(** A property of the position, the page and the document written. *)
Variable P : Z -> Z -> Z -> bool -> list ps_item -> Prop.

Let holds (st : state) : Prop :=
  P (x st) (y st) (page_number st) (start_new_page st) (output st).

Hypothesis P_place : forall st, holds st -> holds (place_ st).

Lemma holds_body (st : state) : holds st -> holds (body_ st).
Proof.
  intros H. unfold body.
  destruct (negb (iterate_over_single_page st) && negb (is_csv input_type));
    match goal with
    | |- context [if ?b then _ else _] => destruct b
    end;
    try (apply P_place; exact H);
    destruct (negb (is_code input_type)); exact H.
Qed.

(** Such a property, kept by every placement, holds when the loop ends. *)
Lemma loop_invariant (fuel : nat) :
  forall st st', holds st -> loop_ fuel st = Some st' -> holds st'.
Proof.
  induction fuel as [|fuel IH]; intros st st' H; simpl.
  - destruct (continues input_type st); intros E; [discriminate|].
    now inversion E; subst.
  - destruct (continues input_type st); [|intros E; now inversion E; subst].
    pose proof (holds_body st H) as Hb.
    destruct (is_csv input_type).
    + destruct (unread_rows (body_ st)) as [|r rest].
      * intros E. now inversion E; subst.
      * apply IH. exact Hb.
    + apply IH. unfold read_line.
      destruct (unread (body_ st)); exact Hb.
Qed.

End LoopInvariant.

Lemma count_app (p : ps_item -> bool) (a b : list ps_item) :
  count p (a ++ b) = count p a + count p b.
Proof. unfold count. rewrite filter_app, length_app. lia. Qed.

Lemma count_nonneg (p : ps_item -> bool) (doc : list ps_item) :
  0 <= count p doc.
Proof. unfold count. lia. Qed.

Lemma labels_blocks (doc : list ps_item) :
  labels doc = Z.of_nat (length (blocks doc)).
Proof.
  unfold labels, count. f_equal.
  induction doc as [|i doc IH]; [reflexivity|].
  destruct i; simpl; now rewrite IH.
Qed.

(** Comparing a position with a whole number of labels. *)
Lemma geq_inject_Z (a V : Z) (b : Q) :
  (b == inject_Z V)%Q -> geq a b = (V <=? a).
Proof.
  intros E. unfold geq. rewrite E.
  destruct (Z.leb_spec V a) as [Hle|Hgt].
  - apply Qle_bool_iff. now rewrite <- Zle_Qle.
  - destruct (Qle_bool (inject_Z V) (inject_Z a)) eqn:Hq; [|reflexivity].
    apply Qle_bool_iff in Hq. rewrite <- Zle_Qle in Hq. lia.
Qed.

(** On a sheet of [H] columns of [V] labels the position moves in
    column-major order: down the column, then to the top of the next
    column, then to the first position of a new page. *)
Lemma advance_column_major (spec : Sheet) (H V cx cy : Z) :
  (s_horiz_num_labels spec == inject_Z H)%Q ->
  (s_vert_num_labels spec == inject_Z V)%Q ->
  0 <= cx < H -> 0 <= cy < V ->
  advance spec cx cy
  = if cy + 1 <? V then (cx, cy + 1, false)
    else if cx + 1 <? H then (cx + 1, 0, false)
    else (0, 0, true).
Proof.
  intros EH EV Hx Hy. unfold advance.
  rewrite (geq_inject_Z _ V _ EV).
  destruct (Z.leb_spec V (cy + 1)), (Z.ltb_spec (cy + 1) V); try lia;
    rewrite (geq_inject_Z _ H _ EH).
  - destruct (Z.leb_spec H (cx + 1)), (Z.ltb_spec (cx + 1) H); try lia;
      reflexivity.
  - destruct (Z.leb_spec H cx); try lia. reflexivity.
Qed.

(** What a placement does to the position, the page and the document. *)
Lemma place_walk (spec : Sheet) (input_type : InputType)
  (delimiter : option string) (leading_spaces min_label_lines : Z)
  (st : state) :
  let st' := place spec input_type delimiter leading_spaces min_label_lines st in
  let '(x1, y1, crossed) := advance spec (x st) (y st) in
  x st' = x1 /\ y st' = y1
  /\ page_number st' = (if crossed then page_number st + 1 else page_number st)
  /\ start_new_page st' = crossed
  /\ exists xs ys code,
      output st'
      = (output st
         ++ (if start_new_page st
             then [PageBegin (page_number st) (s_left_margin spec)
                             (s_bottom_margin spec)]
             else [])
         ++ [LabelBlock xs ys code]
         ++ (if crossed then [ShowPage] else []))%list.
Proof.
  unfold place.
  destruct (advance spec (x st) (y st)) as [[x1 y1] crossed].
  destruct (is_code input_type); simpl; repeat split; eauto.
Qed.

Section Walker.

Variable spec : Sheet.
Variables H V F : Z.
Hypothesis valid : valid_sheet spec H V F.

(** The position [make_labels] starts from. *)
Lemma start_position :
  Py.int ((s_first_label spec - 1) / s_vert_num_labels spec) = (F - 1) / V
  /\ Py.int (Py.mod_ (s_first_label spec - 1) (s_vert_num_labels spec))
     = (F - 1) mod V.
Proof.
  destruct valid as (HH & HV & HF & EH & EV & EF).
  assert (Ea : (s_first_label spec - 1 == inject_Z (F - 1))%Q).
  { rewrite EF. unfold Z.sub. rewrite inject_Z_plus. reflexivity. }
  assert (Ed : ((s_first_label spec - 1) / s_vert_num_labels spec
                == (F - 1) # Z.to_pos V)%Q).
  { rewrite Ea, EV, Qmake_Qdiv. now rewrite Z2Pos.id by lia. }
  assert (Efl : Qfloor ((F - 1) # Z.to_pos V) = (F - 1) / V).
  { simpl. now rewrite Z2Pos.id by lia. }
  split.
  - rewrite Ed. unfold Py.int; simpl. rewrite Z2Pos.id by lia.
    apply Z.quot_div_nonneg; lia.
  - unfold Py.mod_. rewrite Ed, Efl, Ea, EV.
    assert (Em : (inject_Z (F - 1) - inject_Z V * inject_Z ((F - 1) / V)
                  == inject_Z ((F - 1) mod V))%Q).
    { rewrite <- inject_Z_mult.
      rewrite (Z.mod_eq (F - 1) V) by lia.
      unfold Z.sub at 3. rewrite inject_Z_plus, inject_Z_opp. reflexivity. }
    rewrite Em. apply int_inject_Z.
Qed.

Lemma walker_inv_start (doc : list ps_item) :
  labels doc = 0 -> pages doc = 0 ->
  count is_showpage doc = 0 -> count is_final doc = 0 ->
  walker_inv H V F ((F - 1) / V) ((F - 1) mod V) 1 true doc.
Proof.
  destruct valid as (HH & HV & HF & EH & EV & EF).
  intros Hl Hp Hs Hf. exists 0. rewrite Hl, Hp. simpl.
  pose proof (Z.div_mod (F - 1) V ltac:(lia)).
  pose proof (Z.mod_pos_bound (F - 1) V ltac:(lia)).
  assert (0 <= (F - 1) / V) by (apply Z.div_pos; lia).
  assert ((F - 1) / V < H).
  { apply Z.div_lt_upper_bound; lia. }
  repeat split; try lia; auto.
Qed.

Variable input_type : InputType.
Variable delimiter : option string.
Variables leading_spaces min_label_lines : Z.

Lemma walker_inv_place (st : state) :
  walker_inv H V F (x st) (y st) (page_number st) (start_new_page st)
             (output st) ->
  let st' :=
    place spec input_type delimiter leading_spaces min_label_lines st in
  walker_inv H V F (x st') (y st') (page_number st') (start_new_page st')
             (output st').
Proof.
  destruct valid as (HH & HV & HF & EH & EV & EF).
  intros (q & Hq & Hk & Hx & Hy & Hpage & Hshow & Hfin & Hstart & Hpages).
  pose proof (place_walk spec input_type delimiter leading_spaces
                         min_label_lines st) as Hw.
  cbv zeta in Hw |- *.
  rewrite (advance_column_major spec H V _ _ EH EV Hx Hy) in Hw.
  pose proof (count_nonneg is_label (output st)) as Hc.
  fold (labels (output st)) in Hc.
  set (st' := place spec input_type delimiter leading_spaces
                    min_label_lines st) in *.
  assert (Hcases :
           exists x1 y1 crossed,
             (if y st + 1 <? V then (x st, y st + 1, false)
              else if x st + 1 <? H then (x st + 1, 0, false)
                   else (0, 0, true)) = (x1, y1, crossed)
             /\ x st' = x1 /\ y st' = y1
             /\ page_number st' = (if crossed then 2 + q else 1 + q)
             /\ start_new_page st' = crossed
             /\ labels (output st') = labels (output st) + 1
             /\ count is_final (output st') = 0
             /\ pages (output st')
                = pages (output st) + (if start_new_page st then 1 else 0)
             /\ count is_showpage (output st')
                = q + (if crossed then 1 else 0)).
  { destruct (if y st + 1 <? V then (x st, y st + 1, false)
              else if x st + 1 <? H then (x st + 1, 0, false)
                   else (0, 0, true)) as [[x1 y1] crossed].
    destruct Hw as (Ex & Ey & Ep & Es & xs & ys & code & Ho).
    exists x1, y1, crossed. rewrite Ho. unfold labels, pages.
    rewrite !count_app, Hfin, Hshow. rewrite Hpage in Ep.
    repeat split; auto;
      destruct (start_new_page st), crossed; cbn -[Z.add Z.mul]; lia. }
  destruct Hcases as (x1 & y1 & crossed & Hif & Ex & Ey & Ep & Es
                      & Hl' & Hf' & Hp' & Hs').
  unfold walker_inv. rewrite Ex, Ey, Ep, Es, Hl', Hf', Hp', Hs', Hpages, Hstart.
  replace (labels (output st) + 1 =? 0) with false
    by (symmetry; apply Z.eqb_neq; lia).
  cbn [orb].
  destruct (Z.ltb_spec (y st + 1) V) as [Hyv|Hyv];
    [|destruct (Z.ltb_spec (x st + 1) H) as [Hxh|Hxh]];
    inversion Hif; subst x1 y1 crossed; clear Hif.
  - exists q.
    replace (y st + 1 =? 0) with false by (symmetry; apply Z.eqb_neq; lia).
    rewrite andb_false_r.
    repeat split; try lia.
    destruct (Z.eqb_spec (labels (output st)) 0) as [E0|E0]; cbn [orb].
    + assert (q = 0) by nia. lia.
    + destruct (Z.eqb_spec (x st) 0), (Z.eqb_spec (y st) 0); cbn; lia.
  - exists q.
    replace (x st + 1 =? 0) with false by (symmetry; apply Z.eqb_neq; lia).
    cbn [andb].
    repeat split; try lia; try nia.
    destruct (Z.eqb_spec (labels (output st)) 0) as [E0|E0]; cbn [orb].
    + assert (q = 0) by nia. lia.
    + destruct (Z.eqb_spec (x st) 0), (Z.eqb_spec (y st) 0); cbn; lia.
  - assert (Ex1 : x st = H - 1) by lia.
    assert (Ey1 : y st = V - 1) by lia.
    assert (Ek : F - 1 + labels (output st) = (q + 1) * (H * V) - 1).
    { rewrite Hk, Ex1, Ey1. ring. }
    exists (q + 1). cbn [Z.eqb andb].
    repeat split; try lia.
    destruct (Z.eqb_spec (labels (output st)) 0) as [E0|E0]; cbn [orb].
    + assert (q = 0) by nia. lia.
    + destruct (Z.eqb_spec (x st) 0), (Z.eqb_spec (y st) 0); cbn [andb]; lia.
Qed.

End Walker.

(* ================================================================= *)
(** ** Pages and page terminators of a run *)

Lemma prologue_counts (spec : Sheet) (b : bool) :
  labels (prologue spec b) = 0 /\ pages (prologue spec b) = 0
  /\ count is_showpage (prologue spec b) = 0
  /\ count is_final (prologue spec b) = 0.
Proof. repeat split; reflexivity. Qed.

(** A run that completes went through the loop from the start position and
    closed the last page unless the position is the origin. *)
Lemma make_labels_completed (fuel : nat) (spec : Sheet) (infile : Infile)
  (input_type : InputType) (delimiter : option string) (leading_spaces : Z)
  (show_bounding_box : bool) (min_label_lines : Z) (st : state)
  (doc : list ps_item) :
  make_labels fuel spec infile input_type delimiter leading_spaces
              show_bounding_box min_label_lines = Some (Completed st doc) ->
  exists st0,
    x st0 = Py.int ((s_first_label spec - 1) / s_vert_num_labels spec)
    /\ y st0 = Py.int (Py.mod_ (s_first_label spec - 1)
                               (s_vert_num_labels spec))
    /\ page_number st0 = 1 /\ start_new_page st0 = true
    /\ output st0 = prologue spec show_bounding_box
    /\ loop spec input_type delimiter leading_spaces min_label_lines fuel st0
       = Some st
    /\ doc = (output st
              ++ (if (x st =? 0) && (y st =? 0) then []
                  else [FinalShowPage]))%list.
Proof.
  unfold make_labels.
  destruct (Qeq_bool (s_vert_num_labels spec) 0); [discriminate|].
  set (start := mkState _ _ _ _ _ _ _ _ _ _ _ _ _ _).
  destruct (is_csv input_type).
  - destruct (csv_rows infile) as [|r rest]; [discriminate|].
    destruct (loop _ _ _ _ _ fuel _) as [st1|] eqn:E; [|discriminate].
    intros H. inversion H; subst. eexists. repeat split; [..|exact E]; reflexivity.
  - destruct (loop _ _ _ _ _ fuel _) as [st1|] eqn:E; [|discriminate].
    intros H. inversion H; subst. eexists. repeat split; [..|exact E];
      unfold read_line; destruct (unread start); reflexivity.
Qed.


(** On a valid sheet the loop keeps [walker_inv]. *)
Lemma loop_walker_inv (spec : Sheet) (H V F : Z) (input_type : InputType)
  (delimiter : option string) (leading_spaces min_label_lines : Z)
  (fuel : nat) (st st' : state) :
  valid_sheet spec H V F ->
  walker_inv H V F (x st) (y st) (page_number st) (start_new_page st)
             (output st) ->
  loop spec input_type delimiter leading_spaces min_label_lines fuel st
  = Some st' ->
  walker_inv H V F (x st') (y st') (page_number st') (start_new_page st')
             (output st').
Proof.
  intros Hv.
  apply (loop_invariant spec input_type delimiter leading_spaces
           min_label_lines (walker_inv H V F)).
  intros s. now apply walker_inv_place.
Qed.

Lemma run_walker_inv (fuel : nat) (spec : Sheet) (H V F : Z) (infile : Infile)
  (input_type : InputType) (delimiter : option string) (leading_spaces : Z)
  (show_bounding_box : bool) (min_label_lines : Z) (st : state)
  (doc : list ps_item) :
  valid_sheet spec H V F ->
  make_labels fuel spec infile input_type delimiter leading_spaces
              show_bounding_box min_label_lines = Some (Completed st doc) ->
  walker_inv H V F (x st) (y st) (page_number st) (start_new_page st)
             (output st).
Proof.
  intros Hv Hr.
  destruct (make_labels_completed _ _ _ _ _ _ _ _ _ _ Hr)
    as (st0 & Ex & Ey & Ep & Es & Eo & Hloop & _).
  apply (loop_walker_inv spec H V F input_type delimiter leading_spaces
           min_label_lines fuel st0 st Hv); auto.
  destruct (start_position spec H V F Hv) as [Hx Hy].
  rewrite Ex, Ey, Ep, Es, Eo, Hx, Hy.
  destruct (prologue_counts spec show_bounding_box) as (A & B & C & D).
  now apply (walker_inv_start spec H V F Hv).
Qed.

Lemma ceil_div_unique (c N q r : Z) :
  0 < N -> c = q * N + r -> 0 <= r < N ->
  ceil_div c N = if r =? 0 then q else q + 1.
Proof.
  intros HN Hc Hr. unfold ceil_div.
  destruct (Z.eqb_spec r 0) as [E|E].
  - subst r. symmetry. apply (Z.div_unique _ _ _ (N - 1)); lia.
  - symmetry. apply (Z.div_unique _ _ _ (r - 1)); lia.
Qed.




(** The scenario of three labels: positions (0,0), (0,1), (0,2) of page 1
    and a single terminator. *)
Example three_labels_scenario :
  let doc := run_document
               (make_labels 10 sheet_5160 three_labels Line (Some "XXXXX")
                            0 false 0) in
  map (fun s => (Py.int (fst s), Py.int (snd s))) (steps doc)
  = [(0, 0); (0, 72); (0, 144)]
  /\ pages doc = 1 /\ terminators doc = 1.
Proof. vm_compute. repeat split. Qed.

(* ================================================================= *)
(** ** Pages of a run that starts at the first label *)

Lemma place_keeps_input (spec : Sheet) (input_type : InputType)
  (delimiter : option string) (leading_spaces min_label_lines : Z)
  (st : state) :
  let st' := place spec input_type delimiter leading_spaces min_label_lines st in
  row st' = row st /\ unread_rows st' = unread_rows st
  /\ line st' = line st /\ unread st' = unread st
  /\ iterate_over_single_page st' = iterate_over_single_page st.
Proof.
  unfold place.
  destruct (advance spec (x st) (y st)) as [[x1 y1] crossed].
  destruct (is_code input_type); simpl; repeat split.
Qed.

Lemma place_labels (spec : Sheet) (input_type : InputType)
  (delimiter : option string) (leading_spaces min_label_lines : Z)
  (st : state) :
  labels (output (place spec input_type delimiter leading_spaces
                        min_label_lines st))
  = labels (output st) + 1.
Proof.
  pose proof (place_walk spec input_type delimiter leading_spaces
                         min_label_lines st) as Hw.
  cbv zeta in Hw. destruct (advance spec (x st) (y st)) as [[x1 y1] crossed].
  destruct Hw as (_ & _ & _ & _ & xs & ys & code & Ho).
  rewrite Ho. unfold labels. rewrite !count_app.
  destruct (start_new_page st), crossed; cbn; lia.
Qed.

Lemma body_csv (spec : Sheet) (delimiter : option string)
  (leading_spaces min_label_lines : Z) (st : state) :
  body spec Csv delimiter leading_spaces min_label_lines st
  = place spec Csv delimiter leading_spaces min_label_lines st.
Proof. unfold body. destruct (iterate_over_single_page st); reflexivity. Qed.

(** In csv input every row is a label: the loop places one label per row
    and needs one iteration for each. *)
Lemma csv_loop (spec : Sheet) (delimiter : option string)
  (leading_spaces min_label_lines : Z) (rest : list (list string)) :
  forall st,
    row st <> [] ->
    unread_rows st = rest ->
    Forall (fun r => r <> []) rest ->
    exists st',
      loop spec Csv delimiter leading_spaces min_label_lines
           (S (length rest)) st = Some st'
      /\ labels (output st')
         = labels (output st) + 1 + Z.of_nat (length rest).
Proof.
  induction rest as [|r rest IH]; intros st Hrow Hun Hall.
  - cbn [length loop]. unfold continues. cbn [is_csv].
    destruct (row st) as [|f fs] eqn:Er; [now elim Hrow|]. cbn [orb].
    rewrite body_csv.
    destruct (place_keeps_input spec Csv delimiter leading_spaces
                                min_label_lines st) as (_ & Eu & _).
    cbv zeta in Eu. rewrite Eu, Hun.
    eexists. split; [reflexivity|]. rewrite place_labels. cbn. lia.
  - cbn [loop]. unfold continues. cbn [is_csv].
    destruct (row st) as [|f fs] eqn:Er; [now elim Hrow|]. cbn [orb].
    rewrite body_csv.
    destruct (place_keeps_input spec Csv delimiter leading_spaces
                                min_label_lines st) as (_ & Eu & _).
    cbv zeta in Eu. rewrite Eu, Hun.
    inversion Hall as [|? ? Hr Hrest]; subst.
    match goal with
    | |- exists st', loop _ _ _ _ _ _ ?s = _ /\ _ =>
        destruct (IH s) as (st' & Hl & Hc); auto
    end.
    exists st'. split; [exact Hl|].
    rewrite Hc. cbn [output with_iterate with_row].
    rewrite place_labels. cbn [length]. lia.
Qed.

(** C1: on a valid sheet, a run that starts at the first label moves the
    position in column-major order at every placement (down the column;
    at the bottom, to the top of the next column; after the last column,
    to the origin of a new page), and a run that placed [count] labels
    began [ceil(count / N)] pages, [N] being the number of labels of a
    sheet.  A csv input of [count] rows is such a run: it completes within
    [count] iterations of the loop. *)
Theorem pages_of_a_run (spec : Sheet) (H V : Z) :
  valid_sheet spec H V 1 ->
  (forall input_type delimiter leading_spaces min_label_lines st,
      0 <= x st < H -> 0 <= y st < V ->
      let st' :=
        place spec input_type delimiter leading_spaces min_label_lines st in
      (x st', y st', page_number st')
      = if y st + 1 <? V then (x st, y st + 1, page_number st)
        else if x st + 1 <? H then (x st + 1, 0, page_number st)
        else (0, 0, page_number st + 1))
  /\ (forall fuel infile input_type delimiter leading_spaces
             show_bounding_box min_label_lines st doc,
         make_labels fuel spec infile input_type delimiter leading_spaces
                     show_bounding_box min_label_lines
         = Some (Completed st doc) ->
         pages doc = ceil_div (labels doc) (H * V)
         /\ x st * V + y st = labels doc mod (H * V)
         /\ page_number st = 1 + labels doc / (H * V))
  /\ (forall content rows delimiter leading_spaces show_bounding_box
             min_label_lines,
         rows <> [] -> Forall (fun r => r <> []) rows ->
         exists st doc,
           make_labels (length rows) spec (mkInfile content rows) Csv
                       delimiter leading_spaces show_bounding_box
                       min_label_lines
           = Some (Completed st doc)
           /\ labels doc = Z.of_nat (length rows)
           /\ pages doc = ceil_div (Z.of_nat (length rows)) (H * V)).
Proof.
  intros Hv.
  assert (Hruns :
           forall fuel infile input_type delimiter leading_spaces
                  show_bounding_box min_label_lines st doc,
             make_labels fuel spec infile input_type delimiter leading_spaces
                         show_bounding_box min_label_lines
             = Some (Completed st doc) ->
             pages doc = ceil_div (labels doc) (H * V)
             /\ x st * V + y st = labels doc mod (H * V)
             /\ page_number st = 1 + labels doc / (H * V)).
  { intros fuel infile input_type delimiter leading_spaces show_bounding_box
           min_label_lines st doc Hr.
    destruct (run_walker_inv _ _ H V 1 _ _ _ _ _ _ _ _ Hv Hr)
      as (q & Hq & Hk & Hx & Hy & Hpage & Hshow & Hfin & Hstart & Hpages).
    destruct (make_labels_completed _ _ _ _ _ _ _ _ _ _ Hr)
      as (_ & _ & _ & _ & _ & _ & _ & Hdoc).
    destruct Hv as (HH & HV & HF & EH & EV & EF).
    assert (El : labels doc = labels (output st)).
    { rewrite Hdoc. unfold labels. rewrite count_app.
      destruct ((x st =? 0) && (y st =? 0)); cbn; lia. }
    assert (Ep : pages doc = pages (output st)).
    { rewrite Hdoc. unfold pages. rewrite count_app.
      destruct ((x st =? 0) && (y st =? 0)); cbn; lia. }
    rewrite El, Ep.
    set (c := labels (output st)) in *.
    set (r := x st * V + y st).
    assert (Hr' : 0 <= r < H * V) by (unfold r; nia).
    assert (Hc : c = q * (H * V) + r) by (unfold r; lia).
    split; [|split].
    - rewrite (ceil_div_unique c (H * V) q r) by (auto; nia).
      rewrite Hpages.
      assert (Hor : (x st =? 0) && (y st =? 0) = (r =? 0)).
      { unfold r.
        destruct (Z.eqb_spec (x st) 0), (Z.eqb_spec (y st) 0); cbn;
          symmetry; try (apply Z.eqb_neq; nia); apply Z.eqb_eq; nia. }
      rewrite Hor.
      destruct (Z.eqb_spec c 0) as [E0|E0]; [|reflexivity].
      assert (Hq0 : q = 0) by nia. assert (Hr0 : r = 0) by nia.
      rewrite Hr0, Hq0. reflexivity.
    - apply (Z.mod_unique_pos c (H * V) q r); lia.
    - rewrite Hpage. f_equal. apply (Z.div_unique_pos c (H * V) q r); lia. }
  split; [|split; [exact Hruns|]].
  - intros input_type delimiter leading_spaces min_label_lines st Hx Hy st'.
    pose proof (place_walk spec input_type delimiter leading_spaces
                           min_label_lines st) as Hw.
    cbv zeta in Hw. fold st' in Hw.
    destruct Hv as (HH & HV & HF & EH & EV & EF).
    rewrite (advance_column_major spec H V _ _ EH EV Hx Hy) in Hw.
    destruct (y st + 1 <? V); [|destruct (x st + 1 <? H)];
      destruct Hw as (Ex & Ey & Ep & _); now rewrite Ex, Ey, Ep.
  - intros content rows delimiter leading_spaces show_bounding_box
           min_label_lines Hne Hall.
    destruct rows as [|r rest]; [now elim Hne|].
    inversion Hall as [|? ? Hr Hrest]; subst.
    assert (Hex : exists st doc,
               make_labels (length (r :: rest)) spec
                 (mkInfile content (r :: rest)) Csv delimiter leading_spaces
                 show_bounding_box min_label_lines = Some (Completed st doc)
               /\ labels doc = Z.of_nat (length (r :: rest))).
    { unfold make_labels.
      destruct (Qeq_bool (s_vert_num_labels spec) 0) eqn:Ez.
      - exfalso. apply Qeq_bool_eq in Ez.
        destruct Hv as (HH & HV & HF & EH & EV & EF).
        rewrite EV in Ez. apply (inject_Z_injective V 0) in Ez. lia.
      - cbn [is_csv csv_rows length].
        match goal with
        | |- context [loop _ _ _ _ _ _ ?s] =>
            destruct (csv_loop spec delimiter leading_spaces min_label_lines
                               rest s) as (st' & Hl & Hc); auto
        end.
        rewrite Hl. eexists. eexists. split; [reflexivity|].
        unfold labels in *. rewrite count_app, Hc.
        change (count is_label (output _)) with 0 at 1.
        destruct ((x st' =? 0) && (y st' =? 0));
          change (count is_label _) with 0; cbn [length]; lia. }
    destruct Hex as (st & doc & Hr' & Hl).
    exists st, doc. split; [exact Hr'|split; [exact Hl|]].
    rewrite <- Hl. now apply (Hruns _ _ _ _ _ _ _ _ _ Hr').
Qed.

(** Five rows on a sheet of two columns of two labels: two pages. *)
Lemma pages_of_a_run_witness :
  exists st doc,
    make_labels (length five_rows) sheet_5168 (mkInfile "" five_rows) Csv
                None 0 false 0
    = Some (Completed st doc)
    /\ labels doc = Z.of_nat (length five_rows)
    /\ pages doc = ceil_div (Z.of_nat (length five_rows)) (2 * 2).
Proof.
  refine (proj2 (proj2 (pages_of_a_run sheet_5168 2 2 _))
                "" five_rows None 0 false 0 _ _).
  - unfold valid_sheet. repeat split; try lia; reflexivity.
  - discriminate.
  - repeat constructor; discriminate.
Defined.

(* ================================================================= *)
(** ** A single label over one page *)

Lemma readlines_nonempty (content : string) :
  Forall (fun l => l <> "") (Py.readlines content).
Proof.
  induction content as [|a t IH]; simpl; [constructor|].
  destruct (Ascii.eqb a Py.nl).
  - constructor; [discriminate|exact IH].
  - destruct (Py.readlines t) as [|l ls].
    + constructor; [discriminate|constructor].
    + inversion IH; subst. constructor; [discriminate|assumption].
Qed.

Lemma readlines_nil (content : string) :
  Py.readlines content = [] -> content = "".
Proof.
  destruct content as [|a t]; [reflexivity|]. simpl.
  destruct (Ascii.eqb a Py.nl); [discriminate|].
  destruct (Py.readlines t); discriminate.
Qed.

Section Replication.

Variable spec : Sheet.
Variables H V F : Z.
Hypothesis valid : valid_sheet spec H V F.
Variables leading_spaces min_label_lines : Z.

Local Abbreviation loop_ :=
  (loop spec Line None leading_spaces min_label_lines).
Local Abbreviation place_ :=
  (place spec Line None leading_spaces min_label_lines).

Lemma guard_not_eof (st : state) :
  line st <> "" -> single_page_guard spec Line None st = false.
Proof.
  intros Hl. unfold single_page_guard. apply String.eqb_neq in Hl.
  now rewrite Hl.
Qed.

Lemma guard_at_eof (st : state) :
  line st = "" ->
  single_page_guard spec Line None st
  = negb (V <=? y st) && negb (H <=? x st)
    && negb (iterate_over_single_page st && (x st =? 0) && (y st =? 0)).
Proof.
  destruct valid as (HH & HV & HF & EH & EV & EF).
  intros Hl. unfold single_page_guard. rewrite Hl.
  now rewrite (geq_inject_Z _ V _ EV), (geq_inject_Z _ H _ EH).
Qed.

Lemma loop_line_step (fuel : nat) (st : state) :
  continues Line st = true ->
  loop_ (S fuel) st
  = let st2 := read_line (body spec Line None leading_spaces
                               min_label_lines st) in
    loop_ fuel (with_iterate (single_page_guard spec Line None st2) st2).
Proof. intros Hc. cbn [loop]. now rewrite Hc. Qed.

Lemma body_line_text (st : state) :
  iterate_over_single_page st = false ->
  body spec Line None leading_spaces min_label_lines st
  = with_label_lines (label_lines st ++ [escape (Py.rstrip (line st))])
      (with_line (Py.rstrip (line st)) (unread st) st).
Proof. intros Hi. unfold body. rewrite Hi. cbn. now rewrite Hi. Qed.

Lemma body_line_replicate (st : state) :
  iterate_over_single_page st = true ->
  body spec Line None leading_spaces min_label_lines st = place_ st.
Proof. intros Hi. unfold body. rewrite Hi. cbn. now rewrite Hi. Qed.

(** Reading: without a delimiter every line of the file joins the one
    label, and nothing is placed before the end of the file. *)
Lemma read_all_lines (lines : list string) :
  forall st fuel,
    line st <> "" ->
    iterate_over_single_page st = false ->
    unread st = lines ->
    Forall (fun l => l <> "") lines ->
    0 <= x st < H -> 0 <= y st < V ->
    exists st1,
      loop_ (S (length lines) + fuel) st = loop_ fuel st1
      /\ label_lines st1
         = (label_lines st
            ++ map (fun l => escape (Py.rstrip l)) (line st :: lines))%list
      /\ code_accum st1 = code_accum st
      /\ x st1 = x st /\ y st1 = y st
      /\ page_number st1 = page_number st
      /\ start_new_page st1 = start_new_page st
      /\ output st1 = output st
      /\ line st1 = "" /\ unread st1 = []
      /\ iterate_over_single_page st1 = true.
Proof.
  induction lines as [|l rest IH]; intros st fuel Hline Hit Hun Hall Hx Hy.
  - cbn [length Nat.add]. rewrite loop_line_step.
    2:{ unfold continues. apply String.eqb_neq in Hline.
        cbn [is_csv]. now rewrite Hline. }
    rewrite (body_line_text st Hit). cbv zeta. unfold read_line.
    cbn [unread with_label_lines with_line]. rewrite Hun.
    eexists. split; [reflexivity|].
    cbn -[escape Py.rstrip single_page_guard].
    repeat split.
    rewrite guard_at_eof by reflexivity.
    cbn [x y with_line with_label_lines iterate_over_single_page].
    destruct (Z.leb_spec V (y st)), (Z.leb_spec H (x st)); try lia.
    now rewrite Hit.
  - cbn [length Nat.add]. rewrite loop_line_step.
    2:{ unfold continues. apply String.eqb_neq in Hline.
        cbn [is_csv]. now rewrite Hline. }
    rewrite (body_line_text st Hit). cbv zeta. unfold read_line.
    cbn [unread with_label_lines with_line]. rewrite Hun.
    inversion Hall as [|? ? Hl Hrest]; subst.
    rewrite guard_not_eof by exact Hl.
    change (S (length rest + fuel)) with (S (length rest) + fuel)%nat.
    match goal with
    | |- context [loop _ _ _ _ _ (S (length rest) + fuel) ?s] =>
        destruct (IH s fuel) as (st1 & Hloop & Hll & Hca & Ex & Ey & Ep & Es
                                 & Eo & El & Eu & Ei)
    end; auto.
    exists st1. split; [exact Hloop|].
    rewrite Hll, Hca, Ex, Ey, Ep, Es, Eo, El, Eu, Ei.
    cbn -[escape Py.rstrip single_page_guard]. rewrite <- app_assoc.
    repeat split; reflexivity.
Qed.

Lemma left_pad_none (ll : list string) :
  leading_spaces <= 0 -> left_pad leading_spaces ll = ll.
Proof.
  intros Hl. unfold left_pad, Py.spaces.
  replace (Z.to_nat leading_spaces) with 0%nat by lia. cbn.
  induction ll as [|l ll IH]; cbn; [reflexivity | now rewrite IH].
Qed.

Lemma pad_lines_idempotent (ll : list string) :
  pad_lines min_label_lines (pad_lines min_label_lines ll)
  = pad_lines min_label_lines ll.
Proof.
  unfold pad_lines at 1. rewrite length_pad_lines.
  destruct (Z.ltb_spec (Z.max (Z.of_nat (length ll)) min_label_lines)
                       min_label_lines); [lia|reflexivity].
Qed.

Lemma place_line_fields (st : state) :
  label_lines (place_ st)
  = left_pad leading_spaces (pad_lines min_label_lines (label_lines st))
  /\ code_accum (place_ st) = "".
Proof.
  unfold place. destruct (advance spec (x st) (y st)) as [[x1 y1] c].
  split; reflexivity.
Qed.

(** Replication: once the file is read, the label is placed at every
    position that is left on the page, and the loop stops when the position
    is back at the origin. *)
Lemma replicate_loop (r : nat) :
  leading_spaces <= 0 ->
  forall st,
    iterate_over_single_page st = true ->
    line st = "" -> unread st = [] -> code_accum st = "" ->
    0 <= x st < H -> 0 <= y st < V ->
    Z.of_nat r = H * V - (x st * V + y st) ->
    exists st',
      loop_ r st = Some st'
      /\ x st' = 0 /\ y st' = 0
      /\ blocks (output st')
         = (blocks (output st)
            ++ repeat (label_code spec
                         (pad_lines min_label_lines (label_lines st))) r)%list
      /\ pages (output st')
         = pages (output st) + (if start_new_page st then 1 else 0)
      /\ count is_showpage (output st') = count is_showpage (output st) + 1
      /\ count is_final (output st') = count is_final (output st)
      /\ page_number st' = page_number st + 1.
Proof.
  intros Hls.
  destruct valid as (HH & HV & HF & EH & EV & EF).
  induction r as [|r IH]; intros st Hit Hline Hun Hca Hx Hy Hr; [nia|].
  rewrite loop_line_step by (unfold continues; now rewrite Hit, orb_true_r).
  rewrite (body_line_replicate st Hit). cbv zeta.
  destruct (place_keeps_input spec Line None leading_spaces min_label_lines st)
    as (_ & _ & El & Eu & Ei). cbv zeta in El, Eu, Ei.
  destruct (place_line_fields st) as [Ell Eca].
  pose proof (place_blocks spec Line None leading_spaces min_label_lines st
                           eq_refl) as Hb.
  cbn [is_csv] in Hb. rewrite Hca, (left_pad_none _ Hls) in Hb.
  cbn [append] in Hb.
  rewrite (left_pad_none _ Hls) in Ell.
  pose proof (place_walk spec Line None leading_spaces min_label_lines st)
    as Hw. cbv zeta in Hw.
  rewrite (advance_column_major spec H V _ _ EH EV Hx Hy) in Hw.
  unfold read_line. rewrite Eu, Hun.
  set (st2 := with_line "" [] (place_ st)).
  assert (E2 : line st2 = "") by reflexivity.
  rewrite (guard_at_eof st2 E2).
  change (x st2) with (x (place_ st)). change (y st2) with (y (place_ st)).
  change (iterate_over_single_page st2)
    with (iterate_over_single_page (place_ st)).
  rewrite Ei, Hit. cbn [andb].
  assert (Hcount :
           forall (x1 y1 : Z) (crossed : bool),
             (x (place_ st) = x1 /\ y (place_ st) = y1
              /\ page_number (place_ st)
                 = (if crossed then page_number st + 1 else page_number st)
              /\ start_new_page (place_ st) = crossed
              /\ exists xs ys code,
                  output (place_ st)
                  = (output st
                     ++ (if start_new_page st
                         then [PageBegin (page_number st) (s_left_margin spec)
                                         (s_bottom_margin spec)]
                         else [])
                     ++ [LabelBlock xs ys code]
                     ++ (if crossed then [ShowPage] else []))%list) ->
             pages (output (place_ st))
             = pages (output st) + (if start_new_page st then 1 else 0)
             /\ count is_showpage (output (place_ st))
                = count is_showpage (output st) + (if crossed then 1 else 0)
             /\ count is_final (output (place_ st))
                = count is_final (output st)).
  { intros x1 y1 crossed (_ & _ & _ & _ & xs & ys & code & Ho).
    rewrite Ho. unfold pages. rewrite !count_app.
    destruct (start_new_page st), crossed; cbn -[Z.add]; lia. }
  destruct (Z.ltb_spec (y st + 1) V) as [Hyv|Hyv];
    [|destruct (Z.ltb_spec (x st + 1) H) as [Hxh|Hxh]].
  - destruct (Hcount (x st) (y st + 1) false Hw) as (Hp & Hs & Hf).
    destruct Hw as (Ex & Ey & Ep & Es & _).
    rewrite Ex, Ey.
    replace (V <=? y st + 1) with false by (symmetry; apply Z.leb_gt; lia).
    replace (H <=? x st) with false by (symmetry; apply Z.leb_gt; lia).
    replace (y st + 1 =? 0) with false by (symmetry; apply Z.eqb_neq; lia).
    rewrite andb_false_r. cbn [negb andb].
    destruct (IH (with_iterate true st2))
      as (st' & Hl & Ex' & Ey' & Hb' & Hp' & Hs' & Hf' & Hn'); auto.
    + cbn [x with_iterate]. change (x st2) with (x (place_ st)). lia.
    + cbn [y with_iterate]. change (y st2) with (y (place_ st)). lia.
    + cbn [x y with_iterate].
      change (x st2) with (x (place_ st)). change (y st2) with (y (place_ st)).
      rewrite Ex, Ey. lia.
    + exists st'. split; [exact Hl|].
      cbn [output label_lines start_new_page page_number with_iterate] in *.
      change (output st2) with (output (place_ st)) in *.
      change (label_lines st2) with (label_lines (place_ st)) in *.
      change (start_new_page st2) with (start_new_page (place_ st)) in *.
      change (page_number st2) with (page_number (place_ st)) in *.
      rewrite Hb', Hp', Hs', Hf', Hn', Hb, Hp, Hs, Hf, Ep, Es, Ell.
      rewrite pad_lines_idempotent, <- app_assoc.
      repeat split; auto; cbn [repeat app]; lia.
  - destruct (Hcount (x st + 1) 0 false Hw) as (Hp & Hs & Hf).
    destruct Hw as (Ex & Ey & Ep & Es & _).
    rewrite Ex, Ey.
    replace (V <=? 0) with false by (symmetry; apply Z.leb_gt; lia).
    replace (H <=? x st + 1) with false by (symmetry; apply Z.leb_gt; lia).
    replace (x st + 1 =? 0) with false by (symmetry; apply Z.eqb_neq; lia).
    cbn [negb andb].
    destruct (IH (with_iterate true st2))
      as (st' & Hl & Ex' & Ey' & Hb' & Hp' & Hs' & Hf' & Hn'); auto.
    + cbn [x with_iterate]. change (x st2) with (x (place_ st)). lia.
    + cbn [y with_iterate]. change (y st2) with (y (place_ st)). lia.
    + cbn [x y with_iterate].
      change (x st2) with (x (place_ st)). change (y st2) with (y (place_ st)).
      rewrite Ex, Ey. nia.
    + exists st'. split; [exact Hl|].
      cbn [output label_lines start_new_page page_number with_iterate] in *.
      change (output st2) with (output (place_ st)) in *.
      change (label_lines st2) with (label_lines (place_ st)) in *.
      change (start_new_page st2) with (start_new_page (place_ st)) in *.
      change (page_number st2) with (page_number (place_ st)) in *.
      rewrite Hb', Hp', Hs', Hf', Hn', Hb, Hp, Hs, Hf, Ep, Es, Ell.
      rewrite pad_lines_idempotent, <- app_assoc.
      repeat split; auto; cbn [repeat app]; lia.
  - destruct (Hcount 0 0 true Hw) as (Hp & Hs & Hf).
    destruct Hw as (Ex & Ey & Ep & Es & _).
    rewrite Ex, Ey. cbn [Z.eqb andb negb].
    replace (V <=? 0) with false by (symmetry; apply Z.leb_gt; lia).
    replace (H <=? 0) with false by (symmetry; apply Z.leb_gt; lia).
    cbn [negb andb].
    assert (Hr0 : r = 0%nat) by nia. subst r.
    exists (with_iterate false st2). split.
    + cbn [loop]. unfold continues. cbn [is_csv]. reflexivity.
    + cbn [output x y page_number with_iterate].
      change (output st2) with (output (place_ st)).
      change (x st2) with (x (place_ st)).
      change (y st2) with (y (place_ st)).
      change (page_number st2) with (page_number (place_ st)).
      rewrite Hb, Hp, Hs, Hf, Ep, Ex, Ey.
      repeat split; auto.
Qed.

End Replication.

(** More fuel does not change the result of the loop. *)
Lemma loop_fuel_mono (spec : Sheet) (input_type : InputType)
  (delimiter : option string) (leading_spaces min_label_lines : Z)
  (fuel : nat) :
  forall st st' k,
    loop spec input_type delimiter leading_spaces min_label_lines fuel st
    = Some st' ->
    loop spec input_type delimiter leading_spaces min_label_lines (fuel + k) st
    = Some st'.
Proof.
  induction fuel as [|fuel IH]; intros st st' k.
  - cbn [loop Nat.add]. destruct (continues input_type st) eqn:Hc;
      [discriminate|].
    intros E. destruct k; cbn [loop]; now rewrite Hc.
  - cbn [loop Nat.add]. destruct (continues input_type st); [|auto].
    destruct (is_csv input_type).
    + destruct (unread_rows _) as [|r rest]; [auto|]. apply IH.
    + apply IH.
Qed.

(** X19: line input without delimiter, the label lines not left-padded: the one
    label of the file is written, always with the same code, at every
    position from the first label to the end of the page; the run then
    stops, having begun and ended exactly one page. *)
Lemma replication_fills_one_page (spec : Sheet) (H V F : Z) (infile : Infile)
  (leading_spaces : Z) (show_bounding_box : bool) (min_label_lines : Z)
  (fuel : nat) :
  valid_sheet spec H V F ->
  leading_spaces <= 0 ->
  text infile <> "" ->
  (length (Py.readlines (text infile)) + Z.to_nat (H * V) <= fuel)%nat ->
  exists st doc,
    make_labels fuel spec infile Line None leading_spaces show_bounding_box
                min_label_lines = Some (Completed st doc)
    /\ pages doc = 1 /\ terminators doc = 1
    /\ x st = 0 /\ y st = 0 /\ page_number st = 2
    /\ blocks doc
       = repeat (label_code spec
                   (pad_lines min_label_lines
                      (map (fun l => escape (Py.rstrip l))
                           (Py.readlines (text infile)))))
                (Z.to_nat (H * V - F + 1)).
Proof.
  intros Hv Hls Htext Hfuel.
  pose proof Hv as (HH & HV & HF & EH & EV & EF).
  destruct (start_position spec H V F Hv) as [Ex0 Ey0].
  assert (Hx0 : 0 <= (F - 1) / V < H).
  { split; [apply Z.div_pos; lia|apply Z.div_lt_upper_bound; lia]. }
  pose proof (Z.mod_pos_bound (F - 1) V ltac:(lia)) as Hy0.
  pose proof (Z.div_mod (F - 1) V ltac:(lia)) as Hdm.
  unfold make_labels.
  destruct (Qeq_bool (s_vert_num_labels spec) 0) eqn:Ez.
  { exfalso. apply Qeq_bool_eq in Ez. rewrite EV in Ez.
    apply (inject_Z_injective V 0) in Ez. lia. }
  cbn [is_csv text]. rewrite Ex0, Ey0.
  pose proof (readlines_nonempty (text infile)) as Hne.
  destruct (Py.readlines (text infile)) as [|l0 rest] eqn:El.
  { apply readlines_nil in El. contradiction. }
  inversion Hne as [|? ? Hl0 Hrest]; subst.
  unfold read_line. cbn [unread].
  set (st0 := with_line l0 rest _).
  set (r := Z.to_nat (H * V - F + 1)).
  assert (Hr : (r <= Z.to_nat (H * V))%nat) by (unfold r; lia).
  cbn [length] in Hfuel.
  replace fuel with (S (length rest) + (r + (fuel - S (length rest) - r)))%nat
    by lia.
  destruct (read_all_lines spec H V F Hv leading_spaces min_label_lines rest
              st0 (r + (fuel - S (length rest) - r))%nat)
    as (st1 & Hloop & Hll & Hca & Ex & Ey & Ep & Es & Eo & Eline & Eu & Ei);
    auto.
  rewrite Hloop.
  destruct (replicate_loop spec H V F Hv leading_spaces min_label_lines r Hls
              st1)
    as (st' & Hl & Ex' & Ey' & Hb & Hp & Hs & Hf & Hn); auto.
  - rewrite Ex. exact Hx0.
  - rewrite Ey. exact Hy0.
  - rewrite Ex, Ey. unfold r. cbn [x y st0 with_line]. nia.
  - rewrite (loop_fuel_mono _ _ _ _ _ _ _ _ _ Hl).
    exists st'. eexists. split; [reflexivity|].
    rewrite Ex', Ey'. cbn [Z.eqb andb]. rewrite app_nil_r.
    unfold terminators. rewrite Hp, Hs, Hf, Hb, Hn, Eo, Es, Ep, Hll.
    repeat split; reflexivity.
Qed.

(** The scenario of a single address on a sheet of 80 labels: one page,
    the same label at all 80 positions, and the run stops there. *)
Example eighty_labels_scenario :
  exists st doc code,
    make_labels 100 sheet_5167 address_block Line None 0 false 0
    = Some (Completed st doc)
    /\ pages doc = 1 /\ terminators doc = 1
    /\ x st = 0 /\ y st = 0 /\ page_number st = 2
    /\ blocks doc = repeat code 80.
Proof.
  destruct (replication_fills_one_page sheet_5167 4 20 1 address_block 0
              false 0 100)
    as (st & doc & Hr & Hp & Ht & Hx & Hy & Hn & Hb).
  - unfold valid_sheet. repeat split; try lia; reflexivity.
  - lia.
  - discriminate.
  - vm_compute. lia.
  - exists st, doc. eexists. repeat split; eauto.
Defined.

(* ================================================================= *)
(** ** Termination of the loop *)

Section Termination.

Variable spec : Sheet.
Variables H V F : Z.
Hypothesis valid : valid_sheet spec H V F.
Variable input_type : InputType.
Variable delimiter : option string.
Variables leading_spaces min_label_lines : Z.

Local Abbreviation loop_ :=
  (loop spec input_type delimiter leading_spaces min_label_lines).
Local Abbreviation place_ :=
  (place spec input_type delimiter leading_spaces min_label_lines).
Local Abbreviation body_ :=
  (body spec input_type delimiter leading_spaces min_label_lines).
Local Abbreviation guard_ := (single_page_guard spec input_type delimiter).

Lemma loop_step (fuel : nat) (st : state) :
  continues input_type st = true ->
  loop_ (S fuel) st
  = if is_csv input_type then
      match unread_rows (body_ st) with
      | [] => Some (body_ st)
      | r :: rest =>
          loop_ fuel (with_iterate (guard_ (with_row r rest (body_ st)))
                                   (with_row r rest (body_ st)))
      end
    else
      loop_ fuel (with_iterate (guard_ (read_line (body_ st)))
                               (read_line (body_ st))).
Proof. intros Hc. cbn [loop]. now rewrite Hc. Qed.

(** A placement keeps the position on the sheet, and moves it by one
    position unless it comes back to the origin. *)
Lemma place_in_range (st : state) :
  in_range H V st ->
  in_range H V (place_ st)
  /\ (x (place_ st) = 0 /\ y (place_ st) = 0
      \/ x (place_ st) * V + y (place_ st) = x st * V + y st + 1).
Proof.
  destruct valid as (HH & HV & HF & EH & EV & EF).
  intros [Hx Hy].
  pose proof (place_walk spec input_type delimiter leading_spaces
                         min_label_lines st) as Hw.
  cbv zeta in Hw.
  rewrite (advance_column_major spec H V _ _ EH EV Hx Hy) in Hw.
  unfold in_range.
  destruct (Z.ltb_spec (y st + 1) V); [|destruct (Z.ltb_spec (x st + 1) H)];
    destruct Hw as (Ex & Ey & _); rewrite Ex, Ey;
    (split; [lia|]); [right; lia | right; nia | left; lia].
Qed.

(** The loop body leaves the unread input alone and keeps the position on
    the sheet. *)
Lemma body_keeps (st : state) :
  in_range H V st ->
  in_range H V (body_ st)
  /\ unread (body_ st) = unread st
  /\ unread_rows (body_ st) = unread_rows st
  /\ iterate_over_single_page (body_ st) = iterate_over_single_page st.
Proof.
  intros Hr. unfold body.
  set (st1 := if negb (iterate_over_single_page st) && negb (is_csv input_type)
              then with_line (Py.rstrip (line st)) (unread st) st else st).
  assert (H1 : in_range H V st1 /\ unread st1 = unread st
               /\ unread_rows st1 = unread_rows st
               /\ iterate_over_single_page st1 = iterate_over_single_page st).
  { unfold st1.
    destruct (negb (iterate_over_single_page st) && negb (is_csv input_type));
      repeat split; auto; apply Hr. }
  destruct H1 as (Hr1 & Eu & Er & Ei).
  destruct (is_csv input_type || is_delimiter delimiter (line st1)
            || iterate_over_single_page st1).
  - destruct (place_in_range st1 Hr1) as [Hr2 _].
    destruct (place_keeps_input spec input_type delimiter leading_spaces
                                min_label_lines st1) as (_ & Er' & _ & Eu' & Ei').
    cbv zeta in Er', Eu', Ei'.
    rewrite Er', Eu', Ei'. auto.
  - destruct (negb (is_code input_type)); repeat split; auto; apply Hr1.
Qed.

(** In replication the loop body is a placement. *)
Lemma body_replicate (st : state) :
  iterate_over_single_page st = true -> body_ st = place_ st.
Proof.
  intros Hi. unfold body. rewrite Hi. cbn [negb andb].
  rewrite Hi. now rewrite orb_true_r.
Qed.

Lemma guard_needs_eof (st : state) :
  line st <> "" -> guard_ st = false.
Proof.
  intros Hl. unfold single_page_guard. apply String.eqb_neq in Hl.
  rewrite Hl. now rewrite andb_false_r.
Qed.

Lemma guard_needs_text (st : state) :
  is_csv input_type = true -> guard_ st = false.
Proof. intros Hc. unfold single_page_guard. now rewrite Hc. Qed.

Lemma guard_stops_at_origin (st : state) :
  iterate_over_single_page st = true -> x st = 0 -> y st = 0 ->
  guard_ st = false.
Proof.
  intros Hi Ex Ey. unfold single_page_guard. rewrite Hi, Ex, Ey.
  cbn. now rewrite !andb_false_r.
Qed.

Lemma input_inv_after_read (b : bool) (l : string) (rest : list string)
  (st : state) :
  is_csv input_type = false ->
  Forall (fun l => l <> "") rest ->
  (l = "" -> rest = []) ->
  (b = true -> l = "") ->
  input_inv input_type (with_iterate b (with_line l rest st)).
Proof.
  intros Hc Hall Heof Hb. unfold input_inv.
  cbn [unread line with_iterate with_line iterate_over_single_page].
  auto.
Qed.

(** The loop ends within [iterations_left] iterations. *)
Lemma loop_terminates (fuel : nat) :
  forall st,
    in_range H V st -> input_inv input_type st ->
    (iterations_left H V input_type st <= fuel)%nat ->
    exists st', loop_ fuel st = Some st'.
Proof.
  destruct valid as (HH & HV & HF & EH & EV & EF).
  induction fuel as [|fuel IH]; intros st Hr (Htext & Hit) Hm.
  - (* no iteration is left: the loop condition is false *)
    cbn [loop]. destruct (continues input_type st) eqn:Hc; [|eauto].
    exfalso. unfold continues in Hc. unfold iterations_left in Hm.
    destruct (is_csv input_type) eqn:Hcsv.
    + destruct (iterate_over_single_page st) eqn:Hi.
      * destruct (Hit eq_refl) as [_ Habs]. discriminate.
      * destruct (row st); [discriminate|lia].
    + destruct (iterate_over_single_page st) eqn:Hi.
      * destruct Hr as [Hx Hy]. nia.
      * destruct (String.eqb (line st) ""); [discriminate|lia].
  - destruct (continues input_type st) eqn:Hc;
      [|cbn [loop]; rewrite Hc; eauto].
    rewrite (loop_step fuel st Hc).
    destruct (body_keeps st Hr) as (Hrb & Eu & Er & Ei).
    unfold continues in Hc. unfold iterations_left in Hm.
    destruct (is_csv input_type) eqn:Hcsv.
    + (* csv: the next row, if any *)
      assert (Hi : iterate_over_single_page st = false).
      { destruct (iterate_over_single_page st) eqn:Hi; [|reflexivity].
        destruct (Hit eq_refl) as [_ Habs]. discriminate. }
      rewrite Hi, orb_false_r in Hc.
      rewrite Er. destruct (unread_rows st) as [|r rest] eqn:Hrows; [eauto|].
      rewrite guard_needs_text by exact Hcsv.
      apply IH.
      * exact Hrb.
      * split; [intros Habs; rewrite Hcsv in Habs; discriminate|].
        cbn [with_iterate iterate_over_single_page]. discriminate.
      * unfold iterations_left. rewrite Hcsv.
        cbn [row unread_rows with_iterate with_row].
        destruct (row st); [discriminate|]. destruct r; cbn [length] in *; lia.
    + destruct (Htext eq_refl) as [Hall Heof].
      destruct (iterate_over_single_page st) eqn:Hi.
      * (* replication: one more position of the page *)
        destruct (Hit eq_refl) as [Hline _].
        pose proof (Heof Hline) as Hun.
        rewrite (body_replicate st Hi) in *.
        destruct (place_in_range st Hr) as [_ Hpos].
        unfold read_line. rewrite Eu, Hun.
        set (st2 := with_line "" [] (place_ st)).
        destruct (guard_ st2) eqn:Hg.
        -- apply IH.
           ++ exact Hrb.
           ++ apply input_inv_after_read; auto.
           ++ unfold iterations_left. rewrite Hcsv.
              cbn [iterate_over_single_page with_iterate x y].
              change (x st2) with (x (place_ st)).
              change (y st2) with (y (place_ st)).
              destruct Hpos as [[Ex Ey]|Hpos]; [|lia].
              rewrite guard_stops_at_origin in Hg; [discriminate|..]; auto.
        -- apply IH.
           ++ exact Hrb.
           ++ apply input_inv_after_read; auto; discriminate.
           ++ unfold iterations_left. rewrite Hcsv. cbn. lia.
      * (* reading: the next line, or the end of the file *)
        cbn [orb] in Hc. rewrite orb_false_r in Hc.
        apply negb_true_iff in Hc. rewrite Hc in Hm.
        unfold read_line. rewrite Eu.
        destruct (unread st) as [|l rest] eqn:Hlines.
        -- set (st2 := with_line "" [] (body_ st)).
           destruct (guard_ st2) eqn:Hg; apply IH; try exact Hrb.
           ++ apply input_inv_after_read; auto.
           ++ unfold iterations_left. rewrite Hcsv.
              cbn [iterate_over_single_page with_iterate x y].
              destruct Hrb as [Hx Hy].
              change (x st2) with (x (body_ st)).
              change (y st2) with (y (body_ st)).
              cbn [length] in Hm. nia.
           ++ apply input_inv_after_read; auto; discriminate.
           ++ unfold iterations_left. rewrite Hcsv. cbn. lia.
        -- inversion Hall as [|? ? Hl Hrest]; subst.
           rewrite guard_needs_eof by exact Hl.
           apply IH; try exact Hrb.
           ++ apply input_inv_after_read; auto; try discriminate.
              intros E. now elim Hl.
           ++ unfold iterations_left. rewrite Hcsv.
              cbn [iterate_over_single_page with_iterate line unread
                   with_line].
              apply String.eqb_neq in Hl. rewrite Hl.
              cbn [length] in Hm. lia.
Qed.

End Termination.

(** X18: on a valid sheet [make_labels] returns for every input: one iteration
    per line or row and one per position of a page are enough.  It completes,
    unless the input is a csv file without any row, where the first read of
    a row raises StopIteration. *)
Lemma make_labels_returns (fuel : nat) (spec : Sheet) (H V F : Z)
  (infile : Infile) (input_type : InputType) (delimiter : option string)
  (leading_spaces : Z) (show_bounding_box : bool) (min_label_lines : Z) :
  valid_sheet spec H V F ->
  (length (Py.readlines (text infile)) + length (csv_rows infile)
   + Z.to_nat (H * V) <= fuel)%nat ->
  (exists st doc,
      make_labels fuel spec infile input_type delimiter leading_spaces
                  show_bounding_box min_label_lines
      = Some (Completed st doc))
  \/ (input_type = Csv /\ csv_rows infile = []
      /\ make_labels fuel spec infile input_type delimiter leading_spaces
                     show_bounding_box min_label_lines
         = Some (Died StopIteration (prologue spec show_bounding_box))).
Proof.
  intros Hv Hfuel.
  pose proof Hv as (HH & HV & HF & EH & EV & EF).
  destruct (start_position spec H V F Hv) as [Ex0 Ey0].
  assert (Hx0 : 0 <= (F - 1) / V < H).
  { split; [apply Z.div_pos; lia|apply Z.div_lt_upper_bound; lia]. }
  pose proof (Z.mod_pos_bound (F - 1) V ltac:(lia)) as Hy0.
  unfold make_labels.
  destruct (Qeq_bool (s_vert_num_labels spec) 0) eqn:Ez.
  { exfalso. apply Qeq_bool_eq in Ez. rewrite EV in Ez.
    apply (inject_Z_injective V 0) in Ez. lia. }
  rewrite Ex0, Ey0.
  set (start := mkState _ _ _ _ _ _ _ _ _ _ _ _ _ _).
  assert (Hloop : forall st,
             in_range H V st -> input_inv input_type st ->
             (iterations_left H V input_type st <= fuel)%nat ->
             exists st' doc,
               match loop spec input_type delimiter leading_spaces
                          min_label_lines fuel st with
               | Some st =>
                   Some (Completed st
                           (output st
                            ++ (if (x st =? 0) && (y st =? 0) then []
                                else [FinalShowPage])))
               | None => None
               end = Some (Completed st' doc)).
  { intros st Hr Hi Hm.
    destruct (loop_terminates spec H V F Hv input_type delimiter
                leading_spaces min_label_lines fuel st Hr Hi Hm) as [st' Hl].
    rewrite Hl. eauto. }
  destruct input_type; cbn [is_csv].
  - (* line input *)
    left. apply Hloop.
    + unfold read_line. destruct (unread start); split; assumption.
    + unfold read_line, start. cbn [unread].
      pose proof (readlines_nonempty (text infile)) as Hne.
      destruct (Py.readlines (text infile)) as [|l rest].
      * split; cbn; auto; discriminate.
      * inversion Hne; subst. split; cbn; [|discriminate].
        intros _. split; [assumption|]. intros E. now subst.
    + unfold read_line, start, iterations_left. cbn [unread is_csv].
      pose proof (readlines_nonempty (text infile)) as Hne.
      destruct (Py.readlines (text infile)) as [|l rest]; cbn; [lia|].
      inversion Hne as [|? ? Hl Hrest]; subst.
      apply String.eqb_neq in Hl. rewrite Hl. cbn [length] in Hfuel. lia.
  - (* code input *)
    left. apply Hloop.
    + unfold read_line. destruct (unread start); split; assumption.
    + unfold read_line, start. cbn [unread].
      pose proof (readlines_nonempty (text infile)) as Hne.
      destruct (Py.readlines (text infile)) as [|l rest].
      * split; cbn; auto; discriminate.
      * inversion Hne; subst. split; cbn; [|discriminate].
        intros _. split; [assumption|]. intros E. now subst.
    + unfold read_line, start, iterations_left. cbn [unread is_csv].
      pose proof (readlines_nonempty (text infile)) as Hne.
      destruct (Py.readlines (text infile)) as [|l rest]; cbn; [lia|].
      inversion Hne as [|? ? Hl Hrest]; subst.
      apply String.eqb_neq in Hl. rewrite Hl. cbn [length] in Hfuel. lia.
  - (* csv input *)
    destruct (csv_rows infile) as [|r rest] eqn:Hrows.
    + right. auto.
    + left. apply Hloop.
      * split; assumption.
      * split; cbn; discriminate.
      * unfold iterations_left. cbn [is_csv row unread_rows with_row].
        cbn [length] in Hfuel. destruct r; lia.
Qed.

(* ================================================================= *)
(** ** Layers of sheet specifications *)

Lemma if_none_assoc (a b c : option Q) :
  if_none (if_none a b) c = if_none a (if_none b c).
Proof. now destruct a. Qed.

(** X1: [absorb] composes.  Absorbing a second and then a third
    specification is absorbing the merge of the second and the third, and a
    specification just constructed takes every attribute of the one it
    absorbs.  Hence the order of [main], the command line absorbing the
    parameter file and then the built-in type, gives the command line
    precedence over the file, and the file over the type. *)
Theorem absorb_composes (a b c : SheetSpec) :
  absorb (absorb a b) c = absorb a (absorb b c)
  /\ absorb SheetSpec_init b = b
  /\ (forall f, get f (absorb (absorb a b) c) = layered f a b c).
Proof.
  split; [|split].
  - unfold absorb; cbn [left_margin bottom_margin label_width label_height
      horiz_space vert_space horiz_num_labels vert_num_labels first_label
      font_name font_size].
    rewrite !if_none_assoc.
    f_equal.
    + destruct (Qeq_bool (first_label a) default_first_label) eqn:E;
        [reflexivity | now rewrite E].
    + destruct (String.eqb (font_name a) default_font_name) eqn:E;
        [reflexivity | now rewrite E].
    + destruct (Qeq_bool (font_size a) default_font_size) eqn:E;
        [reflexivity | now rewrite E].
  - destruct b. reflexivity.
  - intros f. unfold layered, unset, get.
    destruct f; cbn [absorb left_margin bottom_margin label_width
      label_height horiz_space vert_space horiz_num_labels vert_num_labels
      first_label font_name font_size];
      try (match goal with
           | |- Dim (if_none (if_none ?p ?q) _) = _ =>
               destruct p; [reflexivity|]; destruct q; reflexivity
           end).
    + destruct (Qeq_bool (first_label a) default_first_label) eqn:E;
        [|now rewrite E].
      destruct (Qeq_bool (first_label b) default_first_label); reflexivity.
    + destruct (String.eqb (font_name a) default_font_name) eqn:E;
        [|now rewrite E].
      destruct (String.eqb (font_name b) default_font_name); reflexivity.
    + destruct (Qeq_bool (font_size a) default_font_size) eqn:E;
        [|now rewrite E].
      destruct (Qeq_bool (font_size b) default_font_size); reflexivity.
Qed.

(* ================================================================= *)
(** ** The built-in catalogue *)

Lemma replace_removes (c : ascii) (s : string) :
  all_chars (fun a => negb (Ascii.eqb a c)) (Py.replace c "" s) = true.
Proof.
  induction s as [|a t IH]; [reflexivity|]. cbn [Py.replace].
  destruct (Ascii.eqb a c) eqn:E; [exact IH|].
  cbn [all_chars]. now rewrite E, IH.
Qed.

Lemma replace_keeps (p : ascii -> bool) (c : ascii) (s : string) :
  all_chars p s = true -> all_chars p (Py.replace c "" s) = true.
Proof.
  induction s as [|a t IH]; [reflexivity|]. cbn [Py.replace all_chars].
  intros H. apply andb_true_iff in H. destruct H as [Ha Ht].
  destruct (Ascii.eqb a c); [now apply IH|].
  cbn [all_chars]. now rewrite Ha, IH.
Qed.

Lemma lower_keeps (p : ascii -> bool) (s : string) :
  (forall a, p a = true -> p (Py.lower_char a) = true) ->
  all_chars p s = true -> all_chars p (Py.lower s) = true.
Proof.
  intros Hp. induction s as [|a t IH]; [reflexivity|].
  cbn [Py.lower all_chars].
  intros H. apply andb_true_iff in H. destruct H as [Ha Ht].
  now rewrite (Hp a Ha), IH.
Qed.

Lemma lower_no_upper (s : string) :
  all_chars (fun a => negb (is_upper a)) (Py.lower s) = true.
Proof.
  induction s as [|a t IH]; [reflexivity|]. cbn [Py.lower all_chars].
  rewrite IH, andb_true_r. revert a. by_cases_on_char.
Qed.

Lemma lower_fixed (s : string) :
  all_chars (fun a => negb (is_upper a)) s = true -> Py.lower s = s.
Proof.
  induction s as [|a t IH]; [reflexivity|]. cbn [Py.lower all_chars].
  intros H. apply andb_true_iff in H. destruct H as [Ha Ht].
  rewrite (IH Ht). f_equal. revert a Ha. by_cases_on_char.
Qed.

Lemma all_chars_and (p q : ascii -> bool) (s : string) :
  all_chars p s = true -> all_chars q s = true ->
  all_chars (fun a => p a && q a) s = true.
Proof.
  induction s as [|a t IH]; [reflexivity|]. cbn [all_chars].
  intros Hp Hq. apply andb_true_iff in Hp, Hq.
  destruct Hp as [Hpa Hpt], Hq as [Hqa Hqt].
  now rewrite Hpa, Hqa, IH.
Qed.

Lemma lower_char_not (c : ascii) :
  In c dropped_chars ->
  forall a, negb (Ascii.eqb a c) = true ->
            negb (Ascii.eqb (Py.lower_char a) c) = true.
Proof.
  intros Hc.
  repeat (destruct Hc as [<-|Hc]; [by_cases_on_char|]).
  destruct Hc.
Qed.

(** What [normalize_string] returns holds none of the characters it drops. *)
Lemma normalize_drops (c : ascii) (s : string) :
  In c dropped_chars ->
  all_chars (fun a => negb (Ascii.eqb a c)) (normalize_string s) = true.
Proof.
  intros Hc. unfold normalize_string, dedelimit_string.
  assert (Hk : forall t,
             all_chars (fun a => negb (Ascii.eqb a c)) t = true ->
             all_chars (fun a => negb (Ascii.eqb a c)) (Py.lower t) = true).
  { intros t. apply lower_keeps. now apply lower_char_not. }
  cbn in Hc.
  repeat (destruct Hc as [<-|Hc];
          [repeat first [ apply replace_removes
                        | apply replace_keeps
                        | apply Hk ] |]).
  destruct Hc.
Qed.

Lemma normalize_no_upper (s : string) :
  all_chars (fun a => negb (is_upper a)) (normalize_string s) = true.
Proof.
  unfold normalize_string. repeat apply replace_keeps. apply lower_no_upper.
Qed.

Lemma normal_char_spec (s : string) :
  (forall c, In c dropped_chars ->
             all_chars (fun a => negb (Ascii.eqb a c)) s = true) ->
  all_chars (fun a => negb (is_upper a)) s = true ->
  all_chars normal_char s = true.
Proof.
  intros Hd Hu. induction s as [|a t IH]; [reflexivity|].
  cbn [all_chars]. rewrite IH.
  - rewrite andb_true_r. unfold normal_char.
    cbn [all_chars] in Hu. apply andb_true_iff in Hu. destruct Hu as [Hu _].
    rewrite Hu, andb_true_r.
    apply negb_true_iff.
    destruct (existsb (Ascii.eqb a) dropped_chars) eqn:E; [|reflexivity].
    apply existsb_exists in E. destruct E as (c & Hc & Hac).
    specialize (Hd c Hc). cbn [all_chars] in Hd.
    apply andb_true_iff in Hd. destruct Hd as [Hd _].
    rewrite Hac in Hd. discriminate.
  - intros c Hc. specialize (Hd c Hc). cbn [all_chars] in Hd.
    now apply andb_true_iff in Hd.
  - cbn [all_chars] in Hu. now apply andb_true_iff in Hu.
Qed.

Lemma normal_char_not (c : ascii) :
  In c dropped_chars ->
  forall a, normal_char a = true -> negb (Ascii.eqb a c) = true.
Proof.
  intros Hc.
  repeat (destruct Hc as [<-|Hc]; [by_cases_on_char|]).
  destruct Hc.
Qed.

Lemma normal_char_lower (a : ascii) :
  normal_char a = true -> negb (is_upper a) = true.
Proof. revert a. by_cases_on_char. Qed.

(** A string of characters [normalize_string] leaves alone is left alone. *)
Lemma normalize_fixed (s : string) :
  all_chars normal_char s = true -> normalize_string s = s.
Proof.
  intros H.
  assert (Hc : forall c, In c dropped_chars -> Py.replace c "" s = s).
  { intros c Hc. apply replace_absent.
    apply (all_chars_impl normal_char); auto. now apply normal_char_not. }
  unfold normalize_string, dedelimit_string.
  rewrite (Hc Py.nl), (Hc Py.dquote), (Hc Py.squote), (Hc Py.tab),
    (Hc " "%char) by (cbn; auto 10).
  rewrite lower_fixed
    by (apply (all_chars_impl normal_char); auto; apply normal_char_lower).
  rewrite (Hc "-"%char), (Hc "_"%char), (Hc "."%char) by (cbn; auto 10).
  reflexivity.
Qed.

(** X2: [normalize_string] returns a string without upper-case letters,
    blanks, tabs, newlines, quotes, hyphens, underscores and dots, and
    leaves such a string as it is.  Normalising twice is normalising once;
    a type name and its normal form select the same built-in sheet. *)
Theorem normalize_string_normal_form (s : string) :
  all_chars normal_char (normalize_string s) = true
  /\ normalize_string (normalize_string s) = normalize_string s
  /\ sheetspec_for_type (normalize_string s) = sheetspec_for_type s.
Proof.
  assert (Hn : all_chars normal_char (normalize_string s) = true).
  { apply normal_char_spec.
    - intros c Hc. now apply normalize_drops.
    - apply normalize_no_upper. }
  assert (Hi : normalize_string (normalize_string s) = normalize_string s)
    by now apply normalize_fixed.
  split; [exact Hn|split; [exact Hi|]].
  unfold sheetspec_for_type. now rewrite Hi.
Qed.

(** A specification with all dimensions set, a grid of whole numbers of
    columns and rows, and labels that have an area. *)
Lemma complete_spec_sound (t : SheetSpec) :
  complete_spec t = true ->
  exists sheet H V,
    resolve t = Some sheet
    /\ valid_sheet sheet H V 1
    /\ (0 < s_label_width sheet)%Q /\ (0 < s_label_height sheet)%Q
    /\ (0 <= s_left_margin sheet)%Q /\ (0 <= s_bottom_margin sheet)%Q.
Proof.
  unfold complete_spec. destruct (resolve t) as [sheet|]; [|discriminate].
  intros H.
  repeat match type of H with
         | (_ && _)%bool = true =>
             let H1 := fresh "C" in
             apply andb_true_iff in H; destruct H as [H H1]
         end.
  exists sheet, (Py.int (s_horiz_num_labels sheet)),
    (Py.int (s_vert_num_labels sheet)).
  apply Z.leb_le in H, C6. apply Qeq_bool_eq in C3, C4, C5.
  apply Qle_bool_iff in C, C0.
  split; [reflexivity|]. unfold valid_sheet.
  repeat split; try assumption; try lia.
  - destruct (Qlt_le_dec 0 (s_label_width sheet)) as [|Hn]; [assumption|].
    apply Qle_bool_iff in Hn. rewrite Hn in C2. discriminate.
  - destruct (Qlt_le_dec 0 (s_label_height sheet)) as [|Hn]; [assumption|].
    apply Qle_bool_iff in Hn. rewrite Hn in C1. discriminate.
Qed.

(** Every entry of the catalogue passes the test. *)
Lemma sheetspec_for_type_complete (ty : string) (t : SheetSpec) :
  sheetspec_for_type ty = Ok t -> complete_spec t = true.
Proof.
  unfold sheetspec_for_type.
  repeat match goal with
         | |- context [if ?b then _ else _] => destruct b
         end; intros H; inversion H; vm_compute; reflexivity.
Qed.

(** The names the catalogue answers to are the ones listed. *)
Lemma sheetspec_for_type_known (ty : string) :
  match sheetspec_for_type ty with
  | Ok _ => one_of (normalize_string ty) catalogue_names = true
  | Raise e => e = NameError
               /\ one_of (normalize_string ty) catalogue_names = false
  end.
Proof.
  unfold sheetspec_for_type, one_of, catalogue_names.
  generalize (normalize_string ty) as n. intros n.
  cbn [existsb]. unfold orb.
  repeat match goal with
         | |- context [String.eqb n ?s] =>
             destruct (String.eqb n s); cbv iota; [reflexivity|]
         end.
  split; reflexivity.
Qed.

(** X3: the built-in catalogue is complete.  A type name whose normal form
    is one of the 49 names of the catalogue gives a specification with all
    eight dimensions set, a grid of whole numbers of columns and rows, labels
    of positive width and height, and the default first label; every other
    name raises NameError. *)
Theorem catalogue_is_complete (ty : string) :
  if one_of (normalize_string ty) catalogue_names
  then exists t sheet H V,
      sheetspec_for_type ty = Ok t
      /\ resolve t = Some sheet
      /\ valid_sheet sheet H V 1
      /\ (0 < s_label_width sheet)%Q /\ (0 < s_label_height sheet)%Q
      /\ (0 <= s_left_margin sheet)%Q /\ (0 <= s_bottom_margin sheet)%Q
  else sheetspec_for_type ty = Raise NameError.
Proof.
  pose proof (sheetspec_for_type_known ty) as Hk.
  pose proof (sheetspec_for_type_complete ty) as Hc.
  destruct (sheetspec_for_type ty) as [t|e].
  - rewrite Hk.
    destruct (complete_spec_sound t (Hc t eq_refl)) as (sheet & H & V & Hs).
    exists t, sheet, H, V. split; [reflexivity|exact Hs].
  - destruct Hk as [-> Hk]. rewrite Hk. reflexivity.
Qed.

(* ================================================================= *)
(** ** The option loop of main *)

(** An option raises exactly when it takes a number and its value is not
    one. *)
Lemma handle_option_bad (opt value : string) (v : Cli.vars) :
  match handle_option opt value v with
  | Ok _ => bad_number (opt, value) = false
  | Raise e => e = ValueError /\ bad_number (opt, value) = true
  end.
Proof.
  unfold handle_option, bad_number, opt_in, int_of, float_of, bind.
  destruct v. cbn [existsb].
  repeat match goal with
         | |- context [String.eqb opt ?s] =>
             destruct (String.eqb_spec opt s) as [->|?];
               [ cbn;
                 try (destruct (Py.int_of_string value); cbn; now auto);
                 try (destruct (Py.float value); cbn; now auto);
                 reflexivity
               | ]
         end.
  reflexivity.
Qed.

Lemma handle_options_snd (opts : list (string * string)) :
  forall v,
    snd (handle_options opts v)
    = if existsb bad_number opts then Some ValueError else None.
Proof.
  induction opts as [|[opt value] opts IH]; intros v; [reflexivity|].
  cbn [handle_options existsb].
  pose proof (handle_option_bad opt value v) as Hb.
  destruct (handle_option opt value v) as [v1|e].
  - rewrite Hb. cbn [orb]. apply IH.
  - destruct Hb as [-> Hb]. rewrite Hb. reflexivity.
Qed.


(* ================================================================= *)
(** ** The first label *)

Lemma handle_option_first_label (opt value : string) (v v' : Cli.vars) :
  handle_option opt value v = Ok v' ->
  (exists n, first_label (Cli.spec v) = inject_Z n) ->
  exists n, first_label (Cli.spec v') = inject_Z n.
Proof.
  unfold handle_option, int_of, float_of, bind. destruct v.
  cbn [Cli.spec].
  repeat match goal with
         | |- context [if ?b then _ else _] => destruct b
         | |- context [match ?o with Some _ => _ | None => _ end] => destruct o
         end; intros H Hn; inversion H; subst; cbn; eauto.
Qed.

Lemma handle_options_first_label (opts : list (string * string)) :
  forall v v',
    handle_options opts v = (v', None) ->
    (exists n, first_label (Cli.spec v) = inject_Z n) ->
    exists n, first_label (Cli.spec v') = inject_Z n.
Proof.
  induction opts as [|[opt value] opts IH]; intros v v'; cbn [handle_options].
  - intros H. now inversion H.
  - destruct (handle_option opt value v) as [v1|e] eqn:E; [|discriminate].
    intros H Hn. apply (IH v1 v' H).
    eapply handle_option_first_label; eauto.
Qed.

(** X5: the first label is the one of the command line, and it is a whole
    number.  --first-label is read with [int], the parameter file has no key
    for it and no built-in type sets it; so the check of [main] that the
    first label is an integer never fails, and its message is never
    written. *)
Theorem first_label_is_whole (env : Env) (opts : list (string * string))
  (v : Cli.vars) (spec : SheetSpec) (err : list string) :
  handle_options opts Cli.init = (v, None) ->
  merged_spec env v = Ok (spec, err) ->
  (first_label spec == first_label (Cli.spec v))%Q
  /\ integral (first_label spec)
  /\ Qeq_bool (inject_Z (Py.int (first_label spec))) (first_label spec) = true.
Proof.
  intros Ho Hm.
  pose proof (merged_first_label env v spec err Hm) as Hf.
  destruct (handle_options_first_label opts Cli.init v Ho) as [n Hn].
  { exists 1%Z. reflexivity. }
  assert (Hi : integral (first_label spec)).
  { unfold integral. rewrite Hf, Hn. now rewrite int_inject_Z. }
  split; [exact Hf|]. split; [exact Hi|].
  apply Qeq_bool_iff. symmetry. exact Hi.
Qed.

(** Label 3 of an avery5168 sheet. *)
Lemma first_label_is_whole_witness :
  exists spec,
    merged_spec env_empty
      (fst (handle_options [("-t", "avery5168"); ("--first-label", "3")]
                           Cli.init))
    = Ok (spec, [])
    /\ integral (first_label spec).
Proof.
  eexists. split; [reflexivity|].
  refine (proj1 (proj2 (first_label_is_whole env_empty
                   [("-t", "avery5168"); ("--first-label", "3")] _ _ [] _ _)));
    reflexivity.
Defined.

(* ================================================================= *)
(** ** The checks of main *)

Lemma mode_checks_fst (v : Cli.vars) (acc : bool * list string) :
  fst (mode_checks v acc) = (fst acc || mode_conflict v)%bool.
Proof.
  unfold mode_checks, mode_conflict. cbv zeta. rewrite !complain_fst.
  destruct (fst acc), (Cli.code_input v), (Cli.line_input v),
    (Cli.csv_input v), (Cli.leading_spaces v =? 0), (Cli.show_parameters v);
    reflexivity.
Qed.

Lemma required_checks_fst (spec : SheetSpec) (acc : bool * list string) :
  fst (required_checks spec acc) = (fst acc || missing_dimension spec)%bool.
Proof.
  unfold required_checks, missing_dimension. cbv zeta. rewrite !complain_fst.
  destruct (fst acc); [now rewrite !orb_true_r|].
  rewrite !orb_false_r.
  destruct (is_none (left_margin spec)), (is_none (bottom_margin spec)),
    (is_none (label_width spec)), (is_none (label_height spec)),
    (is_none (horiz_space spec)), (is_none (vert_space spec)),
    (is_none (horiz_num_labels spec)), (is_none (vert_num_labels spec));
    reflexivity.
Qed.

Lemma first_label_checks_fst (spec : SheetSpec) (acc acc' : bool * list string) :
  first_label_checks spec acc = Ok acc' ->
  fst acc' = (fst acc || bad_first_label spec)%bool.
Proof.
  unfold first_label_checks, bad_first_label. cbv zeta.
  destruct (Qle_bool 1 (first_label spec)).
  - destruct (horiz_num_labels spec) as [hn|], (vert_num_labels spec) as [vn|];
      try discriminate.
    intros H. injection H as <-. rewrite !complain_fst.
    destruct (fst acc),
      (Qeq_bool (inject_Z (Py.int (first_label spec))) (first_label spec)),
      (Qle_bool (first_label spec) (hn * vn)); reflexivity.
  - intros H. injection H as <-. cbn [fst negb].
    destruct (fst acc),
      (Qeq_bool (inject_Z (Py.int (first_label spec))) (first_label spec));
      reflexivity.
Qed.

(** The checks only add to what was reported. *)
Lemma complain_snd (c : bool) (msg : string) (acc : bool * list string) :
  fst (complain c msg acc) = false -> snd (complain c msg acc) = snd acc.
Proof. unfold complain. destruct c; [discriminate|reflexivity]. Qed.

Lemma complain_false (c : bool) (msg : string) (acc : bool * list string) :
  fst (complain c msg acc) = false -> complain c msg acc = acc.
Proof. unfold complain. destruct c; [discriminate|reflexivity]. Qed.

Lemma complain_keeps (c : bool) (msg : string) (acc : bool * list string) :
  fst (complain c msg acc) = false -> fst acc = false.
Proof. unfold complain. destruct c; [discriminate|auto]. Qed.

Lemma mode_checks_pass (v : Cli.vars) (acc : bool * list string) :
  fst (mode_checks v acc) = false -> mode_checks v acc = acc.
Proof.
  unfold mode_checks. cbv zeta. intros H.
  repeat match type of H with
         | fst (complain ?c ?m ?a) = false =>
             rewrite (complain_false c m a H);
             apply complain_keeps in H
         end.
  reflexivity.
Qed.

Lemma required_checks_pass (spec : SheetSpec) (acc : bool * list string) :
  fst (required_checks spec acc) = false -> required_checks spec acc = acc.
Proof.
  unfold required_checks. cbv zeta. intros H.
  repeat match type of H with
         | fst (complain ?c ?m ?a) = false =>
             rewrite (complain_false c m a H);
             apply complain_keeps in H
         end.
  reflexivity.
Qed.

Lemma first_label_checks_pass (spec : SheetSpec) (acc acc' : bool * list string) :
  first_label_checks spec acc = Ok acc' -> fst acc' = false -> acc' = acc.
Proof.
  unfold first_label_checks. cbv zeta.
  destruct (Qle_bool 1 (first_label spec)).
  - destruct (horiz_num_labels spec) as [hn|], (vert_num_labels spec) as [vn|];
      try discriminate.
    intros H. injection H as <-. intros H.
    repeat match type of H with
           | fst (complain ?c ?m ?a) = false =>
               rewrite (complain_false c m a H);
               apply complain_keeps in H
           end.
    reflexivity.
  - intros H. injection H as <-. discriminate.
Qed.

(** The checks of [main], taken together: the flag they leave, and that
    they report nothing when they leave it unset. *)
Lemma checks_of_main (v : Cli.vars) (spec : SheetSpec) (err : list string)
  (acc : bool * list string) :
  first_label_checks spec
    (required_checks spec
       (mode_checks v (Cli.exit_with_admonishment v, err))) = Ok acc ->
  fst acc = admonished v spec
  /\ (fst acc = false -> snd acc = err).
Proof.
  intros H. split.
  - rewrite (first_label_checks_fst _ _ _ H), required_checks_fst,
      mode_checks_fst. reflexivity.
  - intros Hf. pose proof (first_label_checks_pass _ _ _ H Hf) as E.
    subst acc.
    pose proof (required_checks_pass _ _ Hf) as E1.
    rewrite E1 in Hf |- *.
    now rewrite (mode_checks_pass _ _ Hf).
Qed.

Lemma missing_dimension_resolve (spec : SheetSpec) :
  missing_dimension spec = false -> exists sheet, resolve spec = Some sheet.
Proof.
  unfold missing_dimension, resolve.
  destruct (left_margin spec), (bottom_margin spec), (label_width spec),
    (label_height spec), (horiz_space spec), (vert_space spec),
    (horiz_num_labels spec), (vert_num_labels spec);
    cbn; intros H; try discriminate; eauto.
Qed.






(** X8: nothing checks that an input file was named.  When every check
    passed and no -i option was given, [make_labels] is called with [None]
    for the file, and the process dies of the TypeError of [open]. *)
Theorem missing_infile_is_a_type_error (fuel : nat) (env : Env)
  (opts : list (string * string)) (args : list string) (v : Cli.vars)
  (spec : SheetSpec) (err : list string) :
  handle_options opts Cli.init = (v, None) ->
  Cli.exit_cleanly v = false ->
  Cli.show_parameters v = false ->
  merged_spec env v = Ok (spec, err) ->
  admonished v spec = false ->
  Cli.infile v = None ->
  main fuel env opts args
  = Some (mkFinished (Uncaught TypeError) (Cli.stdout v) err).
Proof.
  intros Ho Hx Hshow Hmerge Hadm Hin.
  assert (Hopts : opts <> []).
  { intros ->. cbn in Ho. inversion Ho; subst v.
    unfold admonished in Hadm. cbn in Hadm. discriminate. }
  rewrite (main_with_options _ _ _ _ Hopts).
  unfold run_options. rewrite Ho, Hx, Hmerge, Hshow.
  destruct (first_label_checks spec _) as [acc|e] eqn:Hchk.
  - destruct (checks_of_main v spec err acc Hchk) as [Hflag Herr].
    rewrite Hadm in Hflag. rewrite Hflag, (Herr Hflag).
    unfold admonished in Hadm.
    apply orb_false_iff in Hadm. destruct Hadm as [Hadm _].
    apply orb_false_iff in Hadm. destruct Hadm as [_ Hdim].
    destruct (missing_dimension_resolve spec Hdim) as [sheet Hres].
    unfold call_make_labels. rewrite Hres, Hin. reflexivity.
  - exfalso. unfold first_label_checks in Hchk. cbv zeta in Hchk.
    unfold admonished in Hadm.
    apply orb_false_iff in Hadm. destruct Hadm as [Hadm _].
    apply orb_false_iff in Hadm. destruct Hadm as [_ Hdim].
    unfold missing_dimension in Hdim.
    destruct (Qle_bool 1 (first_label spec)); [|discriminate].
    destruct (horiz_num_labels spec), (vert_num_labels spec);
      try discriminate; cbn in Hdim;
      rewrite ?orb_true_r in Hdim; discriminate.
Qed.

(** labelnation -l -t avery5168, with no -i. *)
Lemma missing_infile_is_a_type_error_witness :
  main 0 env_empty [("-l", ""); ("-t", "avery5168")] []
  = Some (mkFinished (Uncaught TypeError) [] []).
Proof.
  apply (missing_infile_is_a_type_error 0 env_empty
           [("-l", ""); ("-t", "avery5168")] []
           (Cli.mk false false SheetSpec_init (Some "avery5168") None true
                   false false 0 "labelnation.ps" None None false 0 false
                   [] [])
           (SheetSpec_of 31.0 33.0 254.0 363.0 37.0 0.0 2.0 2.0 "Arial" 33.0)
           []);
    reflexivity.
Defined.

(* ================================================================= *)
(** ** --show-parameters *)






(* ================================================================= *)
(** ** A grid dimension that is missing *)



(* ================================================================= *)
(** ** Options that print and leave *)

Lemma handle_option_info (opt value : string) (v : Cli.vars) :
  match handle_option opt value v with
  | Ok v' =>
      Cli.exit_cleanly v'
      = (Cli.exit_cleanly v
         || match info_of opt with [] => false | _ => true end)%bool
      /\ Cli.stdout v' = (Cli.stdout v ++ info_of opt)%list
      /\ Cli.exit_with_admonishment v'
         = (Cli.exit_with_admonishment v || unknown_option opt)%bool
      /\ Cli.stderr v'
         = (Cli.stderr v
            ++ (if unknown_option opt then [unrecognized opt] else []))%list
  | Raise _ => True
  end.
Proof.
  unfold handle_option, info_of, opt_in, int_of, float_of, bind,
    unknown_option, getopt_names, unrecognized.
  destruct v. cbn [existsb Cli.exit_cleanly Cli.stdout Cli.stderr
                   Cli.exit_with_admonishment].
  repeat match goal with
         | |- context [String.eqb opt ?s] =>
             destruct (String.eqb_spec opt s) as [->|?];
               [ cbn;
                 try (destruct (Py.int_of_string value); cbn);
                 try (destruct (Py.float value); cbn);
                 rewrite ?orb_true_r, ?orb_false_r, ?app_nil_r; now auto
               | ]
         end.
  cbn. rewrite ?orb_true_r, ?orb_false_r, ?app_nil_r. auto.
Qed.

Lemma handle_options_info (opts : list (string * string)) :
  forall v v',
    handle_options opts v = (v', None) ->
    Cli.exit_cleanly v'
    = (Cli.exit_cleanly v
       || match infos opts with [] => false | _ => true end)%bool
    /\ Cli.stdout v' = (Cli.stdout v ++ infos opts)%list.
Proof.
  induction opts as [|[opt value] opts IH]; intros v v'; cbn [handle_options].
  - intros H. inversion H; subst. cbn. now rewrite orb_false_r, app_nil_r.
  - pose proof (handle_option_info opt value v) as Hi.
    destruct (handle_option opt value v) as [v1|e]; [|discriminate].
    destruct Hi as (Hx & Hout & _). intros H.
    destruct (IH v1 v' H) as [Hx' Hout'].
    rewrite Hx', Hout', Hx, Hout. unfold infos. cbn [flat_map fst].
    split; [|now rewrite app_assoc].
    destruct (info_of opt); cbn [app]; [|now rewrite !orb_true_r].
    now rewrite orb_false_r.
Qed.

(** X10: the options that print and leave.  When the numbers of the
    command line are well formed and some option asks for the version, the
    usage, the list of types or the explanation, the process leaves with
    status 0 after the whole option loop: it has printed one text for each
    such option, in the order of the command line, and it reads no file and
    checks nothing else. *)
Theorem info_options_exit_cleanly (fuel : nat) (env : Env)
  (opts : list (string * string)) (args : list string) :
  existsb bad_number opts = false ->
  infos opts <> [] ->
  exists err,
    main fuel env opts args = Some (mkFinished (Exit 0) (infos opts) err).
Proof.
  intros Hb Hi.
  assert (Hopts : opts <> []) by (intros ->; now apply Hi).
  rewrite (main_with_options _ _ _ _ Hopts).
  pose proof (handle_options_snd opts Cli.init) as Hs. rewrite Hb in Hs.
  unfold run_options.
  destruct (handle_options opts Cli.init) as [v o] eqn:Ho.
  cbn [snd] in Hs. subst o.
  destruct (handle_options_info opts Cli.init v Ho) as [Hx Hout].
  cbn [Cli.exit_cleanly Cli.stdout Cli.init orb app] in Hx, Hout.
  rewrite Hx, Hout.
  destruct (infos opts); [now elim Hi|]. eauto.
Qed.

(** labelnation --version -t nosuchtype --help *)
Lemma info_options_exit_cleanly_witness :
  exists err,
    main 0 env_empty
         [("--version", ""); ("-t", "nosuchtype"); ("--help", "")] []
    = Some (mkFinished (Exit 0) [Version; Usage] err).
Proof.
  apply (info_options_exit_cleanly 0 env_empty
           [("--version", ""); ("-t", "nosuchtype"); ("--help", "")] []).
  - reflexivity.
  - discriminate.
Defined.

(** X11: of the option names [getopt] returns for the table of [main], the
    loop has a branch for every one but --usage.  --usage is reported as an
    unrecognized option and sets the flag that makes the process leave
    with an admonishment; it prints no usage.  No other name of the table
    is reported. *)
Theorem usage_option_is_unrecognized (opt value : string) (v : Cli.vars) :
  In opt getopt_names ->
  match handle_option opt value v with
  | Ok v' =>
      Cli.exit_with_admonishment v'
      = (Cli.exit_with_admonishment v || String.eqb opt "--usage")%bool
      /\ Cli.stderr v'
         = (Cli.stderr v
            ++ (if String.eqb opt "--usage" then [unrecognized opt]
                else []))%list
      /\ (if String.eqb opt "--usage"
          then Cli.stdout v' = Cli.stdout v
               /\ Cli.exit_cleanly v' = Cli.exit_cleanly v
          else True)
  | Raise e => e = ValueError
  end.
Proof.
  intros Hin.
  assert (Hu : unknown_option opt = String.eqb opt "--usage"
               /\ (String.eqb opt "--usage" = true -> info_of opt = [])).
  { unfold getopt_names in Hin. cbn [In] in Hin.
    repeat (destruct Hin as [<-|Hin]; [split; [reflexivity|]; cbn; auto;
                                       discriminate|]).
    destruct Hin. }
  destruct Hu as [Hu Hinfo].
  pose proof (handle_option_info opt value v) as Hi.
  pose proof (handle_option_raises opt value v) as Hr.
  destruct (handle_option opt value v) as [v'|e]; [|now apply Hr].
  destruct Hi as (Hx & Hout & Hflag & Herr).
  rewrite Hflag, Herr, Hu. split; [reflexivity|]. split; [reflexivity|].
  destruct (String.eqb opt "--usage"); [|exact I].
  rewrite Hx, Hout, (Hinfo eq_refl). cbn.
  now rewrite orb_false_r, app_nil_r.
Qed.

Lemma usage_option_is_unrecognized_witness :
  match handle_option "--usage" "" Cli.init with
  | Ok v' =>
      Cli.exit_with_admonishment v' = true
      /\ Cli.stderr v' = [unrecognized "--usage"]
      /\ Cli.stdout v' = [] /\ Cli.exit_cleanly v' = false
  | Raise e => e = ValueError
  end.
Proof.
  apply (usage_option_is_unrecognized "--usage" "" Cli.init).
  cbn. auto 20.
Defined.

(* ================================================================= *)
(** ** Where the labels go *)

Lemma steps_app (a b : list ps_item) :
  steps (a ++ b) = (steps a ++ steps b)%list.
Proof.
  induction a as [|i a IH]; simpl; [reflexivity|].
  destruct i; simpl; now rewrite IH.
Qed.

Lemma page_numbers_app (a b : list ps_item) :
  page_numbers (a ++ b) = (page_numbers a ++ page_numbers b)%list.
Proof.
  induction a as [|i a IH]; simpl; [reflexivity|].
  destruct i; simpl; now rewrite IH.
Qed.

Lemma page_margins_app (a b : list ps_item) :
  page_margins (a ++ b) = (page_margins a ++ page_margins b)%list.
Proof.
  induction a as [|i a IH]; simpl; [reflexivity|].
  destruct i; simpl; now rewrite IH.
Qed.

Lemma length_page_numbers (doc : list ps_item) :
  Z.of_nat (length (page_numbers doc)) = pages doc.
Proof.
  unfold pages, count. f_equal.
  induction doc as [|i doc IH]; [reflexivity|].
  destruct i; simpl; now rewrite IH.
Qed.

(** What a placement writes. *)
Lemma place_output (spec : Sheet) (input_type : InputType)
  (delimiter : option string) (leading_spaces min_label_lines : Z)
  (st : state) :
  exists code,
    output (place spec input_type delimiter leading_spaces min_label_lines st)
    = (output st
       ++ (if start_new_page st
           then [PageBegin (page_number st) (s_left_margin spec)
                           (s_bottom_margin spec)]
           else [])
       ++ [LabelBlock
             (inject_Z (x st) * (s_label_width spec + s_horiz_space spec))
             (inject_Z (y st) * (s_label_height spec + s_vert_space spec))
             code]
       ++ (if snd (advance spec (x st) (y st)) then [ShowPage] else []))%list.
Proof.
  unfold place.
  destruct (advance spec (x st) (y st)) as [[x1 y1] crossed].
  destruct (is_code input_type); simpl; eauto.
Qed.

Lemma label_cells_S (spec : Sheet) (H V F : Z) (n : nat) :
  label_cells spec H V F (S n)
  = (label_cells spec H V F n
     ++ [cell_step spec H V (F - 1 + Z.of_nat n)])%list.
Proof. unfold label_cells. now rewrite seq_S, map_app. Qed.

(** The cell of a position. *)
Lemma cell_step_position (spec : Sheet) (H V k q cx cy : Z) :
  k = q * (H * V) + cx * V + cy ->
  0 <= cx < H -> 0 <= cy < V ->
  cell_step spec H V k
  = (inject_Z cx * (s_label_width spec + s_horiz_space spec),
     inject_Z cy * (s_label_height spec + s_vert_space spec))%Q.
Proof.
  intros Hk Hx Hy. unfold cell_step.
  assert (Hm : k mod (H * V) = cx * V + cy).
  { symmetry. apply (Z.mod_unique_pos _ _ q); [nia|lia]. }
  assert (Hd : (cx * V + cy) / V = cx).
  { symmetry. apply (Z.div_unique_pos _ _ _ cy); lia. }
  assert (Hv : k mod V = cy).
  { symmetry. apply (Z.mod_unique_pos _ _ (q * H + cx)); [lia|nia]. }
  now rewrite Hm, Hd, Hv.
Qed.

Section Layout.

Variable spec : Sheet.
Variables H V F : Z.
Hypothesis valid : valid_sheet spec H V F.

Local Abbreviation laid_out := (laid_out spec H V F).

Lemma laid_out_place (input_type : InputType) (delimiter : option string)
  (leading_spaces min_label_lines : Z) (st : state) :
  laid_out (x st) (y st) (page_number st) (start_new_page st) (output st) ->
  let st' :=
    place spec input_type delimiter leading_spaces min_label_lines st in
  laid_out (x st') (y st') (page_number st') (start_new_page st')
           (output st').
Proof.
  intros (Hw & Hsteps & Hnum & Hmar). cbv zeta.
  pose proof (walker_inv_place spec H V F valid input_type delimiter
                leading_spaces min_label_lines st Hw) as Hw'.
  cbv zeta in Hw'. split; [exact Hw'|].
  destruct valid as (HH & HV & HF & EH & EV & EF).
  destruct Hw as (q & Hq & Hk & Hx & Hy & Hpage & Hshow & Hfin & Hstart
                  & Hpages).
  destruct (place_output spec input_type delimiter leading_spaces
                         min_label_lines st) as [code Ho].
  pose proof (count_nonneg is_label (output st)) as Hc0.
  fold (labels (output st)) in Hc0.
  pose proof (count_nonneg is_page_begin (output st)) as Hp0.
  fold (pages (output st)) in Hp0.
  assert (Hl : labels (output (place spec input_type delimiter leading_spaces
                                     min_label_lines st))
               = labels (output st) + 1) by apply place_labels.
  assert (Hp : pages (output (place spec input_type delimiter leading_spaces
                                    min_label_lines st))
               = pages (output st)
                 + (if start_new_page st then 1 else 0)).
  { rewrite Ho. unfold pages. rewrite !count_app.
    destruct (start_new_page st), (snd (advance spec (x st) (y st)));
      cbn; lia. }
  assert (Hnext : start_new_page st = true ->
                  page_number st = pages (output st) + 1).
  { intros Hs. rewrite Hs in Hstart. rewrite Hpage, Hpages.
    destruct (Z.eqb_spec (labels (output st)) 0) as [E0|E0].
    - rewrite E0 in Hk. nia.
    - cbn [orb] in Hstart. rewrite <- Hstart. lia. }
  split; [|split].
  - rewrite Hl, Ho, !steps_app, Hsteps.
    replace (Z.to_nat (labels (output st) + 1))
      with (S (Z.to_nat (labels (output st)))) by lia.
    rewrite label_cells_S, Z2Nat.id by lia.
    rewrite (cell_step_position spec H V _ q (x st) (y st) Hk Hx Hy).
    destruct (start_new_page st), (snd (advance spec (x st) (y st)));
      cbn [steps app]; rewrite ?app_nil_r; reflexivity.
  - rewrite Hp, Ho, !page_numbers_app, Hnum.
    destruct (start_new_page st) eqn:Hs.
    + rewrite (Hnext eq_refl).
      replace (Z.to_nat (pages (output st) + 1))
        with (S (Z.to_nat (pages (output st)))) by lia.
      rewrite seq_S, map_app. cbn [map Nat.add].
      replace (Z.of_nat (S (Z.to_nat (pages (output st)))))
        with (pages (output st) + 1) by lia.
      destruct (snd (advance spec (x st) (y st)));
        cbn [page_numbers app]; rewrite ?app_nil_r; reflexivity.
    + rewrite Z.add_0_r.
      destruct (snd (advance spec (x st) (y st)));
        cbn [page_numbers app]; rewrite ?app_nil_r; reflexivity.
  - rewrite Hp, Ho, !page_margins_app, Hmar.
    destruct (start_new_page st) eqn:Hs.
    + replace (Z.to_nat (pages (output st) + 1))
        with (Z.to_nat (pages (output st)) + 1)%nat by lia.
      rewrite repeat_app.
      destruct (snd (advance spec (x st) (y st)));
        cbn [page_margins app repeat]; rewrite ?app_nil_r; reflexivity.
    + rewrite Z.add_0_r.
      destruct (snd (advance spec (x st) (y st)));
        cbn [page_margins app]; rewrite ?app_nil_r; reflexivity.
Qed.

(** The layout of the document of a run. *)
Lemma run_laid_out (fuel : nat) (infile : Infile) (input_type : InputType)
  (delimiter : option string) (leading_spaces : Z) (show_bounding_box : bool)
  (min_label_lines : Z) (st : state) (doc : list ps_item) :
  make_labels fuel spec infile input_type delimiter leading_spaces
              show_bounding_box min_label_lines = Some (Completed st doc) ->
  laid_out (x st) (y st) (page_number st) (start_new_page st) (output st)
  /\ steps doc = steps (output st)
  /\ page_numbers doc = page_numbers (output st)
  /\ page_margins doc = page_margins (output st)
  /\ labels doc = labels (output st)
  /\ pages doc = pages (output st).
Proof.
  intros Hr.
  destruct (make_labels_completed _ _ _ _ _ _ _ _ _ _ Hr)
    as (st0 & Ex & Ey & Ep & Es & Eo & Hloop & Hdoc).
  split.
  - apply (loop_invariant spec input_type delimiter leading_spaces
             min_label_lines laid_out) with (fuel := fuel) (st := st0);
      [| |exact Hloop].
    + intros s. apply laid_out_place.
    + destruct (start_position spec H V F valid) as [Hx Hy].
      rewrite Ex, Ey, Ep, Es, Eo, Hx, Hy.
      split; [|repeat split].
      apply (walker_inv_start spec H V F valid); reflexivity.
  - subst doc. unfold labels, pages.
    rewrite steps_app, page_numbers_app, page_margins_app, !count_app.
    destruct ((x st =? 0) && (y st =? 0)); cbn;
      rewrite ?app_nil_r, ?Z.add_0_r; repeat split; reflexivity.
Qed.

End Layout.

(** X12: where the labels are drawn.  On a sheet of [H] columns of [V]
    labels whose first label to print is number [F], the labels of a run are
    translated, in the order written, to the cells [F - 1], [F], [F + 1],
    ... of the sheet, counted column by column and starting again at the
    first cell after the last one of a page.  So no label is drawn outside
    the grid, and no cell is used twice on a page. *)
Theorem labels_fill_the_cells_in_order (fuel : nat) (spec : Sheet)
  (H V F : Z) (infile : Infile) (input_type : InputType)
  (delimiter : option string) (leading_spaces : Z) (show_bounding_box : bool)
  (min_label_lines : Z) (st : state) (doc : list ps_item) :
  valid_sheet spec H V F ->
  make_labels fuel spec infile input_type delimiter leading_spaces
              show_bounding_box min_label_lines = Some (Completed st doc) ->
  steps doc = label_cells spec H V F (length (blocks doc)).
Proof.
  intros Hv Hr.
  destruct (run_laid_out spec H V F Hv _ _ _ _ _ _ _ _ _ Hr)
    as ((_ & Hs & _) & Es & _ & _ & El & _).
  rewrite Es, Hs, <- El, labels_blocks. now rewrite Nat2Z.id.
Qed.

(** Three labels from label 9 of an avery5160 sheet of 3 columns of 10:
    cells 8 and 9 of the first column, then the bottom of the second. *)
Lemma labels_fill_the_cells_in_order_witness :
  steps (run_document
           (make_labels 10 sheet_5160_from_9 three_labels Line
                        (Some "XXXXX") 0 false 0))
  = label_cells sheet_5160_from_9 3 10 9
      (length (blocks (run_document
                         (make_labels 10 sheet_5160_from_9 three_labels Line
                                      (Some "XXXXX") 0 false 0)))).
Proof.
  apply (labels_fill_the_cells_in_order 10 sheet_5160_from_9 3 10 9
           three_labels Line (Some "XXXXX") 0 false 0
           (final_state (make_labels 10 sheet_5160_from_9 three_labels Line
                                     (Some "XXXXX") 0 false 0))).
  - unfold valid_sheet. repeat split; try lia; reflexivity.
  - vm_compute. reflexivity.
Defined.

(** X13: the pages of a document.  On a valid sheet the pages a run begins
    are numbered 1, 2, 3, ... without a gap, and the page setup of each
    translates the origin to the left and bottom margins of the sheet. *)
Theorem pages_are_numbered_in_order (fuel : nat) (spec : Sheet)
  (H V F : Z) (infile : Infile) (input_type : InputType)
  (delimiter : option string) (leading_spaces : Z) (show_bounding_box : bool)
  (min_label_lines : Z) (st : state) (doc : list ps_item) :
  valid_sheet spec H V F ->
  make_labels fuel spec infile input_type delimiter leading_spaces
              show_bounding_box min_label_lines = Some (Completed st doc) ->
  page_numbers doc = map Z.of_nat (seq 1 (Z.to_nat (pages doc)))
  /\ page_margins doc
     = repeat (s_left_margin spec, s_bottom_margin spec)
              (Z.to_nat (pages doc))
  /\ page_number st = 1 + (F - 1 + labels doc) / (H * V).
Proof.
  intros Hv Hr.
  destruct (run_laid_out spec H V F Hv _ _ _ _ _ _ _ _ _ Hr)
    as ((Hw & _ & Hn & Hm) & _ & En & Em & El & Ep).
  rewrite En, Em, Ep, El. split; [exact Hn|]. split; [exact Hm|].
  destruct Hv as (HH & HV & HF & _).
  destruct Hw as (q & Hq & Hk & Hx & Hy & Hpage & _).
  rewrite Hpage. f_equal.
  apply (Z.div_unique_pos _ _ _ (x st * V + y st)); [nia|lia].
Qed.

(** Five rows from label 3 of a sheet of 2 columns of 2: pages 1 and 2. *)
Lemma pages_are_numbered_in_order_witness :
  page_numbers (run_document
                  (make_labels 5 sheet_5168_from_3 (mkInfile "" five_rows)
                               Csv None 0 false 0))
  = map Z.of_nat
        (seq 1 (Z.to_nat
                  (pages (run_document
                            (make_labels 5 sheet_5168_from_3
                                         (mkInfile "" five_rows) Csv None 0
                                         false 0))))).
Proof.
  refine (proj1 (pages_are_numbered_in_order 5 sheet_5168_from_3 2 2 3
                   (mkInfile "" five_rows) Csv None 0 false 0
                   (final_state (make_labels 5 sheet_5168_from_3
                                   (mkInfile "" five_rows) Csv None 0
                                   false 0)) _ _ _)).
  - unfold valid_sheet. repeat split; try lia; reflexivity.
  - vm_compute. reflexivity.
Defined.

(* ================================================================= *)
(** ** The shape of a document *)

Lemma prologue_then_pages_place (spec : Sheet) (input_type : InputType)
  (delimiter : option string) (leading_spaces min_label_lines : Z)
  (pro : list ps_item) (st : state) :
  prologue_then_pages pro (output st) ->
  prologue_then_pages pro
    (output (place spec input_type delimiter leading_spaces min_label_lines
                   st)).
Proof.
  intros (body & Ho & Hb).
  destruct (place_output spec input_type delimiter leading_spaces
                         min_label_lines st) as [code Hp].
  rewrite Hp, Ho. eexists. split; [now rewrite <- app_assoc|].
  rewrite !forallb_app, Hb.
  destruct (start_new_page st), (snd (advance spec (x st) (y st)));
    reflexivity.
Qed.

(** X22: the shape of a document.  Every run that completes has written
    the prologue first and once: the header, the re-encoding of the font,
    the clipping path and the font selection.  What follows is made of page
    setups, labels and page terminators only, and the closing terminator,
    if any, is the last thing written. *)
Theorem document_starts_with_the_prologue (fuel : nat) (spec : Sheet)
  (infile : Infile) (input_type : InputType) (delimiter : option string)
  (leading_spaces : Z) (show_bounding_box : bool) (min_label_lines : Z)
  (st : state) (doc : list ps_item) :
  make_labels fuel spec infile input_type delimiter leading_spaces
              show_bounding_box min_label_lines = Some (Completed st doc) ->
  exists body,
    forallb page_item body = true
    /\ (doc = (prologue spec show_bounding_box ++ body)%list
        \/ doc = (prologue spec show_bounding_box ++ body
                  ++ [FinalShowPage])%list).
Proof.
  intros Hr.
  destruct (make_labels_completed _ _ _ _ _ _ _ _ _ _ Hr)
    as (st0 & _ & _ & _ & _ & Eo & Hloop & Hdoc).
  assert (Hp : prologue_then_pages (prologue spec show_bounding_box)
                                   (output st)).
  { apply (loop_invariant spec input_type delimiter leading_spaces
             min_label_lines
             (fun _ _ _ _ d =>
                prologue_then_pages (prologue spec show_bounding_box) d))
      with (fuel := fuel) (st := st0); [| |exact Hloop].
    - intros s. apply prologue_then_pages_place.
    - exists []. rewrite Eo, app_nil_r. split; reflexivity. }
  destruct Hp as (body & Ho & Hb). exists body. split; [exact Hb|].
  rewrite Hdoc, Ho.
  destruct ((x st =? 0) && (y st =? 0)).
  - left. now rewrite app_nil_r.
  - right. now rewrite <- app_assoc.
Qed.

(** Three labels on an avery5160 sheet. *)
Lemma document_starts_with_the_prologue_witness :
  exists body,
    forallb page_item body = true
    /\ (run_document
          (make_labels 10 sheet_5160 three_labels Line (Some "XXXXX") 0
                       false 0)
        = (prologue sheet_5160 false ++ body)%list
        \/ run_document
             (make_labels 10 sheet_5160 three_labels Line (Some "XXXXX") 0
                          false 0)
           = (prologue sheet_5160 false ++ body ++ [FinalShowPage])%list).
Proof.
  apply (document_starts_with_the_prologue 10 sheet_5160 three_labels Line
           (Some "XXXXX") 0 false 0
           (final_state (make_labels 10 sheet_5160 three_labels Line
                                     (Some "XXXXX") 0 false 0))).
  vm_compute. reflexivity.
Defined.

(* ================================================================= *)
(** ** Labels separated by a delimiter *)

Lemma verbatim_app (a : list string) (l : string) :
  verbatim (a ++ [l]) = (verbatim a ++ l ++ NL)%string.
Proof.
  induction a as [|h a IH]; cbn [verbatim app append].
  - now rewrite append_nil_r.
  - now rewrite IH, !append_assoc.
Qed.

(** The loop stops where its condition fails. *)
Lemma loop_stop (spec : Sheet) (input_type : InputType)
  (delimiter : option string) (leading_spaces min_label_lines : Z)
  (fuel : nat) (st : state) :
  continues input_type st = false ->
  loop spec input_type delimiter leading_spaces min_label_lines fuel st
  = Some st.
Proof. intros Hc. destruct fuel; cbn [loop]; now rewrite Hc. Qed.

Lemma place_code_blocks (spec : Sheet) (delimiter : option string)
  (leading_spaces min_label_lines : Z) (st : state) :
  blocks (output (place spec Code delimiter leading_spaces min_label_lines st))
  = (blocks (output st) ++ [code_accum st])%list.
Proof.
  unfold place. destruct (advance spec (x st) (y st)) as [[x1 y1] crossed].
  simpl. rewrite !blocks_app. simpl.
  destruct (start_new_page st), crossed; simpl; rewrite ?app_nil_r;
    reflexivity.
Qed.

Section Delimited.

Variable spec : Sheet.
Variable input_type : InputType.
Hypothesis not_csv : is_csv input_type = false.
Variable d : string.
Variables leading_spaces min_label_lines : Z.

Local Abbreviation loop_ :=
  (loop spec input_type (Some d) leading_spaces min_label_lines).
Local Abbreviation place_ :=
  (place spec input_type (Some d) leading_spaces min_label_lines).
Local Abbreviation body_ :=
  (body spec input_type (Some d) leading_spaces min_label_lines).
Local Abbreviation label_of_ :=
  (label_of spec input_type leading_spaces min_label_lines).

Lemma guard_delimited (st : state) :
  single_page_guard spec input_type (Some d) st = false.
Proof.
  unfold single_page_guard, has_delimiter.
  destruct (negb (is_csv input_type)), (String.eqb (line st) "");
    reflexivity.
Qed.

(** A delimiter line: the label read so far is placed, and the next one
    starts empty. *)
Lemma place_delimited (cur : list string) (st : state) :
  collecting input_type cur st ->
  collecting input_type [] (place_ st)
  /\ blocks (output (place_ st))
     = (blocks (output st) ++ [label_of_ cur])%list
  /\ line (place_ st) = line st /\ unread (place_ st) = unread st.
Proof.
  intros (Hit & Hacc).
  destruct (place_keeps_input spec input_type (Some d) leading_spaces
                              min_label_lines st) as (_ & _ & El & Eu & Ei).
  cbv zeta in El, Eu, Ei.
  assert (Hf : label_lines (place_ st) = [] /\ code_accum (place_ st) = "").
  { unfold place. destruct (advance spec (x st) (y st)) as [[x1 y1] c].
    destruct (is_code input_type); split; reflexivity. }
  destruct Hf as [Hll Hca].
  split; [|split; [|split; assumption]].
  - split; [now rewrite Ei|].
    destruct (is_code input_type); [exact Hca|]. now rewrite Hll, Hca.
  - unfold label_of. destruct input_type; try discriminate; cbn [is_code] in *.
    + destruct Hacc as [Hl Hc].
      rewrite (place_blocks spec Line (Some d) leading_spaces min_label_lines
                            st eq_refl).
      cbn [is_csv]. now rewrite Hl, Hc.
    + now rewrite place_code_blocks, Hacc.
Qed.

(** A line of a label: it joins the lines read so far. *)
Lemma collect_line (cur : list string) (st : state) :
  collecting input_type cur st ->
  String.eqb (Py.rstrip (line st)) d = false ->
  collecting input_type (cur ++ [Py.rstrip (line st)]) (body_ st)
  /\ output (body_ st) = output st
  /\ unread (body_ st) = unread st.
Proof.
  intros (Hit & Hacc) Hd. unfold body. rewrite Hit, not_csv.
  cbn [negb andb orb is_delimiter line with_line iterate_over_single_page].
  rewrite Hd, Hit.
  unfold collecting.
  destruct input_type; try discriminate; cbn [is_code negb] in *.
  - destruct Hacc as [Hl Hc].
    cbn [with_label_lines with_line iterate_over_single_page label_lines
         code_accum output unread line].
    repeat split; auto. now rewrite Hl, map_app.
  - cbn [with_code_accum with_line iterate_over_single_page label_lines
         code_accum output unread line].
    repeat split; auto. now rewrite Hacc, verbatim_app.
Qed.

Lemma body_delimiter (st : state) :
  iterate_over_single_page st = false ->
  String.eqb (Py.rstrip (line st)) d = true ->
  body_ st = place_ (with_line (Py.rstrip (line st)) (unread st) st).
Proof.
  intros Hit Hd. unfold body. rewrite Hit, not_csv.
  cbn [negb andb orb is_delimiter line with_line]. now rewrite Hd.
Qed.

Lemma delimited_loop (rest : list string) :
  forall l st cur k,
    line st = l -> l <> "" -> unread st = rest ->
    Forall (fun l => l <> "") rest ->
    collecting input_type cur st ->
    exists st',
      loop_ (S (length rest) + k) st = Some st'
      /\ blocks (output st')
         = (blocks (output st)
            ++ map label_of_ (delimited d cur (l :: rest)))%list.
Proof.
  induction rest as [|l2 rest IH]; intros l st cur k Hl Hne Hun Hall Hcol.
  - assert (Hc : continues input_type st = true).
    { unfold continues. rewrite not_csv, Hl.
      apply String.eqb_neq in Hne. now rewrite Hne. }
    change (S (length (@nil string)) + k)%nat with (S k).
    rewrite loop_step by exact Hc.
    rewrite not_csv. cbn [delimited]. rewrite <- Hl.
    destruct (String.eqb (Py.rstrip (line st)) d) eqn:Hd.
    + rewrite (body_delimiter st (proj1 Hcol) Hd).
      set (st1 := with_line (Py.rstrip (line st)) (unread st) st).
      assert (Hcol1 : collecting input_type cur st1) by exact Hcol.
      destruct (place_delimited cur st1 Hcol1) as (Hc2 & Hb & _ & Eu).
      unfold read_line. rewrite Eu. cbn [unread st1 with_line]. rewrite Hun.
      rewrite guard_delimited.
      eexists. split.
      * apply loop_stop. unfold continues. rewrite not_csv. reflexivity.
      * cbn [output with_iterate with_line]. rewrite Hb. reflexivity.
    + destruct (collect_line cur st Hcol Hd) as (Hc2 & Ho & Eu).
      unfold read_line. rewrite Eu, Hun. rewrite guard_delimited.
      eexists. split.
      * apply loop_stop. unfold continues. rewrite not_csv. reflexivity.
      * cbn [output with_iterate with_line map]. rewrite Ho.
        now rewrite app_nil_r.
  - assert (Hc : continues input_type st = true).
    { unfold continues. rewrite not_csv, Hl.
      apply String.eqb_neq in Hne. now rewrite Hne. }
    change (S (length (l2 :: rest)) + k)%nat
      with (S (S (length rest) + k)).
    rewrite loop_step by exact Hc.
    rewrite not_csv.
    pose proof (Forall_inv Hall) as Hl2.
    pose proof (Forall_inv_tail Hall) as Hrest.
    change (delimited d cur (l :: l2 :: rest))
      with (if String.eqb (Py.rstrip l) d
            then cur :: delimited d [] (l2 :: rest)
            else delimited d (cur ++ [Py.rstrip l]) (l2 :: rest)).
    rewrite <- Hl.
    destruct (String.eqb (Py.rstrip (line st)) d) eqn:Hd.
    + rewrite (body_delimiter st (proj1 Hcol) Hd).
      set (st1 := with_line (Py.rstrip (line st)) (unread st) st).
      assert (Hcol1 : collecting input_type cur st1) by exact Hcol.
      destruct (place_delimited cur st1 Hcol1) as (Hc2 & Hb & _ & Eu).
      unfold read_line. rewrite Eu. cbn [unread st1 with_line]. rewrite Hun.
      rewrite guard_delimited.
      match goal with
      | |- context [loop _ _ _ _ _ _ ?s] =>
          destruct (IH l2 s [] k) as (st' & Hloop & Hb'); auto
      end.
      { destruct Hc2 as [Hi Ha]. split; [reflexivity|exact Ha]. }
      exists st'. split; [exact Hloop|].
      rewrite Hb'. cbn [output with_iterate with_line map].
      rewrite Hb, <- app_assoc. reflexivity.
    + destruct (collect_line cur st Hcol Hd) as (Hc2 & Ho & Eu).
      unfold read_line. rewrite Eu, Hun. rewrite guard_delimited.
      match goal with
      | |- context [loop _ _ _ _ _ _ ?s] =>
          destruct (IH l2 s (cur ++ [Py.rstrip (line st)])%list k)
            as (st' & Hloop & Hb'); auto
      end.
      { destruct Hc2 as [Hi Ha]. split; [reflexivity|exact Ha]. }
      exists st'. split; [exact Hloop|].
      rewrite Hb'. cbn [output with_iterate with_line]. now rewrite Ho.
Qed.

End Delimited.

Lemma length_delimited (d : string) (lines : list string) :
  forall cur,
    length (delimited d cur lines)
    = length (filter (fun l => String.eqb (Py.rstrip l) d) lines).
Proof.
  induction lines as [|l rest IH]; intros cur; cbn [delimited filter];
    [reflexivity|].
  destruct (String.eqb (Py.rstrip l) d); cbn [length]; now rewrite IH.
Qed.

(** X14: labels separated by a delimiter.  With line or code input and a
    delimiter, a run needs one iteration of the loop for each line of the
    file and completes; it draws one label for each line that equals the
    delimiter once its trailing whitespace is stripped, made of the lines
    read since the previous delimiter (escaped, padded and shown, or as
    code).  Lines that no delimiter follows are read and never written. *)
Theorem delimited_text_gives_one_label_per_delimiter (fuel : nat)
  (spec : Sheet) (infile : Infile) (input_type : InputType) (d : string)
  (leading_spaces : Z) (show_bounding_box : bool) (min_label_lines : Z) :
  is_csv input_type = false ->
  Qeq_bool (s_vert_num_labels spec) 0 = false ->
  (length (Py.readlines (text infile)) <= fuel)%nat ->
  exists st doc,
    make_labels fuel spec infile input_type (Some d) leading_spaces
                show_bounding_box min_label_lines = Some (Completed st doc)
    /\ blocks doc
       = map (label_of spec input_type leading_spaces min_label_lines)
             (delimited d [] (Py.readlines (text infile)))
    /\ length (blocks doc)
       = length (filter (fun l => String.eqb (Py.rstrip l) d)
                        (Py.readlines (text infile))).
Proof.
  intros Hcsv Hvn Hfuel. unfold make_labels. rewrite Hvn, Hcsv.
  set (start := mkState _ _ _ _ _ _ _ _ _ _ _ _ _ _).
  assert (Hloop : exists st,
             loop spec input_type (Some d) leading_spaces min_label_lines
                  fuel (read_line start) = Some st
             /\ blocks (output st)
                = map (label_of spec input_type leading_spaces
                                min_label_lines)
                      (delimited d [] (Py.readlines (text infile)))).
  { pose proof (readlines_nonempty (text infile)) as Hne.
    unfold read_line. cbn [unread start].
    destruct (Py.readlines (text infile)) as [|l rest] eqn:El.
    - eexists. split.
      + apply loop_stop. unfold continues. now rewrite Hcsv.
      + reflexivity.
    - inversion Hne as [|? ? Hl Hrest]; subst.
      cbn [length] in Hfuel.
      replace fuel with (S (length rest) + (fuel - S (length rest)))%nat
        by lia.
      destruct (delimited_loop spec input_type Hcsv d leading_spaces
                  min_label_lines rest l (with_line l rest start) []
                  (fuel - S (length rest))%nat)
        as (st' & Hl' & Hb); auto.
      + split; [reflexivity|].
        destruct (is_code input_type); [reflexivity|split; reflexivity].
      + exists st'. split; [exact Hl'|]. rewrite Hb. reflexivity. }
  destruct Hloop as (st & Hl & Hb). rewrite Hl.
  eexists. eexists. split; [reflexivity|].
  assert (Hdoc : blocks (output st
                         ++ (if (x st =? 0) && (y st =? 0) then []
                             else [FinalShowPage]))
                 = blocks (output st)).
  { rewrite blocks_app. destruct ((x st =? 0) && (y st =? 0)); cbn;
      now rewrite app_nil_r. }
  rewrite Hdoc, Hb. split; [reflexivity|].
  now rewrite length_map, length_delimited.
Qed.

(** Two labels and a line that no delimiter follows: two labels are
    written, the last line is lost. *)
Lemma delimited_text_gives_one_label_per_delimiter_witness :
  exists st doc,
    make_labels 6 sheet_5160 two_labels_and_a_tail Line (Some "XXXXX") 0
                false 0 = Some (Completed st doc)
    /\ blocks doc
       = map (label_of sheet_5160 Line 0 0)
             (delimited "XXXXX" [] (Py.readlines (text two_labels_and_a_tail)))
    /\ length (blocks doc)
       = length (filter (fun l => String.eqb (Py.rstrip l) "XXXXX")
                        (Py.readlines (text two_labels_and_a_tail))).
Proof.
  apply (delimited_text_gives_one_label_per_delimiter 6 sheet_5160
           two_labels_and_a_tail Line "XXXXX" 0 false 0).
  - reflexivity.
  - reflexivity.
  - vm_compute. lia.
Defined.

(* ================================================================= *)
(** ** The rows of a csv file *)

Lemma csv_rows_loop (spec : Sheet) (delimiter : option string)
  (leading_spaces min_label_lines : Z) (rest : list (list string)) :
  forall r st k,
    row st = r -> unread_rows st = rest ->
    iterate_over_single_page st = false -> code_accum st = "" ->
    exists st',
      loop spec Csv delimiter leading_spaces min_label_lines
           (S (length rest) + k) st = Some st'
      /\ blocks (output st')
         = (blocks (output st)
            ++ map (fun r => label_code spec
                               (left_pad leading_spaces
                                  (pad_lines min_label_lines r)))
                   (rows_before_blank (r :: rest)))%list.
Proof.
  induction rest as [|r2 rest IH]; intros r st k Hrow Hun Hit Hca.
  - destruct r as [|f fs].
    + eexists. split.
      * apply loop_stop. unfold continues. cbn [is_csv]. now rewrite Hrow, Hit.
      * cbn. now rewrite app_nil_r.
    + change (S (length (@nil (list string))) + k)%nat with (S k).
      rewrite loop_step
        by (unfold continues; cbn [is_csv]; now rewrite Hrow).
      cbn [is_csv]. rewrite body_csv.
      destruct (place_keeps_input spec Csv delimiter leading_spaces
                                  min_label_lines st) as (_ & Eu & _).
      cbv zeta in Eu. rewrite Eu, Hun.
      eexists. split; [reflexivity|].
      rewrite (place_blocks spec Csv delimiter leading_spaces min_label_lines
                            st eq_refl).
      cbn [is_csv]. now rewrite Hrow, Hca.
  - destruct r as [|f fs].
    + eexists. split.
      * apply loop_stop. unfold continues. cbn [is_csv]. now rewrite Hrow, Hit.
      * cbn. now rewrite app_nil_r.
    + change (S (length (r2 :: rest)) + k)%nat
        with (S (S (length rest) + k)).
      rewrite loop_step
        by (unfold continues; cbn [is_csv]; now rewrite Hrow).
      cbn [is_csv]. rewrite body_csv.
      destruct (place_keeps_input spec Csv delimiter leading_spaces
                                  min_label_lines st) as (_ & Eu & _ & _ & Ei).
      cbv zeta in Eu, Ei. rewrite Eu, Hun.
      match goal with
      | |- context [loop _ _ _ _ _ _ ?s] =>
          destruct (IH r2 s k) as (st' & Hloop & Hb); auto
      end.
      { cbn [code_accum with_iterate with_row]. unfold place.
        destruct (advance spec (x st) (y st)) as [[x1 y1] c]. reflexivity. }
      exists st'. split; [exact Hloop|].
      rewrite Hb. cbn [output with_iterate with_row].
      rewrite (place_blocks spec Csv delimiter leading_spaces min_label_lines
                            st eq_refl).
      cbn [is_csv]. rewrite Hrow, Hca.
      cbn [rows_before_blank map append]. now rewrite <- app_assoc.
Qed.

(** X15: the rows of a csv file.  Every row is one label whose lines are the
    fields of the row, up to the first row without a field: a blank line in
    the file ends the loop, and the rows after it are never read.  A file
    without any row makes the first read raise StopIteration, after the
    prologue was written. *)
Theorem csv_rows_until_a_blank_one (fuel : nat) (spec : Sheet)
  (infile : Infile) (delimiter : option string) (leading_spaces : Z)
  (show_bounding_box : bool) (min_label_lines : Z) :
  Qeq_bool (s_vert_num_labels spec) 0 = false ->
  (length (csv_rows infile) <= fuel)%nat ->
  match csv_rows infile with
  | [] =>
      make_labels fuel spec infile Csv delimiter leading_spaces
                  show_bounding_box min_label_lines
      = Some (Died StopIteration (prologue spec show_bounding_box))
  | _ =>
      exists st doc,
        make_labels fuel spec infile Csv delimiter leading_spaces
                    show_bounding_box min_label_lines
        = Some (Completed st doc)
        /\ blocks doc
           = map (fun r => label_code spec
                             (left_pad leading_spaces
                                (pad_lines min_label_lines r)))
                 (rows_before_blank (csv_rows infile))
  end.
Proof.
  intros Hvn Hfuel. unfold make_labels. rewrite Hvn. cbn [is_csv].
  destruct (csv_rows infile) as [|r rest]; [reflexivity|].
  cbn [length] in Hfuel.
  replace fuel with (S (length rest) + (fuel - S (length rest)))%nat by lia.
  match goal with
  | |- context [loop _ _ _ _ _ _ ?s] =>
      destruct (csv_rows_loop spec delimiter leading_spaces min_label_lines
                  rest r s (fuel - S (length rest))%nat)
        as (st' & Hloop & Hb); try reflexivity
  end.
  rewrite Hloop. eexists. eexists. split; [reflexivity|].
  rewrite blocks_app, Hb.
  destruct ((x st' =? 0) && (y st' =? 0)); cbn [blocks app];
    now rewrite app_nil_r.
Qed.

(** Rows Ann, Bob, a blank line, Cid: two labels. *)
Lemma csv_rows_until_a_blank_one_witness :
  exists st doc,
    make_labels 4 sheet_5160 (mkInfile "" rows_with_a_blank) Csv None 0
                false 0
    = Some (Completed st doc)
    /\ blocks doc
       = map (fun r => label_code sheet_5160 (left_pad 0 (pad_lines 0 r)))
             [["Ann"; "1 Elm St"]; ["Bob"]].
Proof.
  apply (csv_rows_until_a_blank_one 4 sheet_5160
           (mkInfile "" rows_with_a_blank) None 0 false 0).
  - reflexivity.
  - cbn. lia.
Defined.

(* ================================================================= *)
(** ** The warning about a long label *)

Section LoopKeeps.

Variable spec : Sheet.
Variable input_type : InputType.
Variable delimiter : option string.
Variables leading_spaces min_label_lines : Z.
Variable I : state -> Prop.

Hypothesis I_body :
  forall st,
    I st -> I (body spec input_type delimiter leading_spaces min_label_lines st).
Hypothesis I_line : forall st l rest, I st -> I (with_line l rest st).
Hypothesis I_row : forall st r rest, I st -> I (with_row r rest st).
Hypothesis I_iterate : forall st b, I st -> I (with_iterate b st).

(** A property of the loop variables that every step keeps holds when the
    loop ends. *)
Lemma loop_keeps (fuel : nat) :
  forall st st',
    I st ->
    loop spec input_type delimiter leading_spaces min_label_lines fuel st
    = Some st' ->
    I st'.
Proof.
  induction fuel as [|fuel IH]; intros st st' H; cbn [loop].
  - destruct (continues input_type st); intros E; [discriminate|].
    now inversion E; subst.
  - destruct (continues input_type st); [|intros E; now inversion E; subst].
    pose proof (I_body st H) as Hb.
    destruct (is_csv input_type).
    + destruct (unread_rows _) as [|r rest].
      * intros E. now inversion E; subst.
      * apply IH. apply I_iterate, I_row, Hb.
    + apply IH. apply I_iterate. unfold read_line.
      destruct (unread _); apply I_line, Hb.
Qed.

End LoopKeeps.

Lemma warned_once_place (spec : Sheet) (input_type : InputType)
  (delimiter : option string) (leading_spaces min_label_lines : Z)
  (st : state) :
  warned_once input_type st ->
  warned_once input_type
    (place spec input_type delimiter leading_spaces min_label_lines st).
Proof.
  intros [He Hc]. unfold place, warned_once.
  destruct (advance spec (x st) (y st)) as [[x1 y1] crossed].
  destruct (is_code input_type) eqn:Ec;
    cbn [stderr overlong_label_warning_already_issued].
  - split; [exact He|exact Hc].
  - split; [|discriminate]. rewrite He.
    destruct (overlong_label_warning_already_issued st), (Qle_bool _ _);
      cbn [orb andb negb app]; rewrite ?app_nil_r; reflexivity.
Qed.

(** X17: the warning about an unusually long label is written at most once
    in a run, whatever the number of long labels, and never with code
    input: when a run completes, standard error holds the four parts of the
    warning if the flag is set, and nothing otherwise. *)
Theorem overlong_warning_at_most_once (fuel : nat) (spec : Sheet)
  (infile : Infile) (input_type : InputType) (delimiter : option string)
  (leading_spaces : Z) (show_bounding_box : bool) (min_label_lines : Z)
  (st : state) (doc : list ps_item) :
  make_labels fuel spec infile input_type delimiter leading_spaces
              show_bounding_box min_label_lines = Some (Completed st doc) ->
  stderr st
  = (if overlong_label_warning_already_issued st then overlong_warning
     else [])
  /\ (is_code input_type = true -> stderr st = []).
Proof.
  intros Hr.
  assert (Hw : warned_once input_type st).
  { revert Hr. unfold make_labels.
    destruct (Qeq_bool (s_vert_num_labels spec) 0); [discriminate|].
    set (start := mkState _ _ _ _ _ _ _ _ _ _ _ _ _ _).
    assert (Hs : warned_once input_type start).
    { split; [reflexivity|]. intros _. reflexivity. }
    assert (Hk : forall st0,
               warned_once input_type st0 ->
               loop spec input_type delimiter leading_spaces min_label_lines
                    fuel st0 = Some st ->
               warned_once input_type st).
    { intros st0. apply loop_keeps; auto.
      intros s Hs0. unfold body.
      assert (Hs1 : warned_once input_type
                      (if negb (iterate_over_single_page s)
                          && negb (is_csv input_type)
                       then with_line (Py.rstrip (line s)) (unread s) s
                       else s)).
      { destruct (negb (iterate_over_single_page s)
                  && negb (is_csv input_type)); exact Hs0. }
      revert Hs1.
      generalize (if negb (iterate_over_single_page s)
                     && negb (is_csv input_type)
                  then with_line (Py.rstrip (line s)) (unread s) s
                  else s).
      intros s1 Hs1.
      destruct (is_csv input_type || is_delimiter delimiter (line s1)
                || iterate_over_single_page s1);
        [now apply warned_once_place|].
      destruct (negb (is_code input_type)); exact Hs1. }
    destruct (is_csv input_type).
    - destruct (csv_rows infile) as [|r rest]; [discriminate|].
      destruct (loop _ _ _ _ _ _ _) as [st1|] eqn:El; [|discriminate].
      intros E. inversion E; subst. eapply Hk; [|exact El]. exact Hs.
    - destruct (loop _ _ _ _ _ _ _) as [st1|] eqn:El; [|discriminate].
      intros E. inversion E; subst. eapply Hk; [|exact El].
      unfold read_line. destruct (unread start); exact Hs. }
  destruct Hw as [He Hc]. split; [exact He|].
  intros Hcode. now rewrite He, (Hc Hcode).
Qed.

(** A label of eight lines on a sheet of 20 rows, drawn 80 times: one
    warning. *)
Lemma overlong_warning_at_most_once_witness :
  let r := make_labels 100 sheet_5167 address_block Line None 0 false 8 in
  stderr (final_state r)
  = (if overlong_label_warning_already_issued (final_state r)
     then overlong_warning else [])
  /\ (is_code Line = true -> stderr (final_state r) = []).
Proof.
  intros r.
  apply (overlong_warning_at_most_once 100 sheet_5167 address_block Line None
           0 false 8 (final_state r) (run_document r)).
  vm_compute. reflexivity.
Defined.

(* ================================================================= *)
(** ** Code input without a delimiter *)

Section CodeReplication.

Variable spec : Sheet.
Variables H V F : Z.
Hypothesis valid : valid_sheet spec H V F.
Variables leading_spaces min_label_lines : Z.

Local Abbreviation loop_ :=
  (loop spec Code None leading_spaces min_label_lines).
Local Abbreviation place_ :=
  (place spec Code None leading_spaces min_label_lines).
Local Abbreviation body_ :=
  (body spec Code None leading_spaces min_label_lines).

Lemma code_guard_not_eof (st : state) :
  line st <> "" -> single_page_guard spec Code None st = false.
Proof.
  intros Hl. unfold single_page_guard. apply String.eqb_neq in Hl.
  now rewrite Hl.
Qed.

Lemma code_guard_at_eof (st : state) :
  line st = "" ->
  single_page_guard spec Code None st
  = negb (V <=? y st) && negb (H <=? x st)
    && negb (iterate_over_single_page st && (x st =? 0) && (y st =? 0)).
Proof.
  destruct valid as (HH & HV & HF & EH & EV & EF).
  intros Hl. unfold single_page_guard. rewrite Hl.
  now rewrite (geq_inject_Z _ V _ EV), (geq_inject_Z _ H _ EH).
Qed.

Lemma body_code_line (st : state) :
  iterate_over_single_page st = false ->
  body_ st
  = with_code_accum (code_accum st ++ Py.rstrip (line st) ++ NL)
      (with_line (Py.rstrip (line st)) (unread st) st).
Proof. intros Hi. unfold body. rewrite Hi. cbn. now rewrite Hi. Qed.

Lemma body_code_replicate (st : state) :
  iterate_over_single_page st = true -> body_ st = place_ st.
Proof. intros Hi. unfold body. rewrite Hi. cbn. now rewrite Hi. Qed.

(** Reading: every line of the file joins the code of the one label. *)
Lemma read_all_code (lines : list string) :
  forall st fuel cur,
    line st <> "" ->
    iterate_over_single_page st = false ->
    unread st = lines ->
    Forall (fun l => l <> "") lines ->
    code_accum st = verbatim cur ->
    0 <= x st < H -> 0 <= y st < V ->
    exists st1,
      loop_ (S (length lines) + fuel) st = loop_ fuel st1
      /\ code_accum st1
         = verbatim (cur ++ map Py.rstrip (line st :: lines))
      /\ x st1 = x st /\ y st1 = y st
      /\ output st1 = output st
      /\ line st1 = "" /\ unread st1 = []
      /\ iterate_over_single_page st1 = true.
Proof.
  induction lines as [|l rest IH];
    intros st fuel cur Hline Hit Hun Hall Hca Hx Hy.
  - change (S (length (@nil string)) + fuel)%nat with (S fuel).
    rewrite loop_step
      by (unfold continues; apply String.eqb_neq in Hline;
          cbn [is_csv]; now rewrite Hline).
    cbn [is_csv]. rewrite (body_code_line st Hit). unfold read_line.
    cbn [unread with_code_accum with_line]. rewrite Hun.
    eexists. split; [reflexivity|].
    cbn -[Py.rstrip single_page_guard verbatim].
    rewrite Hca, verbatim_app.
    repeat split.
    rewrite code_guard_at_eof by reflexivity.
    cbn [x y with_line with_code_accum iterate_over_single_page].
    destruct (Z.leb_spec V (y st)), (Z.leb_spec H (x st)); try lia.
    now rewrite Hit.
  - change (S (length (l :: rest)) + fuel)%nat
      with (S (S (length rest) + fuel)).
    rewrite loop_step
      by (unfold continues; apply String.eqb_neq in Hline;
          cbn [is_csv]; now rewrite Hline).
    cbn [is_csv]. rewrite (body_code_line st Hit). unfold read_line.
    cbn [unread with_code_accum with_line]. rewrite Hun.
    pose proof (Forall_inv Hall) as Hl.
    pose proof (Forall_inv_tail Hall) as Hrest.
    rewrite code_guard_not_eof by exact Hl.
    match goal with
    | |- context [loop _ _ _ _ _ (S (length rest) + fuel) ?s] =>
        destruct (IH s fuel (cur ++ [Py.rstrip (line st)])%list)
          as (st1 & Hloop & Hc1 & Ex & Ey & Eo & El & Eu & Ei)
    end; auto.
    { cbn -[Py.rstrip verbatim]. now rewrite Hca, verbatim_app. }
    exists st1. split; [exact Hloop|].
    rewrite Hc1, Ex, Ey, Eo, El, Eu, Ei.
    cbn -[Py.rstrip verbatim]. rewrite <- app_assoc.
    repeat split; reflexivity.
Qed.

Lemma place_code_fields (st : state) :
  code_accum (place_ st) = "".
Proof.
  unfold place. destruct (advance spec (x st) (y st)) as [[x1 y1] c].
  reflexivity.
Qed.

(** Replication: the code read is drawn at the first position, and the
    positions that are left on the page get no code at all. *)
Lemma replicate_code (r : nat) :
  forall st,
    iterate_over_single_page st = true ->
    line st = "" -> unread st = [] ->
    0 <= x st < H -> 0 <= y st < V ->
    Z.of_nat (S r) = H * V - (x st * V + y st) ->
    exists st',
      loop_ (S r) st = Some st'
      /\ x st' = 0 /\ y st' = 0
      /\ blocks (output st')
         = (blocks (output st) ++ code_accum st :: repeat "" r)%list.
Proof.
  destruct valid as (HH & HV & HF & EH & EV & EF).
  induction r as [|r IH]; intros st Hit Hline Hun Hx Hy Hr.
  - rewrite loop_step by (unfold continues; now rewrite Hit, orb_true_r).
    cbn [is_csv]. rewrite (body_code_replicate st Hit).
    destruct (place_keeps_input spec Code None leading_spaces min_label_lines
                                st) as (_ & _ & El & Eu & Ei).
    cbv zeta in El, Eu, Ei.
    pose proof (place_walk spec Code None leading_spaces min_label_lines st)
      as Hw. cbv zeta in Hw.
    rewrite (advance_column_major spec H V _ _ EH EV Hx Hy) in Hw.
    unfold read_line. rewrite Eu, Hun.
    set (st2 := with_line "" [] (place_ st)).
    assert (E2 : line st2 = "") by reflexivity.
    rewrite (code_guard_at_eof st2 E2).
    change (x st2) with (x (place_ st)). change (y st2) with (y (place_ st)).
    change (iterate_over_single_page st2)
      with (iterate_over_single_page (place_ st)).
    rewrite Ei, Hit. cbn [andb].
    destruct (Z.ltb_spec (y st + 1) V) as [Hyv|Hyv]; [nia|].
    destruct (Z.ltb_spec (x st + 1) H) as [Hxh|Hxh]; [nia|].
    destruct Hw as (Ex & Ey & _).
    rewrite Ex, Ey. cbn [Z.eqb andb negb]. rewrite andb_false_r.
    eexists. split.
    + apply loop_stop. unfold continues. reflexivity.
    + cbn [x y output with_iterate]. change (x st2) with (x (place_ st)).
      change (y st2) with (y (place_ st)).
      change (output st2) with (output (place_ st)).
      rewrite Ex, Ey, place_code_blocks. repeat split; reflexivity.
  - rewrite loop_step by (unfold continues; now rewrite Hit, orb_true_r).
    cbn [is_csv]. rewrite (body_code_replicate st Hit).
    destruct (place_keeps_input spec Code None leading_spaces min_label_lines
                                st) as (_ & _ & El & Eu & Ei).
    cbv zeta in El, Eu, Ei.
    pose proof (place_walk spec Code None leading_spaces min_label_lines st)
      as Hw. cbv zeta in Hw.
    rewrite (advance_column_major spec H V _ _ EH EV Hx Hy) in Hw.
    unfold read_line. rewrite Eu, Hun.
    set (st2 := with_line "" [] (place_ st)).
    assert (E2 : line st2 = "") by reflexivity.
    rewrite (code_guard_at_eof st2 E2).
    change (x st2) with (x (place_ st)). change (y st2) with (y (place_ st)).
    change (iterate_over_single_page st2)
      with (iterate_over_single_page (place_ st)).
    rewrite Ei, Hit. cbn [andb].
    assert (Hnew : exists x1 y1,
               x (place_ st) = x1 /\ y (place_ st) = y1
               /\ 0 <= x1 < H /\ 0 <= y1 < V
               /\ (x1 =? 0) && (y1 =? 0) = false
               /\ Z.of_nat (S r) = H * V - (x1 * V + y1)).
    { destruct (Z.ltb_spec (y st + 1) V) as [Hyv|Hyv];
        [|destruct (Z.ltb_spec (x st + 1) H) as [Hxh|Hxh]];
        destruct Hw as (Ex & Ey & _).
      - exists (x st), (y st + 1). repeat split; try lia; try nia;
          apply andb_false_iff; right; apply Z.eqb_neq; lia.
      - exists (x st + 1), 0. repeat split; try lia; try nia;
          apply andb_false_iff; left; apply Z.eqb_neq; lia.
      - exfalso. nia. }
    destruct Hnew as (x1 & y1 & Ex & Ey & Hx1 & Hy1 & Horigin & Hr1).
    rewrite Ex, Ey, Horigin.
    replace (V <=? y1) with false by (symmetry; apply Z.leb_gt; lia).
    replace (H <=? x1) with false by (symmetry; apply Z.leb_gt; lia).
    cbn [negb andb].
    destruct (IH (with_iterate true st2)) as (st' & Hl & Ex' & Ey' & Hb');
      auto.
    + cbn [x with_iterate]. change (x st2) with (x (place_ st)). lia.
    + cbn [y with_iterate]. change (y st2) with (y (place_ st)). lia.
    + cbn [x y with_iterate].
      change (x st2) with (x (place_ st)). change (y st2) with (y (place_ st)).
      rewrite Ex, Ey. exact Hr1.
    + exists st'. split; [exact Hl|].
      cbn [output code_accum with_iterate] in Hb'.
      change (output st2) with (output (place_ st)) in Hb'.
      change (code_accum st2) with (code_accum (place_ st)) in Hb'.
      rewrite place_code_blocks, place_code_fields, <- app_assoc in Hb'.
      repeat split; auto.
Qed.

End CodeReplication.

(** X16: code input without a delimiter.  The lines of the file, stripped
    of trailing whitespace, are the code of one label; it is drawn at the
    position of the first label only.  The run then goes on to the end of
    the page as it does for a text label, but the code was reset after the
    first placement: every other position of the page gets an empty
    block. *)
Theorem code_is_drawn_once (spec : Sheet) (H V F : Z) (infile : Infile)
  (leading_spaces : Z) (show_bounding_box : bool) (min_label_lines : Z)
  (fuel : nat) :
  valid_sheet spec H V F ->
  text infile <> "" ->
  (length (Py.readlines (text infile)) + Z.to_nat (H * V) <= fuel)%nat ->
  exists st doc,
    make_labels fuel spec infile Code None leading_spaces show_bounding_box
                min_label_lines = Some (Completed st doc)
    /\ x st = 0 /\ y st = 0
    /\ blocks doc
       = verbatim (map Py.rstrip (Py.readlines (text infile)))
         :: repeat "" (Z.to_nat (H * V - F)).
Proof.
  intros Hv Htext Hfuel.
  pose proof Hv as (HH & HV & HF & EH & EV & EF).
  destruct (start_position spec H V F Hv) as [Ex0 Ey0].
  assert (Hx0 : 0 <= (F - 1) / V < H).
  { split; [apply Z.div_pos; lia|apply Z.div_lt_upper_bound; lia]. }
  pose proof (Z.mod_pos_bound (F - 1) V ltac:(lia)) as Hy0.
  pose proof (Z.div_mod (F - 1) V ltac:(lia)) as Hdm.
  unfold make_labels.
  destruct (Qeq_bool (s_vert_num_labels spec) 0) eqn:Ez.
  { exfalso. apply Qeq_bool_eq in Ez. rewrite EV in Ez.
    apply (inject_Z_injective V 0) in Ez. lia. }
  cbn [is_csv text]. rewrite Ex0, Ey0.
  pose proof (readlines_nonempty (text infile)) as Hne.
  destruct (Py.readlines (text infile)) as [|l0 rest] eqn:El.
  { apply readlines_nil in El. contradiction. }
  inversion Hne as [|? ? Hl0 Hrest]; subst.
  unfold read_line. cbn [unread].
  set (st0 := with_line l0 rest _).
  set (r := Z.to_nat (H * V - F)).
  cbn [length] in Hfuel.
  replace fuel
    with (S (length rest) + (S r + (fuel - S (length rest) - S r)))%nat
    by (unfold r; lia).
  destruct (read_all_code spec H V F Hv leading_spaces min_label_lines rest
              st0 (S r + (fuel - S (length rest) - S r))%nat [])
    as (st1 & Hloop & Hca & Ex & Ey & Eo & Eline & Eu & Ei); auto.
  rewrite Hloop.
  destruct (replicate_code spec H V F Hv leading_spaces min_label_lines r st1)
    as (st' & Hl & Ex' & Ey' & Hb); auto.
  - rewrite Ex. exact Hx0.
  - rewrite Ey. exact Hy0.
  - rewrite Ex, Ey. unfold r. cbn [x y st0 with_line]. nia.
  - rewrite (loop_fuel_mono _ _ _ _ _ _ _ _ _ Hl).
    exists st'. eexists. split; [reflexivity|].
    rewrite Ex', Ey'. cbn [Z.eqb andb]. rewrite app_nil_r.
    rewrite Hb, Eo, Hca. repeat split; reflexivity.
Qed.

(** Two lines of code on a sheet of 2 columns of 2 labels: the code is in
    the first block, the three other blocks are empty. *)
Lemma code_is_drawn_once_witness :
  exists st doc,
    make_labels 6 sheet_5168 two_lines_of_code Code None 0 false 0
    = Some (Completed st doc)
    /\ x st = 0 /\ y st = 0
    /\ blocks doc
       = verbatim (map Py.rstrip (Py.readlines (text two_lines_of_code)))
         :: repeat "" (Z.to_nat (2 * 2 - 1)).
Proof.
  apply (code_is_drawn_once sheet_5168 2 2 1 two_lines_of_code 0 false 0 6).
  - unfold valid_sheet. repeat split; try lia; reflexivity.
  - discriminate.
  - vm_compute. lia.
Defined.

(* ================================================================= *)
(** ** When the loader fails *)






(* ================================================================= *)
(** ** Text that PostScript reads back *)

(** X20: the escaping of line input is sound.  Whatever a line holds, the
    string written for it is closed by the parenthesis of its [show]
    instruction and by no character of the line, and PostScript reads the
    text of the line back from it. *)
Theorem escaped_line_is_read_back (l rest : string) :
  ps_unescape (escape l) = l
  /\ ps_string_end 0 (escape l ++ ")" ++ rest) = Some rest.
Proof. split; [apply escape_read_back|apply escape_balanced]. Qed.

(* ================================================================= *)
(** ** Runs that return *)

(** Three labels on an avery5160 sheet, read as one label without a
    delimiter: 6 lines and 30 positions. *)
Lemma make_labels_returns_witness :
  (exists st doc,
      make_labels 36 sheet_5160 three_labels Line None 0 false 0
      = Some (Completed st doc))
  \/ (Line = Csv /\ csv_rows three_labels = []
      /\ make_labels 36 sheet_5160 three_labels Line None 0 false 0
         = Some (Died StopIteration (prologue sheet_5160 false))).
Proof.
  apply (make_labels_returns 36 sheet_5160 3 10 1 three_labels Line None 0
           false 0).
  - unfold valid_sheet. repeat split; try lia; reflexivity.
  - vm_compute. lia.
Defined.
